(** * Robot Framework packaging script ([package.py]) and the
      [ListenImports] test listener: a shallow embedding and its properties.

    The script is Python 2 ([urllib.urlretrieve], byte strings), so a Python
    [str] is a Rocq [string] of 8-bit characters.  The file system is a finite
    map from paths to nodes, the external tools ([javac], [java], [jar],
    [setup.py], the network, the clock) are fields of an environment record,
    and Python exceptions are the error side of a state-and-error monad. *)

From Stdlib Require Import String Ascii ZArith List Bool Lia.
From Stdlib Require Import Decimal DecimalString DecimalPos DecimalZ.
From stdpp Require Import base option list gmap strings sorting.

Local Open Scope string_scope.
Local Open Scope list_scope.

(** ** Python string operations *)

Module PyStr.

Definition nl : string := String (ascii_of_nat 10) "".

(** [sep.join(items)] *)
Definition join (sep : string) (items : list string) : string :=
  String.concat sep items.

(** ['\n'.join(lines) + '\n']: a text given line by line. *)
Definition unlines (ls : list string) : string :=
  String.concat "" (map (fun l => l +:+ nl) ls).

(** [s.startswith(p)] *)
Definition startswith (s p : string) : bool := String.prefix p s.

(** [s.endswith(p)] *)
Definition endswith (s p : string) : bool :=
  let n := String.length s in
  let m := String.length p in
  (m <=? n)%nat && String.eqb (substring (n - m) m s) p.

(** [s.replace(old, new)] for a non-empty [old]: occurrences are replaced
    from the left and do not overlap.  [skip] counts the characters of an
    occurrence that are still to be dropped. *)
Fixpoint replace_from (old new : string) (skip : nat) (s : string) : string :=
  match s with
  | EmptyString => EmptyString
  | String c s' =>
      match skip with
      | S k => replace_from old new k s'
      | O =>
          if String.prefix old s
          then new +:+ replace_from old new (String.length old - 1) s'
          else String c (replace_from old new 0 s')
      end
  end.

Definition replace (s old new : string) : string := replace_from old new 0 s.

(** [s.split(sep)] for a one-character separator. *)
Fixpoint split (sep : ascii) (s : string) : list string :=
  match s with
  | EmptyString => [EmptyString]
  | String c s' =>
      if Ascii.eqb c sep then EmptyString :: split sep s'
      else match split sep s' with
           | h :: t => String c h :: t
           | [] => [String c EmptyString]
           end
  end.

(** [l[-k:]] for [k > 0]: the last [k] items, or all of them. *)
Definition last_items {A} (k : nat) (l : list A) : list A :=
  skipn (length l - k) l.

(** ['%d' % z] *)
Definition format_d (z : Z) : string := NilZero.string_of_int (Z.to_int z).

(** ['%02d' % z]: zero padded to two characters; a negative number already
    has two. *)
Definition format_02d (z : Z) : string :=
  let s := format_d z in
  if (String.length s <? 2)%nat then "0" +:+ s else s.

Definition is_digit (c : ascii) : bool :=
  let n := nat_of_ascii c in (48 <=? n)%nat && (n <=? 57)%nat.

Fixpoint all_chars (p : ascii -> bool) (s : string) : bool :=
  match s with
  | EmptyString => true
  | String c s' => p c && all_chars p s'
  end.

End PyStr.

(** ** Regular expressions of the [re] module, as far as the script uses them

    Matching is by Brzozowski derivatives.  Every pattern of the script has
    the shape [^body$] and is used through [search] without flags: [^] anchors
    at the start of the string, and [$] matches at the end of the string or
    just before a newline that ends the string. *)

Module Re.

Inductive re : Type :=
| Void : re
| Eps : re
| Chr : ascii -> re
| Digit : re                      (* \d on a byte string: 0-9 *)
| Cat : re -> re -> re
| Alt : re -> re -> re
| Star : re -> re.

Definition Plus (r : re) : re := Cat r (Star r).       (* r+ *)
Definition Opt (r : re) : re := Alt r Eps.             (* r? *)

Fixpoint Str (s : string) : re :=
  match s with
  | EmptyString => Eps
  | String c s' => Cat (Chr c) (Str s')
  end.

Fixpoint nullable (r : re) : bool :=
  match r with
  | Void => false
  | Eps => true
  | Chr _ => false
  | Digit => false
  | Cat a b => nullable a && nullable b
  | Alt a b => nullable a || nullable b
  | Star _ => true
  end.

Fixpoint deriv (c : ascii) (r : re) : re :=
  match r with
  | Void => Void
  | Eps => Void
  | Chr d => if Ascii.eqb c d then Eps else Void
  | Digit => if PyStr.is_digit c then Eps else Void
  | Cat a b =>
      if nullable a then Alt (Cat (deriv c a) b) (deriv c b)
      else Cat (deriv c a) b
  | Alt a b => Alt (deriv c a) (deriv c b)
  | Star a => Cat (deriv c a) (Star a)
  end.

Fixpoint fullmatch (r : re) (s : string) : bool :=
  match s with
  | EmptyString => nullable r
  | String c s' => fullmatch (deriv c r) s'
  end.

(** [re.compile('^' + body + '$').search(s)], as a truth value. *)
Definition search_anchored (body : re) (s : string) : bool :=
  fullmatch (Cat body (Opt (Chr (ascii_of_nat 10)))) s.

End Re.


(** ** The interpreter's view of the world

    A path is the list of its components below the file-system root; the
    file system maps the paths that exist to a file (with its data) or a
    directory.  The root itself always exists. *)

Module Py.

Definition path : Type := list string.

Inductive node : Type :=
| File (data : string)
| Dir.

#[global] Instance node_eq_dec : EqDecision node.
Proof. solve_decision. Defined.

Abbreviation FS := (gmap path node).

(** The exceptions the script can meet. *)
Inductive exn : Type :=
| KeyError | IndexError | TypeError | ValueError
| OSError | IOError | ImportError | SyntaxError | BadZipfile
| CalledProcessError (returncode : Z)
| SystemExit (code : Z).

Inductive result (A : Type) : Type :=
| Raise (e : exn)
| Ok (a : A).
Arguments Raise {A} e.
Arguments Ok {A} a.

(** [time.localtime()[:6]] *)
Record struct_time : Type := {
  tm_year : Z; tm_mon : Z; tm_mday : Z;
  tm_hour : Z; tm_min : Z; tm_sec : Z
}.

(** The globals of the generated module [version]. *)
Record version_module : Type := {
  VERSION : string;
  RELEASE : string;
  TIMESTAMP : string
}.

(** What a started process did: the executable was not found, or it ran,
    left the file system in some state and exited with a return code. *)
Inductive proc_result : Type :=
| NotFound
| Exited (returncode : Z) (after : FS).

Record World : Type := {
  fs : FS;                                  (* the file system *)
  stdout : list string;                     (* one item per [print] *)
  ticks : nat;                              (* clock readings so far *)
  sys_modules : option version_module       (* sys.modules.get('version') *)
}.

Definition set_fs (f : FS) (w : World) : World :=
  {| fs := f; stdout := stdout w; ticks := ticks w;
     sys_modules := sys_modules w |}.

(** What the script cannot decide itself. *)
Record Env : Type := {
  ROOT_PATH : path;                         (* abspath(dirname(__file__)) *)
  os_sep : string;                          (* os.sep *)
  os_name : string;                         (* os.name *)
  sys_executable : string;                  (* sys.executable *)
  localtime : nat -> struct_time;           (* the n-th reading of the clock *)
  os_system : string -> FS -> Z * FS;       (* os.system(command) *)
  spawn : list string -> option path -> bool -> FS -> proc_result;
                                            (* Popen(argv, cwd, shell).wait() *)
  fetch : string -> option string;          (* body behind a URL, if the transfer works *)
  zip_members : string -> option (list (path * node))
                                            (* members of a zip archive, if it is one *)
}.

(** *** The state-and-error monad *)

Definition M (A : Type) : Type := World -> World * result A.

Definition ret {A} (a : A) : M A := fun w => (w, Ok a).

Definition raise {A} (e : exn) : M A := fun w => (w, Raise e).

Definition bind {A B} (m : M A) (k : A -> M B) : M B :=
  fun w => match m w with
           | (w', Ok a) => k a w'
           | (w', Raise e) => (w', Raise e)
           end.

(** [try: body except ...: handler]; the handler says which exceptions
    it takes. *)
Definition try_except {A} (body : M A) (handler : exn -> option (M A)) : M A :=
  fun w => match body w with
           | (w', Ok a) => (w', Ok a)
           | (w', Raise e) =>
               match handler e with
               | Some h => h w'
               | None => (w', Raise e)
               end
           end.

Definition lift {A} (r : result A) : M A := fun w => (w, r).

Fixpoint for_each {A} (items : list A) (body : A -> M unit) : M unit :=
  match items with
  | [] => ret tt
  | x :: rest => bind (body x) (fun _ => for_each rest body)
  end.

Definition print (line : string) : M unit :=
  fun w => ({| fs := fs w; stdout := stdout w ++ [line]; ticks := ticks w;
               sys_modules := sys_modules w |}, Ok tt).

End Py.

Declare Scope py_scope.
Delimit Scope py_scope with py.
Notation "'do' x <- m ; k" := (Py.bind m (fun x => k))
  (at level 10, x name, m at level 100, k at level 200, only parsing) : py_scope.
Notation "'do_' m ; k" := (Py.bind m (fun _ => k))
  (at level 10, m at level 100, k at level 200, only parsing) : py_scope.

(** ** The library calls of the script: [os], [os.path], [shutil],
       [subprocess], [zipfile], [urllib], [time] *)

Module Lib.
Import Py.
Local Open Scope py_scope.

(** [top] is [p] or an ancestor of [p]. *)
Fixpoint is_prefix (top p : path) : bool :=
  match top, p with
  | [], _ => true
  | a :: top', b :: p' => String.eqb a b && is_prefix top' p'
  | _ :: _, [] => false
  end.

(** The directory part and the name of a path; the root has neither. *)
Fixpoint split_last (p : path) : option (path * string) :=
  match p with
  | [] => None
  | [name] => Some ([], name)
  | a :: p' =>
      match split_last p' with
      | Some (d, name) => Some (a :: d, name)
      | None => None
      end
  end.

Definition lookup_node (f : FS) (p : path) : option node :=
  match p with
  | [] => Some Dir
  | _ => f !! p
  end.

Definition parent_is_dir (f : FS) (p : path) : bool :=
  match split_last p with
  | Some (d, _) => bool_decide (lookup_node f d = Some Dir)
  | None => false
  end.

(** [os.path.exists(p)] *)
Definition os_path_exists (p : path) : M bool :=
  fun w => (w, Ok (bool_decide (is_Some (lookup_node (fs w) p)))).

(** [os.mkdir(p)]: the path must be new and its parent a directory. *)
Definition os_mkdir (p : path) : M unit :=
  fun w =>
    match lookup_node (fs w) p with
    | Some _ => (w, Raise OSError)
    | None =>
        if parent_is_dir (fs w) p
        then (set_fs (<[p := Dir]> (fs w)) w, Ok tt)
        else (w, Raise OSError)
    end.

(** [f = open(p, 'w'); f.write(data); f.close()] *)
Definition write_file (p : path) (data : string) : M unit :=
  fun w =>
    match lookup_node (fs w) p with
    | Some Dir => (w, Raise IOError)
    | _ =>
        if parent_is_dir (fs w) p
        then (set_fs (<[p := File data]> (fs w)) w, Ok tt)
        else (w, Raise IOError)
    end.

(** [os.remove(p)]: only a file can be removed. *)
Definition os_remove (p : path) : M unit :=
  fun w =>
    match fs w !! p with
    | Some (File _) => (set_fs (delete p (fs w)) w, Ok tt)
    | _ => (w, Raise OSError)
    end.

(** [shutil.rmtree(p)]: [p] must be a directory; it goes with all below. *)
Definition shutil_rmtree (p : path) : M unit :=
  fun w =>
    match lookup_node (fs w) p with
    | Some Dir =>
        (set_fs (filter (fun kv => is_prefix p kv.1 = false) (fs w)) w, Ok tt)
    | _ => (w, Raise OSError)
    end.

(** The entries of directory [d]: name and node. *)
Definition entries (f : FS) (d : path) : list (string * node) :=
  omap (fun kv : path * node =>
          match split_last kv.1 with
          | Some (d', name) =>
              if decide (d' = d) then Some (name, kv.2) else None
          | None => None
          end)
       (map_to_list f).

Definition file_names (es : list (string * node)) : list string :=
  omap (fun e : string * node =>
          match e.2 with File _ => Some e.1 | Dir => None end) es.

Definition dir_names (es : list (string * node)) : list string :=
  omap (fun e : string * node =>
          match e.2 with Dir => Some e.1 | File _ => None end) es.

(** [os.listdir(d)] *)
Definition os_listdir (d : path) : M (list string) :=
  fun w =>
    match lookup_node (fs w) d with
    | Some Dir => (w, Ok (map fst (entries (fs w) d)))
    | _ => (w, Raise OSError)
    end.

(** [os.walk(top)]: one triple (root, directory names, file names) for
    [top] and for every directory below it; nothing when [top] is not a
    directory.  The generator lists a directory when it reaches it; the
    script's loop body removes files only, which no later listing of
    another directory sees, so the triples are those of the tree at the
    start. *)
Definition os_walk (top : path) : M (list (path * list string * list string)) :=
  fun w =>
    let f := fs w in
    let roots :=
      omap (fun kv : path * node =>
              match kv.2 with
              | Dir => if is_prefix top kv.1 then Some kv.1 else None
              | File _ => None
              end)
           (map_to_list f) in
    (w, Ok (map (fun root => (root, dir_names (entries f root),
                               file_names (entries f root))) roots)).

(** The ancestors of [p] from the top down, [p] included, root excluded. *)
Fixpoint ancestors_from (base : path) (rel : path) : list path :=
  match rel with
  | [] => []
  | a :: rel' => (base ++ [a]) :: ancestors_from (base ++ [a]) rel'
  end.

(** [os.makedirs] as the copying and extracting calls use it: missing
    directories on the way to [p] are created. *)
Definition make_dirs (f : FS) (p : path) : FS :=
  fold_left (fun g d => match g !! d with
                        | None => <[d := Dir]> g
                        | Some _ => g
                        end)
            (ancestors_from [] p) f.

(** [fnmatch(name, '*.pyc')] *)
Definition is_pyc (name : string) : bool := PyStr.endswith name ".pyc".

(** [shutil.copytree(src, dst, ignore=shutil.ignore_patterns('*.pyc'))]:
    [dst] must be new; it is made with its missing ancestors, and all below
    [src] is copied except names matching the pattern and what is below
    them. *)
Definition shutil_copytree_no_pyc (src dst : path) : M unit :=
  fun w =>
    match lookup_node (fs w) src, lookup_node (fs w) dst with
    | Some Dir, None =>
        let copied :=
          omap (fun kv : path * node =>
                  if is_prefix src kv.1 then
                    let rel := skipn (length src) kv.1 in
                    match rel with
                    | [] => None
                    | _ => if existsb is_pyc rel then None
                           else Some (dst ++ rel, kv.2)
                    end
                  else None)
               (map_to_list (fs w)) in
        (set_fs (fold_left (fun g kv => <[kv.1 := kv.2]> g) copied
                           (make_dirs (fs w) dst)) w, Ok tt)
    | _, _ => (w, Raise OSError)
    end.

(** [zipfile.ZipFile(archive).extractall(dst)]: every member is written
    below [dst], with the directories on its way. *)
Definition zipfile_extractall (env : Env) (archive dst : path) : M unit :=
  fun w =>
    match fs w !! archive with
    | Some (File data) =>
        match zip_members env data with
        | Some members =>
            (set_fs (fold_left
                       (fun g m => <[dst ++ m.1 := m.2]>
                                     (make_dirs g (dst ++ removelast m.1)))
                       (filter (fun m : path * node => m.1 <> []) members)
                       (fs w)) w, Ok tt)
        | None => (w, Raise BadZipfile)
        end
    | _ => (w, Raise IOError)
    end.

(** [urllib.urlretrieve(url, p)] *)
Definition urllib_urlretrieve (env : Env) (url : string) (p : path) : M unit :=
  match fetch env url with
  | Some body => write_file p body
  | None => raise IOError
  end.

(** [subprocess.check_call(argv, cwd=cwd, shell=shell)] *)
Definition subprocess_check_call (env : Env)
    (argv : list string) (cwd : option path) (shell : bool) : M unit :=
  fun w =>
    match spawn env argv cwd shell (fs w) with
    | NotFound => (w, Raise OSError)
    | Exited rc f' =>
        (set_fs f' w,
         if (rc =? 0)%Z then Ok tt else Raise (CalledProcessError rc))
    end.

(** [os.system(command)] *)
Definition os_system_call (env : Env) (command : string) : M Z :=
  fun w => let '(rc, f') := os_system env command (fs w) in
           (set_fs f' w, Ok rc).

(** [time.localtime()] *)
Definition time_localtime (env : Env) : M struct_time :=
  fun w => ({| fs := fs w; stdout := stdout w; ticks := S (ticks w);
               sys_modules := sys_modules w |},
            Ok (localtime env (ticks w))).

(** A path as the script prints it or hands it to a tool. *)
Definition path_str (env : Env) (p : path) : string :=
  os_sep env +:+ PyStr.join (os_sep env) p.

End Lib.

(** ** [package.py] *)

Module Package.
Import Py Lib Re.
Local Open Scope py_scope.

Definition backslash : string := String (ascii_of_nat 92) "".

(** The module docstring, printed on a usage error. *)
Definition __doc__ : string :=
  PyStr.unlines
    [ "Packaging script for Robot Framework";
      "";
      "Usage:  package.py command version_number [release_tag]";
      "";
      "Argument 'command' can have one of the following values:";
      "  - sdist    : create source distribution";
      "  - wininst  : create Windows installer";
      "  - all      : create both packages";
      "  - version  : update only version information in 'src/robot/version.py'";
      "  - jar      : create stand-alone jar file containing RF and Jython";
      "";
      "'version_number' must be a version number in format '2.x(.y)', 'trunk' or";
      "'keep'. With 'keep', version information is not updated.";
      "";
      "'release_tag' must be either 'alpha', 'beta', 'rc' or 'final', where all but";
      "the last one can have a number after the name like 'alpha1' or 'rc2'. When";
      "'version_number' is 'trunk', 'release_tag' is automatically assigned to the";
      "current date.";
      "";
      "When creating the jar distribution, jython.jar must be placed in 'ext-lib'";
      "directory, under the project root.";
      "";
      "This script uses 'setup.py' internally. Distribution packages are created";
      "under 'dist' directory, which is deleted initially. Depending on your system,";
      "you may need to run this script with administrative rights (e.g. with 'sudo').";
      "";
      "Examples:";
      "  package.py sdist 2.0 final";
      "  package.py wininst keep";
      "  package.py all 2.1.13 alpha";
      "  package.py sdist trunk";
      "  package.py version trunk" ].

Definition JYTHON_VERSION : string := "2.5.3".
Definition INSTALL_SCRIPT : string := "robot_postinstall.py".

(** An item of [VERSIONS] or [RELEASES]: a compiled pattern [^body$] or a
    plain string. *)
Inductive item : Type :=
| Pattern (body : re)
| Literal (s : string).

(** The body of [re.compile('^2\.\d+(\.\d+)?$')] *)
Definition version_pattern : re :=
  Cat (Str "2.") (Cat (Plus Digit) (Opt (Cat (Chr ".") (Plus Digit)))).

(** [[re.compile('^2\.\d+(\.\d+)?$'), 'trunk', 'keep']] *)
Definition VERSIONS : list item :=
  [ Pattern version_pattern; Literal "trunk"; Literal "keep" ].

(** [[re.compile('^a\d*$'), re.compile('^b\d*$'), re.compile('^rc\d*$'),
     'final']] *)
Definition RELEASES : list item :=
  [ Pattern (Cat (Chr "a") (Star Digit));
    Pattern (Cat (Chr "b") (Star Digit));
    Pattern (Cat (Str "rc") (Star Digit));
    Literal "final" ].

(** The lines of [VERSION_CONTENT] around the three assignments. *)
Definition VERSION_CONTENT_head : list string :=
  [ "# Automatically generated by 'package.py' script.";
    "";
    "import sys";
    "" ].

Definition VERSION_CONTENT_tail : list string :=
  [ "";
    "def get_version(sep=' '):";
    "    if RELEASE == 'final':";
    "        return VERSION";
    "    return VERSION + sep + RELEASE";
    "";
    "def get_full_version(who=''):";
    "    sys_version = sys.version.split()[0]";
    "    version = '%s %s (%s %s on %s)' " +:+ backslash;
    "        % (who, get_version(), _get_interpreter(), sys_version, sys.platform)";
    "    return version.strip()";
    "";
    "def _get_interpreter():";
    "    if sys.platform.startswith('java'):";
    "        return 'Jython'";
    "    if sys.platform == 'cli':";
    "        return 'IronPython'";
    "    if 'PyPy' in sys.version:";
    "        return 'PyPy'";
    "    return 'Python'" ].

(** [VERSION_CONTENT % locals()] *)
Definition VERSION_CONTENT (version_number release_tag timestamp : string)
  : string :=
  PyStr.unlines
    (VERSION_CONTENT_head
     ++ [ "VERSION = '" +:+ version_number +:+ "'";
          "RELEASE = '" +:+ release_tag +:+ "'";
          "TIMESTAMP = '" +:+ timestamp +:+ "'" ]
     ++ VERSION_CONTENT_tail).

(** [get_version(sep)] of the generated module. *)
Definition get_version (m : version_module) (sep : string) : string :=
  if String.eqb (RELEASE m) "final" then VERSION m
  else VERSION m +:+ sep +:+ RELEASE m.

(** *** Loading the generated module

    The interpreter runs the text of [version.py].  The model reads back a
    text of the generated shape: the fixed lines must be in place, and each
    assignment must be a one-line literal in single quotes.  A literal of
    printable ASCII characters other than the quote and the backslash
    denotes itself; any other text is a [SyntaxError] here. *)

Definition plain_char (c : ascii) : bool :=
  let n := nat_of_ascii c in
  (32 <=? n)%nat && (n <=? 126)%nat && negb (n =? 39)%nat && negb (n =? 92)%nat.

Definition quoted_value (name line : string) : option string :=
  let pre := name +:+ " = '" in
  if PyStr.startswith line pre && PyStr.endswith line "'"
     && (String.length pre + 1 <=? String.length line)%nat
  then
    let body := substring (String.length pre)
                          (String.length line - String.length pre - 1) line in
    if PyStr.all_chars plain_char body then Some body else None
  else None.

Definition parse_version_module (text : string) : option version_module :=
  match PyStr.split (ascii_of_nat 10) text with
  | l0 :: l1 :: l2 :: l3 :: lv :: lr :: lt :: rest =>
      if bool_decide ([l0; l1; l2; l3] = VERSION_CONTENT_head)
         && bool_decide (rest = VERSION_CONTENT_tail ++ [""])
      then
        match quoted_value "VERSION" lv, quoted_value "RELEASE" lr,
              quoted_value "TIMESTAMP" lt with
        | Some v, Some r, Some t =>
            Some {| VERSION := v; RELEASE := r; TIMESTAMP := t |}
        | _, _, _ => None
        end
      else None
  | _ => None
  end.

(** [str(x)] of a string or [None], as [%s] formats it. *)
Definition str_of (x : option string) : string :=
  match x with
  | Some s => s
  | None => "None"
  end.

(** [name.capitalize()] *)
Definition lower_char (c : ascii) : ascii :=
  let n := nat_of_ascii c in
  if (65 <=? n)%nat && (n <=? 90)%nat then ascii_of_nat (n + 32) else c.

Definition upper_char (c : ascii) : ascii :=
  let n := nat_of_ascii c in
  if (97 <=? n)%nat && (n <=? 122)%nat then ascii_of_nat (n - 32) else c.

Fixpoint map_chars (f : ascii -> ascii) (s : string) : string :=
  match s with
  | EmptyString => EmptyString
  | String c s' => String (f c) (map_chars f s')
  end.

Definition capitalize (s : string) : string :=
  match s with
  | EmptyString => EmptyString
  | String c s' => String (upper_char c) (map_chars lower_char s')
  end.

(** [_verify_version(given, valid)].  [given == item] can hold for a plain
    string only; a pattern's [search] needs a string and raises [TypeError]
    on [None]. *)
Fixpoint _verify_version (given : option string) (valid : list item)
  : result (option string) :=
  match valid with
  | [] => Raise ValueError
  | Literal s :: rest =>
      if bool_decide (given = Some s) then Ok given
      else _verify_version given rest
  | Pattern body :: rest =>
      match given with
      | None => Raise TypeError
      | Some g =>
          if search_anchored body g then Ok given
          else _verify_version given rest
      end
  end.

Section WithEnv.
Context (env : Env).

Definition DIST_PATH : path := ROOT_PATH env ++ ["dist"].
Definition BUILD_PATH : path := ROOT_PATH env ++ ["build"].
Definition ROBOT_PATH : path := ROOT_PATH env ++ ["src"; "robot"].
Definition JAVA_SRC : path :=
  ROOT_PATH env ++ ["src"; "java"; "org"; "robotframework"].
Definition SETUP_PATH : path := ROOT_PATH env ++ ["setup.py"].
Definition BITMAP : path := ROOT_PATH env ++ ["robot.bmp"].
Definition VERSION_PATH : path := ROBOT_PATH ++ ["version.py"].

(** [sys.path.insert(0, ROBOT_PATH); from version import get_version]:
    the module is taken from [sys.modules] when it was imported before in
    this process, and loaded from [version.py] otherwise. *)
Definition import_version : M version_module :=
  fun w =>
    match sys_modules w with
    | Some m => (w, Ok m)
    | None =>
        match fs w !! VERSION_PATH with
        | Some (File text) =>
            match parse_version_module text with
            | Some m =>
                ({| fs := fs w; stdout := stdout w; ticks := ticks w;
                    sys_modules := Some m |}, Ok m)
            | None => (w, Raise SyntaxError)
            end
        | _ => (w, Raise ImportError)
        end
    end.

Definition _update_version (version_number : string)
    (release_tag : option string) : M unit :=
  do t <- time_localtime env ;
  let timestamp :=
    PyStr.format_d (tm_year t) +:+ PyStr.format_02d (tm_mon t)
    +:+ PyStr.format_02d (tm_mday t) +:+ "-"
    +:+ PyStr.format_02d (tm_hour t) +:+ PyStr.format_02d (tm_min t)
    +:+ PyStr.format_02d (tm_sec t) in
  do_ write_file VERSION_PATH
        (VERSION_CONTENT version_number (str_of release_tag) timestamp) ;
  print ("Updated version to " +:+ version_number +:+ " "
         +:+ str_of release_tag).

Definition _keep_version : M unit :=
  do m <- import_version ;
  print ("Keeping version " +:+ get_version m " ").

Definition version (version_number : string) (release_tag : option string)
  : M string :=
  do_ lift (_verify_version (Some version_number) VERSIONS) ;
  do_ (if String.eqb version_number "keep" then
         _keep_version
       else if String.eqb version_number "trunk" then
         do t <- time_localtime env ;
         _update_version version_number
           (Some (PyStr.format_d (tm_year t) +:+ PyStr.format_02d (tm_mon t)
                  +:+ PyStr.format_02d (tm_mday t)))
       else
         do tag <- lift (_verify_version release_tag RELEASES) ;
         _update_version version_number tag) ;
  do m <- import_version ;
  ret (get_version m "").

(** [version] applied to the unpacked [version_info]: one or two
    positional arguments. *)
Definition version_star (version_info : list string) : M string :=
  match version_info with
  | [version_number] => version version_number None
  | [version_number; release_tag] => version version_number (Some release_tag)
  | _ => raise TypeError
  end.

Definition _clean : M unit :=
  do_ print "Cleaning up..." ;
  for_each [DIST_PATH; BUILD_PATH]
    (fun p => do e <- os_path_exists p ;
              if e then shutil_rmtree p else ret tt).

Definition _verify_platform (version_number : string)
    (release_tag : option string) : M bool :=
  if bool_decide (release_tag = Some "final")
     && negb (String.eqb (os_sep env) backslash)
  then
    do_ print "Final Windows installers can only be created in Windows." ;
    do_ print "Windows installer was not created." ;
    ret false
  else ret true.

Definition _verify_platform_star (version_info : list string) : M bool :=
  match version_info with
  | [version_number] => _verify_platform version_number None
  | [version_number; release_tag] =>
      _verify_platform version_number (Some release_tag)
  | _ => raise TypeError
  end.

Definition _create (command name : string) : M unit :=
  do_ print ("Creating " +:+ name +:+ "...") ;
  do rc <- os_system_call env
             (sys_executable env +:+ " " +:+ path_str env SETUP_PATH
              +:+ " " +:+ command) ;
  do_ (if negb (rc =? 0)%Z then
         do_ print ("Creating " +:+ name +:+ " failed.") ;
         raise (SystemExit rc)
       else ret tt) ;
  print (capitalize name +:+ " created successfully.").

Definition _create_sdist : M unit :=
  _create "sdist --force-manifest" "source distribution".

Definition _create_wininst : M unit :=
  do_ _create ("bdist_wininst --bitmap " +:+ path_str env BITMAP
               +:+ " --install-script " +:+ INSTALL_SCRIPT)
              "Windows installer" ;
  if negb (String.eqb (os_sep env) backslash) then
    do_ print "Warning: Windows installers created on other platforms may not" ;
    print "be exactly identical to ones created in Windows."
  else ret tt.

Definition _announce : M unit :=
  do_ print "Created:" ;
  do names <- os_listdir DIST_PATH ;
  for_each names (fun name => print (path_str env (DIST_PATH ++ [name]))).

Definition sdist (version_info : list string) : M unit :=
  do_ version_star version_info ;
  do_ _clean ;
  do_ _create_sdist ;
  _announce.

Definition wininst (version_info : list string) : M unit :=
  do_ version_star version_info ;
  do_ _clean ;
  do ok <- _verify_platform_star version_info ;
  if ok then
    do_ _create_wininst ;
    _announce
  else ret tt.

Definition all (version_info : list string) : M unit :=
  do_ version_star version_info ;
  do_ _clean ;
  do_ _create_sdist ;
  do ok <- _verify_platform_star version_info ;
  do_ (if ok then _create_wininst else ret tt) ;
  _announce.

Definition _get_jython_jar : M path :=
  let lib_dir := ROOT_PATH env ++ ["ext-lib"] in
  let jar_path :=
    lib_dir ++ ["jython-standalone-" +:+ JYTHON_VERSION +:+ ".jar"] in
  do found <- os_path_exists jar_path ;
  if found then ret jar_path
  else
    do have_dir <- os_path_exists lib_dir ;
    do_ (if negb have_dir then os_mkdir lib_dir else ret tt) ;
    let dl_url :=
      "http://search.maven.org/remotecontent?filepath=org/python/jython-standalone/"
      +:+ JYTHON_VERSION +:+ "/jython-standalone-" +:+ JYTHON_VERSION
      +:+ ".jar" in
    do_ print ("Jython not found, going to download from " +:+ dl_url) ;
    do_ urllib_urlretrieve env dl_url jar_path ;
    ret jar_path.

Definition _compile_java_classes (tmpdir jython_jar : path) : M unit :=
  do names <- os_listdir JAVA_SRC ;
  let source_files :=
    map (fun f => path_str env (JAVA_SRC ++ [f]))
        (filter (fun f => PyStr.endswith f ".java" = true) names) in
  do_ print ("Compiling "
             +:+ PyStr.format_d (Z.of_nat (length source_files))
             +:+ " source files") ;
  subprocess_check_call env
    (["javac"; "-d"; path_str env tmpdir; "-target"; "1.5";
      "-source"; "1.5"; "-cp"; path_str env jython_jar] ++ source_files)
    None (String.eqb (os_name env) "nt").

Definition _create_tmpdir : M path :=
  let tmpdir := ROOT_PATH env ++ ["tmp-jar-dir"] in
  do e <- os_path_exists tmpdir ;
  do_ (if e then shutil_rmtree tmpdir else ret tt) ;
  do_ os_mkdir tmpdir ;
  ret tmpdir.

Definition _unzip_jython_jar (tmpdir jython_jar : path) : M unit :=
  zipfile_extractall env jython_jar tmpdir.

Definition _copy_robot_files (tmpdir : path) : M unit :=
  (* pyc files must be excluded so that compileall works properly. *)
  let todir := tmpdir ++ ["Lib"; "robot"] in
  do_ shutil_copytree_no_pyc ROBOT_PATH todir ;
  shutil_rmtree (todir ++ ["htmldata"; "testdata"]).

Definition _compile_all_py_files (tmpdir jython_jar : path) : M unit :=
  do_ subprocess_check_call env
        ["java"; "-jar"; path_str env jython_jar; "-m"; "compileall";
         path_str env tmpdir]
        None false ;
  (* Jython will not work without its py-files, but robot will *)
  do triples <- os_walk (tmpdir ++ ["Lib"; "robot"]) ;
  for_each triples
    (fun '(root, _, files) =>
       for_each files
         (fun f => if PyStr.endswith f ".py"
                   then os_remove (root ++ [f])
                   else ret tt)).

Definition MANIFEST (version : string) : string :=
  PyStr.unlines
    [ "Manifest-Version: 1.0";
      "Main-Class: org.robotframework.RobotFramework";
      "Specification-Version: 2";
      "Implementation-Version: " +:+ version ].

Definition _overwrite_manifest (tmpdir : path) (version : string) : M unit :=
  write_file (tmpdir ++ ["META-INF"; "MANIFEST.MF"]) (MANIFEST version).

Definition _fill_jar (sourcedir jarpath : path) : M unit :=
  subprocess_check_call env
    ["jar"; "cvfM"; path_str env jarpath; "."]
    (Some sourcedir) (String.eqb (os_name env) "nt").

Definition _create_jar_file (source : path) (version : string) : M path :=
  let path := DIST_PATH ++ ["robotframework-" +:+ version +:+ ".jar"] in
  do e <- os_path_exists DIST_PATH ;
  do_ (if negb e then os_mkdir DIST_PATH else ret tt) ;
  do_ _fill_jar source path ;
  ret path.

Definition on_CalledProcessError (h : M unit) (e : exn) : option (M unit) :=
  match e with
  | CalledProcessError _ => Some h
  | _ => None
  end.

Definition jar (version_info : list string) : M unit :=
  do jython_jar <- _get_jython_jar ;
  do_ print ("Using Jython " +:+ path_str env jython_jar) ;
  do ver <- version_star version_info ;
  do tmpdir <- _create_tmpdir ;
  do_ try_except
        (do_ _compile_java_classes tmpdir jython_jar ;
         do_ _unzip_jython_jar tmpdir jython_jar ;
         do_ _copy_robot_files tmpdir ;
         do_ _compile_all_py_files tmpdir jython_jar ;
         do_ _overwrite_manifest tmpdir ver ;
         try_except
           (do jar_path <- _create_jar_file tmpdir ver ;
            print ("Created " +:+ path_str env jar_path +:+ " based on "
                   +:+ path_str env jython_jar))
           (on_CalledProcessError
              (print "Unable to create jar! Check for jar command available at the command line.")))
        (on_CalledProcessError
           (print "Unable to compile java classes! Check for javac command available at the command line.")) ;
  shutil_rmtree tmpdir.

(** [globals()[name]] for the documented commands; the helper functions
    and imported names that [globals()] also holds are not modelled. *)
Definition globals (name : string) : option (list string -> M unit) :=
  if String.eqb name "sdist" then Some sdist
  else if String.eqb name "wininst" then Some wininst
  else if String.eqb name "all" then Some all
  else if String.eqb name "version" then
    Some (fun args => do_ version_star args ; ret tt)
  else if String.eqb name "jar" then Some jar
  else None.

(** The [__main__] block; [argv] is [sys.argv]. *)
Definition main (argv : list string) : M unit :=
  try_except
    (match argv with
     | _ :: name :: args =>
         match globals name with
         | Some command => command args
         | None => raise KeyError
         end
     | _ => raise IndexError
     end)
    (fun e => match e with
              | KeyError | IndexError | TypeError | ValueError =>
                  Some (print __doc__)
              | _ => None
              end).

End WithEnv.

(** The exit status of the interpreter after [main]: 0 after a normal end,
    the low eight bits of the code of [sys.exit], and 1 after any other
    exception that nothing caught. *)
Definition exit_status (r : result unit) : Z :=
  match r with
  | Ok _ => 0
  | Raise (SystemExit code) => Z.land code 255
  | Raise _ => 1
  end.

End Package.

(** ** [ListenImports.py]: the attribute formatter of the import listener,
       on a POSIX host ([os.sep] is a slash and [os.path] is [posixpath]) *)

Module ListenImports.

(** The value of an import attribute: a list of strings, a string, or
    anything else (kept as it is). *)
Inductive attr : Type :=
| AList (items : list string)
| AStr (s : string)
| AOther (shown : string).

Definition os_sep : ascii := "/"%char.

(** [os.path.isabs(s)] of [posixpath] *)
Definition os_path_isabs (s : string) : bool := PyStr.startswith s "/".

Definition _pretty (entry : attr) : attr :=
  match entry with
  | AList items => AStr ("[" +:+ PyStr.join ", " items +:+ "]")
  | AStr s =>
      if os_path_isabs s then
        let entry := PyStr.replace (PyStr.replace s "$py.class" ".py")
                                   ".pyc" ".py" in
        let tokens := PyStr.split os_sep entry in
        let index :=
          if negb (bool_decide (last tokens = Some "__init__.py"))
          then 1%nat else 2%nat in
        AStr ("//" +:+ PyStr.join "/" (PyStr.last_items index tokens))
      else AStr s
  | AOther shown => AOther shown
  end.

End ListenImports.

(** ** A sample project tree and sample tools, to run the script on *)

Module Sample.
Import Py Lib Package.

Definition root : path := ["proj"].
Definition tmp : path := ["proj"; "tmp-jar-dir"].

(** The byte-code compiler of the sample: for every file [x.py] in a
    directory at or below [top] it writes [x$py.class] next to it. *)
Definition compileall (top : path) (f : FS) : FS :=
  fold_left
    (fun (g : FS) (out : path * node) => <[out.1 := out.2]> g)
    (omap (fun kv : path * node =>
             match kv.2, split_last kv.1 with
             | File _, Some (d, name) =>
                 if is_prefix top d && PyStr.endswith name ".py"
                 then Some (d ++ [substring 0 (String.length name - 3) name
                                  +:+ "$py.class"],
                            File "bytecode")
                 else None
             | _, _ => None
             end)
          (map_to_list f))
    f.

(** The tools of the sample, told apart by the program name:
    [javac_rc], [java_rc] and [jar_rc] are the return codes, [None] for a
    program that is not installed. *)
Definition tools (javac_rc java_rc jar_rc : option Z)
    (argv : list string) (cwd : option path) (shell : bool) (f : FS)
  : proc_result :=
  match argv with
  | "javac" :: _ =>
      match javac_rc with
      | Some rc =>
          Exited rc (<[tmp ++ ["org"; "robotframework"; "RobotFramework.class"] := File "class"]>
                     (make_dirs f (tmp ++ ["org"; "robotframework"])))
      | None => NotFound
      end
  | "java" :: _ =>
      match java_rc with
      | Some rc => Exited rc (compileall tmp f)
      | None => NotFound
      end
  | "jar" :: _ :: out :: _ =>
      match jar_rc with
      | Some rc =>
          Exited rc (if (rc =? 0)%Z
                     then <[root ++ ["dist"; substring 11 (String.length out - 11) out] := File "jar"]> f
                     else f)
      | None => NotFound
      end
  | _ => NotFound
  end.

Definition env (javac_rc java_rc jar_rc : option Z) : Env :=
  {| ROOT_PATH := root;
     os_sep := "/";
     os_name := "posix";
     sys_executable := "/usr/bin/python";
     localtime := fun _ => {| tm_year := 2013; tm_mon := 7; tm_mday := 4;
                              tm_hour := 9; tm_min := 5; tm_sec := 3 |};
     os_system := fun _ f => (0%Z, f);
     spawn := tools javac_rc java_rc jar_rc;
     fetch := fun _ => Some "jython";
     zip_members := fun _ =>
       Some [ (["META-INF"], Dir);
              (["META-INF"; "MANIFEST.MF"], File "Manifest-Version: 1.0");
              (["Lib"], Dir);
              (["Lib"; "os.py"], File "import sys") ] |}.

Definition tree : FS :=
  list_to_map
    [ (["proj"], Dir);
      (["proj"; "src"], Dir);
      (["proj"; "src"; "robot"], Dir);
      (["proj"; "src"; "robot"; "run.py"], File "import sys");
      (["proj"; "src"; "robot"; "run.pyc"], File "stale");
      (["proj"; "src"; "robot"; "version.py"], File "");
      (["proj"; "src"; "robot"; "htmldata"], Dir);
      (["proj"; "src"; "robot"; "htmldata"; "testdata"], Dir);
      (["proj"; "src"; "robot"; "htmldata"; "testdata"; "data.js"], File "x");
      (["proj"; "src"; "java"], Dir);
      (["proj"; "src"; "java"; "org"], Dir);
      (["proj"; "src"; "java"; "org"; "robotframework"], Dir);
      (["proj"; "src"; "java"; "org"; "robotframework"; "RobotFramework.java"],
       File "class RobotFramework {}") ].

Definition world : World :=
  {| fs := tree; stdout := []; ticks := 0; sys_modules := None |}.

Definition jython_jar : path :=
  ["proj"; "ext-lib"; "jython-standalone-2.5.3.jar"].

(** The sample world after the stages of [jar] that come before
    [_compile_all_py_files], with all tools in place. *)
Definition staged : World :=
  let e := env (Some 0%Z) (Some 0%Z) (Some 0%Z) in
  (bind (_get_jython_jar e) (fun jython_jar =>
   bind (version_star e ["2.8"; "final"]) (fun _ =>
   bind (_create_tmpdir e) (fun tmpdir =>
   bind (_compile_java_classes e tmpdir jython_jar) (fun _ =>
   bind (_unzip_jython_jar e tmpdir jython_jar) (fun _ =>
   _copy_robot_files e tmpdir))))) world).1.

End Sample.

(** ** Notions used to state the properties *)

Module Notions.
Import Py Lib Package.

(** What the two checks of [version] answer for its arguments: the
    exception of the first check that fails, if one does.  The release tag
    is checked for a numeric version only. *)
Definition validation_error (version_number : string)
    (release_tag : option string) : option exn :=
  match _verify_version (Some version_number) VERSIONS with
  | Raise e => Some e
  | Ok _ =>
      if String.eqb version_number "keep" || String.eqb version_number "trunk"
      then None
      else match _verify_version release_tag RELEASES with
           | Raise e => Some e
           | Ok _ => None
           end
  end.

(** The positional arguments behind a command name. *)
Definition unpack (version_info : list string)
  : option (string * option string) :=
  match version_info with
  | [version_number] => Some (version_number, None)
  | [version_number; release_tag] => Some (version_number, Some release_tag)
  | _ => None
  end.

(** [m] leaves every path that [keep] holds of as it was, whatever it
    returns or raises. *)
Definition frame {A} (keep : path -> bool) (m : M A) : Prop :=
  forall w w' r, m w = (w', r) ->
                 forall p, keep p = true -> fs w' !! p = fs w !! p.

(** The directories [os.walk(top)] visits in file system [f], and the
    paths the loop of [_compile_all_py_files] then removes: in each of
    them, the files whose name ends in [.py]. *)
Definition walk_roots (f : FS) (top : path) : list path :=
  omap (fun kv : path * node =>
          match kv.2 with
          | Dir => if is_prefix top kv.1 then Some kv.1 else None
          | File _ => None
          end)
       (map_to_list f).

Definition walk_targets (f : FS) (top : path) : list path :=
  flat_map
    (fun root =>
       map (fun name => root ++ [name])
           (List.filter (fun name => PyStr.endswith name ".py")
                        (file_names (entries f root))))
    (walk_roots f top).

End Notions.

Module Confinement.
Import Py Lib.

(** The compilers ([javac], and [java] running [compileall]) write where
    they are told to, so not below [top]: whatever they are started with
    and however they exit, every path at or below [top] is as before. *)
Definition compilers_spare (env : Env) (top : path) : Prop :=
  forall argv cwd shell f rc f',
    hd_error argv = Some "javac" \/ hd_error argv = Some "java" ->
    spawn env argv cwd shell f = Exited rc f' ->
    forall p, is_prefix top p = true -> f' !! p = f !! p.

End Confinement.

Module DateForm.
Import Py.

(** The character of a decimal digit. *)
Definition digit_char (d : Z) : ascii := ascii_of_nat (48 + Z.to_nat d).

(** A date in the form [YYYYMMDD], written digit by digit: four digits of
    the year, two of the month, two of the day. *)
Definition yyyymmdd (t : struct_time) : string :=
  let y := tm_year t in
  let m := tm_mon t in
  let d := tm_mday t in
  String (digit_char (y / 1000))
    (String (digit_char (y / 100 mod 10))
      (String (digit_char (y / 10 mod 10))
        (String (digit_char (y mod 10))
          (String (digit_char (m / 10))
            (String (digit_char (m mod 10))
              (String (digit_char (d / 10))
                (String (digit_char (d mod 10)) EmptyString))))))).

(** A decimal digit put in front of a decimal number. *)
Definition digit_uint (d : Z) (rest : Decimal.uint) : Decimal.uint :=
  match d with
  | 1 => Decimal.D1 rest | 2 => Decimal.D2 rest | 3 => Decimal.D3 rest
  | 4 => Decimal.D4 rest | 5 => Decimal.D5 rest | 6 => Decimal.D6 rest
  | 7 => Decimal.D7 rest | 8 => Decimal.D8 rest | 9 => Decimal.D9 rest
  | _ => Decimal.D0 rest
  end%Z.

(** The numbers [from], [from + 1], ..., [from + count - 1]. *)
Definition range (from count : Z) : list Z :=
  map (fun i => (from + Z.of_nat i)%Z) (seq 0 (Z.to_nat count)).

End DateForm.

Module ReLang.
Import Re.

(** Zero or more pieces, each in [L], one after the other. *)
Inductive star (L : string -> Prop) : string -> Prop :=
| star_nil : star L EmptyString
| star_app (s1 s2 : string) : L s1 -> star L s2 -> star L (s1 +:+ s2).

(** The strings a pattern stands for. *)
Fixpoint lang (r : re) : string -> Prop :=
  match r with
  | Void => fun _ => False
  | Eps => fun s => s = EmptyString
  | Chr c => fun s => s = String c EmptyString
  | Digit => fun s => exists c, PyStr.is_digit c = true /\ s = String c EmptyString
  | Cat a b => fun s => exists s1 s2, s = s1 +:+ s2 /\ lang a s1 /\ lang b s2
  | Alt a b => fun s => lang a s \/ lang b s
  | Star a => star (lang a)
  end.

(** One or more decimal digits. *)
Definition digits (x : string) : Prop :=
  x <> EmptyString /\ PyStr.all_chars PyStr.is_digit x = true.

(** A version number in the format [2.x] or [2.x.y], with [x] and [y]
    written in decimal digits. *)
Definition dotted_numeric (s : string) : Prop :=
  exists x, digits x
            /\ (s = "2." +:+ x
                \/ exists y, digits y /\ s = "2." +:+ x +:+ "." +:+ y).

End ReLang.

Module TagForm.

(** A pre-release tag as [RELEASES] has it: [a], [b] or [rc], then decimal
    digits, if any. *)
Definition prerelease (t : string) : Prop :=
  exists ds, PyStr.all_chars PyStr.is_digit ds = true
             /\ (t = "a" +:+ ds \/ t = "b" +:+ ds \/ t = "rc" +:+ ds).

End TagForm.

(** ** A sample [setup.py] *)

Module SampleBuild.
Import Py Lib Package.

(** [setup.py] of the sample: it exits with [rc], and with 0 it has put an
    archive into [dist]. *)
Definition setup_py (rc : Z) (command : string) (f : FS) : Z * FS :=
  (rc,
   if (rc =? 0)%Z
   then <[["proj"; "dist"; "robotframework-2.8.tar.gz"] := File "tar"]>
          (<[["proj"; "dist"] := Dir]> f)
   else f).

Definition env (rc : Z) : Env :=
  let e := Sample.env None None None in
  {| ROOT_PATH := ROOT_PATH e;
     os_sep := os_sep e;
     os_name := os_name e;
     sys_executable := sys_executable e;
     localtime := localtime e;
     os_system := setup_py rc;
     spawn := spawn e;
     fetch := fetch e;
     zip_members := zip_members e |}.

End SampleBuild.

(** ** [ListenImports.py]: what the listener writes for an import *)

Module Listener.
Import Py ListenImports.

Definition tab : string := String (ascii_of_nat 9) "".
Definition quote : ascii := ascii_of_nat 39.
Definition dquote : ascii := ascii_of_nat 34.

Fixpoint contains (c : ascii) (s : string) : bool :=
  match s with
  | EmptyString => false
  | String x rest => Ascii.eqb x c || contains c rest
  end.

Definition hex_digit (n : nat) : ascii :=
  match get n "0123456789abcdef" with
  | Some c => c
  | None => "0"%char
  end.

(** [repr(s)] of a byte string *)
Definition repr (s : string) : string :=
  let q := if contains quote s && negb (contains dquote s)
           then dquote else quote in
  let fix body (s : string) : string :=
    match s with
    | EmptyString => String q ""
    | String c rest =>
        let n := nat_of_ascii c in
        (if Ascii.eqb c q || Ascii.eqb c (ascii_of_nat 92)
         then String (ascii_of_nat 92) (String c "")
         else if (n =? 9)%nat then Package.backslash +:+ "t"
         else if (n =? 10)%nat then Package.backslash +:+ "n"
         else if (n =? 13)%nat then Package.backslash +:+ "r"
         else if (n <? 32)%nat || (127 <=? n)%nat
         then Package.backslash +:+ "x"
              +:+ String (hex_digit (n / 16)) (String (hex_digit (n mod 16)) "")
         else String c "")
        +:+ body rest
    end in
  String q (body s).

(** ['%s' % v]: [str(v)]; a string is itself, a list shows the [repr] of
    its items. *)
Definition percent_s (v : attr) : string :=
  match v with
  | AStr s => s
  | AList items => "[" +:+ PyStr.join ", " (map repr items) +:+ "]"
  | AOther shown => shown
  end.

(** The order of byte strings: [a <= b]. *)
Definition str_le (a b : string) : Prop := String.leb a b = true.

#[export] Instance str_le_dec : RelDecision str_le :=
  fun a b => decide (String.leb a b = true).

(** [sorted(names)] *)
Definition sorted (names : list string) : list string :=
  merge_sort str_le names.

(** A dict with string keys, as the pairs it holds in the order in which
    it is iterated; [attrs[name]]. *)
Definition getitem (attrs : list (string * attr)) (name : string) : result attr :=
  match find (fun kv : string * attr => String.eqb kv.1 name) attrs with
  | Some kv => Ok kv.2
  | None => Raise KeyError
  end.

(** [_imported]; [imports] is the text written to [self.imports] so far,
    the result is the text after the call. *)
Definition _imported (import_type name : string)
    (attrs : list (string * attr)) (imports : string) : result string :=
  let imports :=
    imports +:+ "Imported " +:+ import_type +:+ PyStr.nl
            +:+ tab +:+ "name: " +:+ name +:+ PyStr.nl in
  fold_left
    (fun (written : result string) (name : string) =>
       match written with
       | Ok imports =>
           match getitem attrs name with
           | Ok v =>
               Ok (imports +:+ tab +:+ name +:+ ": "
                           +:+ percent_s (_pretty v) +:+ PyStr.nl)
           | Raise e => Raise e
           end
       | Raise e => Raise e
       end)
    (sorted (map fst attrs))
    (Ok imports).

Definition library_import (name : string) (attrs : list (string * attr))
  : string -> result string :=
  _imported "Library" name attrs.

Definition resource_import (name : string) (attrs : list (string * attr))
  : string -> result string :=
  _imported "Resource" name attrs.

Definition variables_import (name : string) (attrs : list (string * attr))
  : string -> result string :=
  _imported "Variables" name attrs.

End Listener.

(** * Properties *)

(** ** Paths *)

Section PathFacts.
Import Py Lib.

Lemma is_prefix_spec (a b : path) :
  is_prefix a b = true <-> exists c, b = a ++ c.
Proof.
  revert b. induction a as [|x a IH]; intros b; simpl.
  - split; eauto.
  - destruct b as [|y b].
    + split; [discriminate | intros [c Hc]; discriminate].
    + rewrite andb_true_iff, String.eqb_eq, IH. split.
      * intros [-> [c ->]]. eauto.
      * intros [c Hc]. injection Hc as -> ->. eauto.
Qed.

Lemma is_prefix_app (a c : path) : is_prefix a (a ++ c) = true.
Proof. apply is_prefix_spec. eauto. Qed.

Lemma is_prefix_refl (a : path) : is_prefix a a = true.
Proof. apply is_prefix_spec. exists []. by rewrite app_nil_r. Qed.

Lemma is_prefix_trans (a b c : path) :
  is_prefix a b = true -> is_prefix b c = true -> is_prefix a c = true.
Proof.
  rewrite !is_prefix_spec. intros [x ->] [y ->]. exists (x ++ y).
  by rewrite app_assoc.
Qed.

(** Two different entries of one directory: neither is below the other. *)
Lemma is_prefix_sibling (d : path) (a b : string) (rest more : path) :
  a <> b -> is_prefix (d ++ a :: rest) (d ++ b :: more) = false.
Proof.
  intros Hab. induction d as [|x d IH]; simpl.
  - apply andb_false_iff. left. by apply String.eqb_neq.
  - by rewrite String.eqb_refl.
Qed.

Lemma is_prefix_false_below (top a b : path) :
  is_prefix top b = false -> is_prefix a b = true -> is_prefix top a = false.
Proof.
  intros Hb Hab. destruct (is_prefix top a) eqn:Ha; [|done].
  by rewrite (is_prefix_trans _ _ _ Ha Hab) in Hb.
Qed.

Lemma split_last_snoc (d : path) (name : string) :
  split_last (d ++ [name]) = Some (d, name).
Proof.
  induction d as [|x d IH]; [done|]. simpl. rewrite IH.
  by destruct d.
Qed.

Lemma split_last_Some (p d : path) (name : string) :
  split_last p = Some (d, name) -> p = d ++ [name].
Proof.
  revert d. induction p as [|x p IH]; intros d; [done|]. simpl.
  destruct p as [|y p].
  - intros [= <- <-]. done.
  - destruct (split_last (y :: p)) as [[d' n']|]; [|done].
    intros [= <- <-]. simpl. f_equal. by apply IH.
Qed.

End PathFacts.

Section VersionFacts.
Import Py Lib Re Package.
Context (env : Env).

Lemma verify_version_number_ok (vn : string) r :
  _verify_version (Some vn) VERSIONS = Ok r -> r = Some vn.
Proof.
  unfold VERSIONS. cbn [_verify_version].
  destruct (search_anchored version_pattern vn); [congruence|].
  repeat case_bool_decide; congruence.
Qed.



(** C4, at the failing input: the tag [alpha2] is refused. *)
Theorem version_rejects_alpha2 (w : World) :
  version env "2.1.13" (Some "alpha2") w = (w, Raise ValueError).
Proof. reflexivity. Qed.

End VersionFacts.


Module ListenImportsFacts.
Import ListenImports.

(** C9 (amended). On a POSIX host the formatter turns
    [/home/user/project/__init__.py] into [//project/__init__.py] (the last
    directory stays with the file name [__init__.py]; the directories before
    it go) and [/home/user/project/module$py.class] into [//module.py]. *)
Theorem pretty_init_and_compiled :
  _pretty (AStr "/home/user/project/__init__.py") = AStr "//project/__init__.py"
  /\ _pretty (AStr "/home/user/project/module$py.class") = AStr "//module.py".
Proof. split; reflexivity. Qed.

(** C9, as stated, fails: the output for [/home/user/project/__init__.py]
    does not end with [//home/user/project]. *)
Lemma pretty_init_keeps_file_name :
  ~ (exists out, _pretty (AStr "/home/user/project/__init__.py") = AStr out
                 /\ PyStr.endswith out "//home/user/project" = true).
Proof.
  intros (out & H & Hend). vm_compute in H. injection H as <-.
  vm_compute in Hend. discriminate.
Qed.
End ListenImportsFacts.

Section ResolverFacts.
Import Py Lib Re Package Notions.
Context (env : Env).

Lemma import_version_fs (w w' : World) r :
  import_version env w = (w', r) ->
  fs w' = fs w /\ stdout w' = stdout w /\ ticks w' = ticks w.
Proof.
  unfold import_version. intros H.
  repeat case_match; simplify_eq; done.
Qed.

Lemma import_version_loaded (w w' : World) (m : version_module) :
  import_version env w = (w', Ok m) -> sys_modules w' = Some m.
Proof.
  unfold import_version. intros H.
  repeat case_match; simplify_eq; done.
Qed.




Lemma version_validation_error (vn : string) (tag : option string)
    (e : exn) (w : World) :
  validation_error vn tag = Some e -> version env vn tag w = (w, Raise e).
Proof.
  unfold validation_error, version, bind, lift. intros H.
  destruct (_verify_version (Some vn) VERSIONS) as [e1|r1]; [by simplify_eq|].
  destruct (String.eqb vn "keep"); cbn [orb] in H; [discriminate|].
  destruct (String.eqb vn "trunk"); cbn [orb] in H; [discriminate|].
  destruct (_verify_version tag RELEASES) as [e2|r2]; by simplify_eq.
Qed.

Lemma version_star_validation_error (info : list string) (vn : string)
    (tag : option string) (e : exn) (w : World) :
  unpack info = Some (vn, tag) -> validation_error vn tag = Some e ->
  version_star env info w = (w, Raise e).
Proof.
  intros Hi He. unfold unpack in Hi. unfold version_star.
  destruct info as [|a [|b [|c l]]]; simplify_eq;
    by apply version_validation_error.
Qed.

End ResolverFacts.

Section CommandFacts.
Import Py Lib Re Package Notions.
Context (env : Env).

Lemma lookup_insert_outside (top q p : path) (n : node) (f : FS) :
  is_prefix top q = true -> is_prefix top p = false ->
  <[q := n]> f !! p = f !! p.
Proof.
  intros Hq Hp. apply lookup_insert_ne. intros ->. congruence.
Qed.

Lemma get_jython_jar_touches_cache_only (w w' : World) r :
  _get_jython_jar env w = (w', r) ->
  forall p, is_prefix (ROOT_PATH env ++ ["ext-lib"]) p = false ->
            fs w' !! p = fs w !! p.
Proof.
  intros H p Hp.
  pose proof (is_prefix_refl (ROOT_PATH env ++ ["ext-lib"])) as H1.
  pose proof (is_prefix_app (ROOT_PATH env ++ ["ext-lib"])
                ["jython-standalone-" +:+ JYTHON_VERSION +:+ ".jar"]) as H2.
  revert H.
  unfold _get_jython_jar, bind, os_path_exists, os_mkdir, urllib_urlretrieve,
    write_file, print, ret, raise, set_fs.
  repeat (case_match; simpl in *; simplify_eq); intros; simplify_eq; simpl;
    rewrite ?(lookup_insert_outside _ _ _ _ _ H2 Hp),
            ?(lookup_insert_outside _ _ _ _ _ H1 Hp); done.
Qed.

Lemma jar_validation_error (info : list string) (vn : string)
    (tag : option string) (e : exn) (w : World) :
  unpack info = Some (vn, tag) -> validation_error vn tag = Some e ->
  exists w' e',
    jar env info w = (w', Raise e')
    /\ forall p, is_prefix (ROOT_PATH env ++ ["ext-lib"]) p = false ->
                 fs w' !! p = fs w !! p.
Proof.
  intros Hi He. unfold jar, bind.
  destruct (_get_jython_jar env w) as [w1 [e1|jj]] eqn:Hj.
  - exists w1, e1. split; [done|].
    by apply (get_jython_jar_touches_cache_only _ _ _ Hj).
  - unfold print at 1. simpl.
    rewrite (version_star_validation_error env info vn tag e) by done.
    eexists _, e. split; [done|]. simpl.
    by apply (get_jython_jar_touches_cache_only _ _ _ Hj).
Qed.

(** C5 (amended). When a check of the version number or the release tag
    fails, [sdist], [wininst], [all] and [version] raise at once and leave
    the whole world as it was.  [jar] locates the Jython archive first, so
    there the cache directory [ext-lib] may have been made and filled by
    then; every path outside [ext-lib] is as it was, and [jar] raises. *)
Theorem validation_failure_effects (name : string)
    (command : list string -> M unit) (info : list string) (vn : string)
    (tag : option string) (e : exn) (w : World) :
  globals env name = Some command ->
  unpack info = Some (vn, tag) ->
  validation_error vn tag = Some e ->
  (name <> "jar" -> command info w = (w, Raise e))
  /\ exists w' e',
       command info w = (w', Raise e')
       /\ forall p, is_prefix (ROOT_PATH env ++ ["ext-lib"]) p = false ->
                    fs w' !! p = fs w !! p.
Proof.
  intros Hg Hi He.
  pose proof (version_star_validation_error env info vn tag e w Hi He) as Hv.
  unfold globals in Hg.
  destruct (String.eqb name "sdist") eqn:E1; [|
  destruct (String.eqb name "wininst") eqn:E2; [|
  destruct (String.eqb name "all") eqn:E3; [|
  destruct (String.eqb name "version") eqn:E4; [|
  destruct (String.eqb name "jar") eqn:E5; [|done]]]]];
    injection Hg as <-.
  1-4: split; [intros _ | exists w, e; split; [|done]].
  1-2: unfold sdist, bind; by rewrite Hv.
  1-2: unfold wininst, bind; by rewrite Hv.
  1-2: unfold all, bind; by rewrite Hv.
  1-2: unfold bind; by rewrite Hv.
  - apply String.eqb_eq in E5. split; [done|].
    by apply (jar_validation_error info vn tag e).
Qed.

End CommandFacts.


Lemma validation_failure_effects_witness :
  let env := Sample.env None None None in
  ("sdist" <> "jar" ->
   Package.sdist env ["2.8"; "alpha"] Sample.world
   = (Sample.world, Py.Raise Py.ValueError))
  /\ exists w' e',
       Package.sdist env ["2.8"; "alpha"] Sample.world = (w', Py.Raise e')
       /\ forall p, Lib.is_prefix (Py.ROOT_PATH env ++ ["ext-lib"]) p = false ->
                    Py.fs w' !! p = Py.fs Sample.world !! p.
Proof.
  intros env.
  apply (validation_failure_effects env "sdist" (Package.sdist env)
           ["2.8"; "alpha"] "2.8" (Some "alpha") Py.ValueError Sample.world);
    reflexivity.
Defined.

(** C5, as stated, fails for [jar]: with an unknown version number the check
    fails, and yet [ext-lib] has been created and the archive downloaded. *)
Lemma jar_downloads_before_validation :
  ~ (forall (env : Py.Env) (info : list string) (vn : string)
            (tag : option string) (e : Py.exn) (w : Py.World),
        Notions.unpack info = Some (vn, tag) ->
        Notions.validation_error vn tag = Some e ->
        Py.fs (Package.jar env info w).1 = Py.fs w).
Proof.
  intros H.
  specialize (H (Sample.env None None None) ["bogus"] "bogus" None
                Py.ValueError Sample.world eq_refl eq_refl).
  apply (f_equal (fun f : gmap Py.path Py.node => f !! ["proj"; "ext-lib"])) in H.
  vm_compute in H. discriminate H.
Qed.

(** ** Loops *)

Section LoopFacts.
Import Py Lib.

Lemma for_each_app {A} (l1 l2 : list A) (body : A -> M unit) (w : World) :
  for_each (l1 ++ l2) body w
  = bind (for_each l1 body) (fun _ => for_each l2 body) w.
Proof.
  revert w. induction l1 as [|x l1 IH]; intros w; [done|].
  simpl. unfold bind.
  destruct (body x w) as [w1 [e|[]]]; [done|]. apply IH.
Qed.

Lemma for_each_nested {A B} (g : A -> list B) (body : B -> M unit)
    (l : list A) (w : World) :
  for_each l (fun a => for_each (g a) body) w
  = for_each (flat_map g l) body w.
Proof.
  revert w. induction l as [|a l IH]; intros w; [done|].
  simpl. rewrite for_each_app. unfold bind.
  destruct (for_each (g a) body w) as [w1 [e|[]]]; [done|]. apply IH.
Qed.

Lemma for_each_when {A B} (c : A -> bool) (g : A -> B) (body : B -> M unit)
    (l : list A) (w : World) :
  for_each l (fun x => if c x then body (g x) else ret tt) w
  = for_each (map g (List.filter c l)) body w.
Proof.
  revert w. induction l as [|x l IH]; intros w; [done|].
  simpl. destruct (c x); simpl; unfold bind.
  - destruct (body (g x) w) as [w1 [e|[]]]; [done|]. apply IH.
  - apply IH.
Qed.

Lemma for_each_map {A B} (g : A -> B) (body : B -> M unit) (l : list A)
    (w : World) :
  for_each (map g l) body w = for_each l (fun a => body (g a)) w.
Proof.
  revert w. induction l as [|x l IH]; intros w; [done|].
  simpl. unfold bind. destruct (body (g x) w) as [w1 [e|[]]]; [done|].
  apply IH.
Qed.

Lemma for_each_ext {A} (b1 b2 : A -> M unit) (l : list A) (w : World) :
  (forall x v, b1 x v = b2 x v) -> for_each l b1 w = for_each l b2 w.
Proof.
  intros H. revert w. induction l as [|x l IH]; intros w; [done|].
  simpl. unfold bind. rewrite H.
  destruct (b2 x w) as [w1 [e|[]]]; [done|]. apply IH.
Qed.

(** Removing distinct files one after the other: all of them are gone, and
    nothing else has changed. *)
Lemma for_each_remove (ps : list path) (w : World) :
  NoDup ps ->
  (forall p, p ∈ ps -> exists data, fs w !! p = Some (File data)) ->
  exists w',
    for_each ps os_remove w = (w', Ok tt)
    /\ (forall q, q ∈ ps -> fs w' !! q = None)
    /\ (forall q, q ∉ ps -> fs w' !! q = fs w !! q).
Proof.
  revert w. induction ps as [|p ps IH]; intros w Hnd Hfiles.
  - exists w. split; [done|]. split; [|done]. intros q Hq. by apply elem_of_nil in Hq.
  - apply NoDup_cons in Hnd as [Hp Hnd].
    destruct (Hfiles p) as [data Hdata]; [by left|].
    destruct (IH (set_fs (delete p (fs w)) w) Hnd) as (w' & Hrun & Hgone & Hkept).
    { intros q Hq. destruct (Hfiles q) as [d Hd]; [by right|].
      exists d. simpl. rewrite lookup_delete_ne; [done|]. by intros ->. }
    exists w'. split; [|split].
    + simpl. unfold bind, os_remove at 1. by rewrite Hdata.
    + intros q Hq. apply elem_of_cons in Hq as [->|Hq]; [|by apply Hgone].
      rewrite Hkept by done. simpl. apply lookup_delete_eq.
    + intros q Hq. apply not_elem_of_cons in Hq as [Hqp Hq].
      rewrite Hkept by done. simpl. by apply lookup_delete_ne.
Qed.

Lemma NoDup_omap_keyed {A B K} (pick : A -> option B) (ka : A -> K)
    (kb : B -> K) (l : list A) :
  (forall a b, pick a = Some b -> kb b = ka a) ->
  NoDup (map ka l) -> NoDup (map kb (omap pick l)).
Proof.
  intros Hpick. induction l as [|a l IH]; simpl; [constructor|].
  intros Hnd. apply NoDup_cons in Hnd as [Ha Hnd].
  destruct (pick a) as [b|] eqn:Hb; [|by apply IH].
  simpl. apply NoDup_cons. split; [|by apply IH].
  intros Hin. apply list_elem_of_In, in_map_iff in Hin as (b' & Heq & Hin).
  apply list_elem_of_In, list_elem_of_omap in Hin as (a' & Hin' & Hb').
  apply Ha. apply list_elem_of_In, in_map_iff. exists a'. split.
  - apply Hpick in Hb, Hb'. congruence.
  - by apply list_elem_of_In.
Qed.

Lemma NoDup_map_filter {A B} (g : A -> B) (c : A -> bool) (l : list A) :
  NoDup (map g l) -> NoDup (map g (List.filter c l)).
Proof.
  induction l as [|a l IH]; simpl; [done|].
  intros Hnd. apply NoDup_cons in Hnd as [Ha Hnd].
  destruct (c a); [|by apply IH]. simpl. apply NoDup_cons.
  split; [|by apply IH].
  intros Hin. apply Ha.
  apply list_elem_of_In, in_map_iff in Hin as (a' & Heq & Hin).
  apply filter_In in Hin as [Hin _].
  apply list_elem_of_In, in_map_iff. by exists a'.
Qed.

Lemma NoDup_flat_map_keyed {A B} (g : A -> list B) (key : B -> A)
    (l : list A) :
  NoDup l -> (forall a, NoDup (g a)) ->
  (forall a b, b ∈ g a -> key b = a) ->
  NoDup (flat_map g l).
Proof.
  intros Hl Hg Hkey. induction l as [|a l IH]; simpl; [constructor|].
  apply NoDup_cons in Hl as [Ha Hl].
  apply NoDup_app. split; [apply Hg|]. split; [|by apply IH].
  intros b Hb Hb'. apply list_elem_of_In, in_flat_map in Hb' as (a' & Ha' & Hb').
  apply list_elem_of_In in Ha', Hb'.
  apply Hkey in Hb, Hb'. congruence.
Qed.

End LoopFacts.

(** ** The walk over [Lib/robot] *)

Section WalkFacts.
Import Py Lib Package Notions.

Lemma elem_of_entries (f : FS) (d : path) (name : string) (n : node) :
  (name, n) ∈ entries f d <-> f !! (d ++ [name]) = Some n.
Proof.
  unfold entries. rewrite list_elem_of_omap. split.
  - intros ([k n'] & Hin & Hpick). apply elem_of_map_to_list in Hin.
    simpl in Hpick. destruct (split_last k) as [[d' name']|] eqn:Hk; [|done].
    case_decide; simplify_eq. by apply split_last_Some in Hk as ->.
  - intros Hf. exists (d ++ [name], n). split.
    + by apply elem_of_map_to_list.
    + simpl. rewrite split_last_snoc. by rewrite decide_True.
Qed.

Lemma elem_of_file_names (f : FS) (d : path) (name : string) :
  name ∈ file_names (entries f d)
  <-> exists data, f !! (d ++ [name]) = Some (File data).
Proof.
  unfold file_names. rewrite list_elem_of_omap. split.
  - intros ([name' n] & Hin & Hpick). simpl in Hpick.
    destruct n as [data|]; simplify_eq. exists data.
    by apply elem_of_entries.
  - intros [data Hf]. exists (name, File data). split; [|done].
    by apply elem_of_entries.
Qed.

Lemma elem_of_walk_targets (f : FS) (top p : path) :
  p ∈ walk_targets f top
  <-> exists root name data,
        p = root ++ [name] /\ is_prefix top root = true
        /\ f !! root = Some Dir /\ f !! p = Some (File data)
        /\ PyStr.endswith name ".py" = true.
Proof.
  unfold walk_targets, walk_roots. rewrite list_elem_of_In, in_flat_map. split.
  - intros (root & Hroot & Hp).
    apply in_map_iff in Hp as (name & <- & Hname).
    apply filter_In in Hname as [Hname Hpy].
    apply list_elem_of_In, elem_of_file_names in Hname as [data Hdata].
    apply list_elem_of_In, list_elem_of_omap in Hroot as ([k n] & Hin & Hpick).
    apply elem_of_map_to_list in Hin. simpl in Hpick.
    destruct n; [done|]. destruct (is_prefix top k) eqn:Htop; simplify_eq.
    by exists root, name, data.
  - intros (root & name & data & -> & Htop & Hroot & Hdata & Hpy).
    exists root. split.
    + apply list_elem_of_In, list_elem_of_omap. exists (root, Dir). split.
      * by apply elem_of_map_to_list.
      * simpl. by rewrite Htop.
    + apply in_map_iff. exists name. split; [done|].
      apply filter_In. split; [|done].
      apply list_elem_of_In, elem_of_file_names. by exists data.
Qed.

Lemma NoDup_walk_targets (f : FS) (top : path) : NoDup (walk_targets f top).
Proof.
  unfold walk_targets.
  apply (NoDup_flat_map_keyed _ (@removelast string)).
  - unfold walk_roots. rewrite <- (map_id (omap _ _)).
    apply (NoDup_omap_keyed _ fst id).
    + intros [k n] b. simpl. destruct n; [done|].
      destruct (is_prefix top k); by intros [= <-].
    + apply NoDup_fst_map_to_list.
  - intros root. apply NoDup_map_filter. unfold file_names, entries.
    apply (NoDup_omap_keyed _ (fun e : string * node => root ++ [e.1])).
    + intros [name n] name'. simpl. destruct n; [|done]. by intros [= <-].
    + apply (NoDup_omap_keyed _ fst).
      * intros [k n] [name n']. simpl.
        destruct (split_last k) as [[d' name'']|] eqn:Hk; [|done].
        case_decide; [|done]. intros [= <- <-]. subst d'.
        symmetry. by apply split_last_Some.
      * apply NoDup_fst_map_to_list.
  - intros root p Hp.
    apply list_elem_of_In, in_map_iff in Hp as (name & <- & _).
    apply removelast_last.
Qed.

End WalkFacts.

Section RecompileFacts.
Import Py Lib Package Notions.
Context (env : Env).

Lemma walk_loop_removes_targets (top : path) (w : World) :
  bind (os_walk top)
       (fun triples =>
          for_each triples
            (fun '(root, _, files) =>
               for_each files
                 (fun f => if PyStr.endswith f ".py"
                           then os_remove (root ++ [f])
                           else ret tt))) w
  = for_each (walk_targets (fs w) top) os_remove w.
Proof.
  unfold bind, os_walk, walk_targets.
  rewrite for_each_map, <- for_each_nested.
  apply for_each_ext. intros root v.
  apply (for_each_when (fun f => PyStr.endswith f ".py")
                       (fun f => root ++ [f]) os_remove).
Qed.

(** C1 (amended). When the byte-code compiler exits with 0,
    [_compile_all_py_files] ends normally, and then: every file named
    [*.py] in a directory at or below the staging tree's [Lib/robot] is
    gone; every path outside [Lib/robot] (the sources of Jython among them)
    and every entry not named [*.py] is as the compiler left it. *)
Theorem compile_all_removes_robot_sources (tmpdir jython_jar : path)
    (w : World) (f' : FS) :
  spawn env ["java"; "-jar"; path_str env jython_jar; "-m"; "compileall";
             path_str env tmpdir] None false (fs w) = Exited 0 f' ->
  exists w',
    _compile_all_py_files env tmpdir jython_jar w = (w', Ok tt)
    /\ (forall root name data,
          is_prefix (tmpdir ++ ["Lib"; "robot"]) root = true ->
          f' !! root = Some Dir ->
          f' !! (root ++ [name]) = Some (File data) ->
          PyStr.endswith name ".py" = true ->
          fs w' !! (root ++ [name]) = None)
    /\ (forall p, is_prefix (tmpdir ++ ["Lib"; "robot"]) p = false ->
                  fs w' !! p = f' !! p)
    /\ (forall d name, PyStr.endswith name ".py" = false ->
                       fs w' !! (d ++ [name]) = f' !! (d ++ [name])).
Proof.
  intros Hspawn.
  destruct (for_each_remove (walk_targets f' (tmpdir ++ ["Lib"; "robot"]))
              (set_fs f' w)) as (w' & Hrun & Hgone & Hkept).
  { apply NoDup_walk_targets. }
  { intros p Hp. apply elem_of_walk_targets in Hp
      as (root & name & data & -> & _ & _ & Hdata & _). by exists data. }
  exists w'. split; [|split; [|split]].
  - unfold _compile_all_py_files.
    unfold bind at 1. unfold subprocess_check_call. rewrite Hspawn. simpl.
    rewrite (walk_loop_removes_targets (tmpdir ++ ["Lib"; "robot"])). done.
  - intros root name data Htop Hroot Hdata Hpy. apply Hgone.
    apply elem_of_walk_targets. by exists root, name, data.
  - intros p Hp. rewrite Hkept; [done|].
    intros Hin. apply elem_of_walk_targets in Hin
      as (root & name & data & -> & Htop & _).
    apply (is_prefix_false_below _ root) in Hp; [congruence|].
    apply is_prefix_app.
  - intros d name Hpy. rewrite Hkept; [done|].
    intros Hin. apply elem_of_walk_targets in Hin
      as (root & name' & data & Heq & _ & _ & _ & Hpy').
    apply app_inj_tail in Heq as [_ ->]. congruence.
Qed.

End RecompileFacts.

Lemma compile_all_removes_robot_sources_witness :
  let env := Sample.env (Some 0%Z) (Some 0%Z) (Some 0%Z) in
  exists w',
    Package._compile_all_py_files env Sample.tmp Sample.jython_jar Sample.staged
    = (w', Py.Ok tt)
    /\ (forall root name data,
          Lib.is_prefix (Sample.tmp ++ ["Lib"; "robot"]) root = true ->
          Sample.compileall Sample.tmp (Py.fs Sample.staged) !! root = Some Py.Dir ->
          Sample.compileall Sample.tmp (Py.fs Sample.staged) !! (root ++ [name])
          = Some (Py.File data) ->
          PyStr.endswith name ".py" = true ->
          Py.fs w' !! (root ++ [name]) = None)
    /\ (forall p, Lib.is_prefix (Sample.tmp ++ ["Lib"; "robot"]) p = false ->
                  Py.fs w' !! p
                  = Sample.compileall Sample.tmp (Py.fs Sample.staged) !! p)
    /\ (forall d name, PyStr.endswith name ".py" = false ->
                       Py.fs w' !! (d ++ [name])
                       = Sample.compileall Sample.tmp (Py.fs Sample.staged)
                           !! (d ++ [name])).
Proof.
  intros env.
  apply (compile_all_removes_robot_sources env Sample.tmp Sample.jython_jar
           Sample.staged (Sample.compileall Sample.tmp (Py.fs Sample.staged))).
  reflexivity.
Defined.

(** C1, as stated, fails both ways on the sample tree: the project's own
    [Lib/robot/run.py] is removed, and Jython's [Lib/os.py] stays although
    [Lib/os$py.class] mirrors it. *)
Lemma compile_all_keeps_jython_sources :
  let env := Sample.env (Some 0%Z) (Some 0%Z) (Some 0%Z) in
  let r := Package._compile_all_py_files env Sample.tmp Sample.jython_jar
             Sample.staged in
  r.2 = Py.Ok tt
  /\ Py.fs Sample.staged !! (Sample.tmp ++ ["Lib"; "robot"; "run.py"])
     = Some (Py.File "import sys")
  /\ Py.fs r.1 !! (Sample.tmp ++ ["Lib"; "robot"; "run.py"]) = None
  /\ Py.fs r.1 !! (Sample.tmp ++ ["Lib"; "robot"; "run$py.class"])
     = Some (Py.File "bytecode")
  /\ Py.fs r.1 !! (Sample.tmp ++ ["Lib"; "os$py.class"])
     = Some (Py.File "bytecode")
  /\ Py.fs r.1 !! (Sample.tmp ++ ["Lib"; "os.py"]) = Some (Py.File "import sys").
Proof. vm_compute. repeat split; reflexivity. Qed.

(** ** Which paths an operation leaves alone *)

Section FrameFacts.
Import Py Lib Package Notions.
Context (keep : path -> bool).

Lemma frame_intro {A} (m : M A) :
  (forall w p, keep p = true -> fs (m w).1 !! p = fs w !! p) -> frame keep m.
Proof. intros H w w' r Hm p Hp. specialize (H w p Hp). by rewrite Hm in H. Qed.

Lemma frame_ret {A} (a : A) : frame keep (ret a).
Proof. by intros w w' r [= <- <-]. Qed.

Lemma frame_raise {A} (e : exn) : frame keep (@raise A e).
Proof. by intros w w' r [= <- <-]. Qed.

Lemma frame_lift {A} (x : result A) : frame keep (lift x).
Proof. by intros w w' r [= <- <-]. Qed.

Lemma frame_print (line : string) : frame keep (print line).
Proof. by intros w w' r [= <- <-]. Qed.

Lemma frame_bind {A B} (m : M A) (k : A -> M B) :
  frame keep m -> (forall a, frame keep (k a)) -> frame keep (bind m k).
Proof.
  intros Hm Hk w w' r. unfold bind.
  destruct (m w) as [w1 [e|a]] eqn:H1; intros H p Hp.
  - simplify_eq. by apply (Hm _ _ _ H1).
  - rewrite (Hk a _ _ _ H p Hp). by apply (Hm _ _ _ H1).
Qed.

Lemma frame_try_except {A} (body : M A) (handler : exn -> option (M A)) :
  frame keep body -> (forall e h, handler e = Some h -> frame keep h) ->
  frame keep (try_except body handler).
Proof.
  intros Hb Hh w w' r. unfold try_except.
  destruct (body w) as [w1 [e|a]] eqn:H1; intros H p Hp.
  - destruct (handler e) as [h|] eqn:He.
    + rewrite (Hh e h He _ _ _ H p Hp). by apply (Hb _ _ _ H1).
    + simplify_eq. by apply (Hb _ _ _ H1).
  - simplify_eq. by apply (Hb _ _ _ H1).
Qed.

Lemma frame_for_each {A} (items : list A) (body : A -> M unit) :
  (forall x, frame keep (body x)) -> frame keep (for_each items body).
Proof.
  intros Hb. induction items as [|x items IH]; simpl.
  - apply frame_ret.
  - apply frame_bind; [apply Hb | intros _; apply IH].
Qed.

Lemma frame_os_path_exists (q : path) : frame keep (os_path_exists q).
Proof. by intros w w' r [= <- <-]. Qed.

Lemma frame_os_listdir (q : path) : frame keep (os_listdir q).
Proof.
  intros w w' r. unfold os_listdir. repeat case_match; by intros [= <- <-].
Qed.

Lemma frame_os_walk (q : path) : frame keep (os_walk q).
Proof. by intros w w' r [= <- <-]. Qed.

Lemma frame_time_localtime (env : Env) : frame keep (time_localtime env).
Proof. by intros w w' r [= <- <-]. Qed.

Lemma frame_import_version (env : Env) : frame keep (import_version env).
Proof.
  intros w w' r H p _. by apply import_version_fs in H as (-> & _).
Qed.

Lemma frame_os_mkdir (q : path) : keep q = false -> frame keep (os_mkdir q).
Proof.
  intros Hq w w' r. unfold os_mkdir.
  repeat case_match; intros [= <- <-] p Hp; simpl; [done| |done].
  apply lookup_insert_ne. congruence.
Qed.

Lemma frame_write_file (q : path) (data : string) :
  keep q = false -> frame keep (write_file q data).
Proof.
  intros Hq w w' r. unfold write_file.
  repeat case_match; intros [= <- <-] p Hp; simpl; try done;
    apply lookup_insert_ne; congruence.
Qed.

Lemma frame_os_remove (q : path) : keep q = false -> frame keep (os_remove q).
Proof.
  intros Hq w w' r. unfold os_remove.
  repeat case_match; intros [= <- <-] p Hp; simpl; try done.
  apply lookup_delete_ne. congruence.
Qed.

Lemma frame_shutil_rmtree (q : path) :
  (forall p, keep p = true -> is_prefix q p = false) ->
  frame keep (shutil_rmtree q).
Proof.
  intros Hq w w' r. unfold shutil_rmtree.
  repeat case_match; intros [= <- <-] p Hp; simpl; try done.
  rewrite map_lookup_filter. destruct (fs w !! p) as [nd|] eqn:Hn; [|done].
  simpl. rewrite option_guard_True; [done|]. simpl. by apply Hq.
Qed.

Lemma make_dirs_lookup (f : FS) (q p : path) :
  is_prefix p q = false -> make_dirs f q !! p = f !! p.
Proof.
  unfold make_dirs. intros Hp.
  assert (H : forall base rel (g : FS), is_prefix p (base ++ rel) = false ->
            fold_left (fun (g : FS) d => match g !! d with
                                  | None => <[d := Dir]> g
                                  | Some _ => g
                                  end) (ancestors_from base rel) g !! p
            = g !! p).
  { intros base rel. revert base. induction rel as [|a rel IH]; intros base g Hb.
    - done.
    - simpl. rewrite IH.
      + case_match; [done|]. apply lookup_insert_ne. intros <-.
        change (a :: rel) with ([a] ++ rel) in Hb.
        rewrite (app_assoc base [a] rel), is_prefix_app in Hb. done.
      + by rewrite <- app_assoc. }
  by apply H.
Qed.

Lemma fold_insert_lookup {X} (key : X -> path) (val : X -> node)
    (l : list X) (f : FS) (p : path) :
  (forall x, x ∈ l -> key x <> p) ->
  fold_left (fun (g : FS) x => <[key x := val x]> g) l f !! p = f !! p.
Proof.
  revert f. induction l as [|x l IH]; intros f H; [done|].
  simpl. rewrite IH.
  - apply lookup_insert_ne. apply H. by left.
  - intros y Hy. apply H. by right.
Qed.

End FrameFacts.

(** ** The stages of [jar] and the output directory *)

Section StageFacts.
Import Py Lib Package Notions Confinement.
Context (env : Env).

Lemma frame_copytree (keep : path -> bool) (src dst : path) :
  (forall p, keep p = true ->
             is_prefix dst p = false /\ is_prefix p dst = false) ->
  frame keep (shutil_copytree_no_pyc src dst).
Proof.
  intros Hk w w' r. unfold shutil_copytree_no_pyc.
  repeat case_match; intros [= <- <-] p Hp; simpl; try done.
  destruct (Hk p Hp) as [Hdp Hpd].
  rewrite fold_insert_lookup.
  - by apply make_dirs_lookup.
  - intros [k nd] Hin. apply list_elem_of_omap in Hin as ([k0 n0] & _ & Hpick).
    simpl in *. repeat case_match; simplify_eq.
    intros <-. by rewrite is_prefix_app in Hdp.
Qed.

Lemma frame_extractall (keep : path -> bool) (archive dst : path) :
  (forall p, keep p = true ->
             is_prefix dst p = false /\ forall x, is_prefix p (dst ++ x) = false) ->
  frame keep (zipfile_extractall env archive dst).
Proof.
  intros Hk w w' r. unfold zipfile_extractall.
  repeat case_match; intros [= <- <-] p Hp; simpl; try done.
  destruct (Hk p Hp) as [Hdp Hpd].
  generalize (fs w).
  induction (filter (fun m : path * node => m.1 <> []) l) as [|m ms IH];
    intros g; [done|].
  simpl. rewrite IH. rewrite lookup_insert_ne.
  - by apply make_dirs_lookup.
  - intros <-. by rewrite is_prefix_app in Hdp.
Qed.

(** Below the project root, what is at or below one entry is neither at,
    below nor above another entry. *)
Lemma apart (a b : string) (rest : path) (p : path) :
  a <> b -> is_prefix (ROOT_PATH env ++ [a]) p = true ->
  is_prefix (ROOT_PATH env ++ b :: rest) p = false
  /\ forall x, is_prefix p (ROOT_PATH env ++ b :: rest ++ x) = false.
Proof.
  intros Hab Hp. apply is_prefix_spec in Hp as [c ->].
  rewrite <- app_assoc. simpl. split.
  - apply is_prefix_sibling. congruence.
  - intros x. by apply is_prefix_sibling.
Qed.

Lemma frame_version (top : string) (vn : string) (tag : option string) :
  top <> "src" ->
  frame (is_prefix (ROOT_PATH env ++ [top])) (version env vn tag).
Proof.
  intros Htop.
  assert (Hup : forall v t,
            frame (is_prefix (ROOT_PATH env ++ [top])) (_update_version env v t)).
  { intros v t. unfold _update_version.
    apply frame_bind; [apply frame_time_localtime|]. intros tm.
    apply frame_bind; [|intros _; apply frame_print].
    apply frame_write_file. unfold VERSION_PATH, ROBOT_PATH.
    rewrite <- app_assoc. simpl. by apply is_prefix_sibling. }
  unfold version.
  apply frame_bind; [apply frame_lift|]. intros _.
  apply frame_bind.
  - repeat case_match.
    + unfold _keep_version. apply frame_bind; [apply frame_import_version|].
      intros m. apply frame_print.
    + apply frame_bind; [apply frame_time_localtime|]. intros tm. apply Hup.
    + apply frame_bind; [apply frame_lift|]. intros t. apply Hup.
  - intros _. apply frame_bind; [apply frame_import_version|].
    intros m. apply frame_ret.
Qed.

Lemma frame_version_star (top : string) (info : list string) :
  top <> "src" ->
  frame (is_prefix (ROOT_PATH env ++ [top])) (version_star env info).
Proof.
  intros Htop. unfold version_star.
  repeat case_match; try apply frame_raise; by apply frame_version.
Qed.

Lemma create_tmpdir_path (w w' : World) (tmpdir : path) :
  _create_tmpdir env w = (w', Ok tmpdir) ->
  tmpdir = ROOT_PATH env ++ ["tmp-jar-dir"].
Proof.
  unfold _create_tmpdir, bind, ret. intros H.
  repeat case_match; by simplify_eq.
Qed.

Lemma frame_create_tmpdir (top : string) :
  top <> "tmp-jar-dir" ->
  frame (is_prefix (ROOT_PATH env ++ [top])) (_create_tmpdir env).
Proof.
  intros Htop. unfold _create_tmpdir.
  apply frame_bind; [apply frame_os_path_exists|]. intros e.
  apply frame_bind.
  - destruct e; [|apply frame_ret]. apply frame_shutil_rmtree.
    intros p Hp. by apply (apart top "tmp-jar-dir" [] p).
  - intros _. apply frame_bind; [|intros _; apply frame_ret].
    apply frame_os_mkdir. by apply is_prefix_sibling.
Qed.

Lemma frame_check_call (top : path) (argv : list string)
    (cwd : option path) (shell : bool) :
  compilers_spare env top ->
  hd_error argv = Some "javac" \/ hd_error argv = Some "java" ->
  frame (is_prefix top) (subprocess_check_call env argv cwd shell).
Proof.
  intros Hspare Hargv w w' r. unfold subprocess_check_call.
  destruct (spawn env argv cwd shell (fs w)) as [|rc f'] eqn:Hs;
    intros [= <- <-] p Hp; [done|].
  simpl. by apply (Hspare argv cwd shell (fs w) rc f').
Qed.

Lemma frame_compile_java_classes (top : path) (tmpdir jython_jar : path) :
  compilers_spare env top ->
  frame (is_prefix top) (_compile_java_classes env tmpdir jython_jar).
Proof.
  intros Hspare. unfold _compile_java_classes.
  apply frame_bind; [apply frame_os_listdir|]. intros names.
  apply frame_bind; [apply frame_print|]. intros _.
  apply frame_check_call; [done|]. by left.
Qed.

Lemma frame_copy_robot_files (top : string) :
  top <> "tmp-jar-dir" ->
  frame (is_prefix (ROOT_PATH env ++ [top]))
        (_copy_robot_files env (ROOT_PATH env ++ ["tmp-jar-dir"])).
Proof.
  intros Htop. unfold _copy_robot_files.
  apply frame_bind.
  - apply frame_copytree. intros p Hp. rewrite <- !app_assoc. simpl.
    destruct (apart top "tmp-jar-dir" ["Lib"; "robot"] p Htop Hp) as [H1 H2].
    split; [done|]. specialize (H2 []). by rewrite app_nil_r in H2.
  - intros _. apply frame_shutil_rmtree. intros p Hp.
    rewrite <- !app_assoc. simpl.
    by apply (apart top "tmp-jar-dir" ["Lib"; "robot"; "htmldata"; "testdata"] p).
Qed.

Lemma frame_unzip_jython_jar (top : string) (jython_jar : path) :
  top <> "tmp-jar-dir" ->
  frame (is_prefix (ROOT_PATH env ++ [top]))
        (_unzip_jython_jar env (ROOT_PATH env ++ ["tmp-jar-dir"]) jython_jar).
Proof.
  intros Htop. unfold _unzip_jython_jar. apply frame_extractall.
  intros p Hp. destruct (apart top "tmp-jar-dir" [] p Htop Hp) as [H1 H2].
  split; [done|]. intros x. rewrite <- app_assoc. apply H2.
Qed.

(** [_compile_all_py_files] raises [CalledProcessError] only when the
    compiler exits with a code other than 0, and then the world is as the
    compiler left it. *)
Lemma compile_all_py_files_failure (tmpdir jython_jar : path)
    (w w' : World) (rc : Z) :
  _compile_all_py_files env tmpdir jython_jar w
  = (w', Raise (CalledProcessError rc)) ->
  exists f',
    spawn env ["java"; "-jar"; path_str env jython_jar; "-m"; "compileall";
               path_str env tmpdir] None false (fs w) = Exited rc f'
    /\ rc <> 0%Z /\ w' = set_fs f' w.
Proof.
  unfold _compile_all_py_files. unfold bind at 1. unfold subprocess_check_call.
  destruct (spawn env _ None false (fs w)) as [|rc' f'] eqn:Hs; [done|].
  destruct (Z.eqb_spec rc' 0) as [->|Hrc].
  - rewrite (walk_loop_removes_targets (tmpdir ++ ["Lib"; "robot"])).
    destruct (for_each_remove (walk_targets f' (tmpdir ++ ["Lib"; "robot"]))
                (set_fs f' w)) as (v & Hrun & _).
    { apply NoDup_walk_targets. }
    { intros p Hp. apply elem_of_walk_targets in Hp
        as (root & name & data & -> & _ & _ & Hdata & _). by exists data. }
    simpl in Hrun. simpl. rewrite Hrun. done.
  - intros [= <- <-]. by exists f'.
Qed.

End StageFacts.

Section JarFailureFacts.
Import Py Lib Package Notions Confinement.
Context (env : Env).

(** C2. Let the stages of [jar] before the recompilation succeed, and let
    [_compile_all_py_files] raise [CalledProcessError] (the compiler exited
    with a code other than 0) and leave the staging directory in place.  With
    compilers that do not write into [dist], [jar] then returns normally,
    nothing at or below the staging directory exists any more, and [dist]
    and all below it is as it was before the call. *)
Theorem recompile_failure_cleans_up (info : list string)
    (w0 w1 w2 w3 w4 w5 w6 w7 : World) (jython_jar tmpdir : path)
    (ver : string) (rc : Z) :
  compilers_spare env (DIST_PATH env) ->
  _get_jython_jar env w0 = (w1, Ok jython_jar) ->
  version_star env info
    (print ("Using Jython " +:+ path_str env jython_jar) w1).1 = (w2, Ok ver) ->
  _create_tmpdir env w2 = (w3, Ok tmpdir) ->
  _compile_java_classes env tmpdir jython_jar w3 = (w4, Ok tt) ->
  _unzip_jython_jar env tmpdir jython_jar w4 = (w5, Ok tt) ->
  _copy_robot_files env tmpdir w5 = (w6, Ok tt) ->
  _compile_all_py_files env tmpdir jython_jar w6
  = (w7, Raise (CalledProcessError rc)) ->
  fs w7 !! tmpdir = Some Dir ->
  exists w',
    jar env info w0 = (w', Ok tt)
    /\ (forall p, is_prefix tmpdir p = true -> fs w' !! p = None)
    /\ (forall p, is_prefix (DIST_PATH env) p = true ->
                  fs w' !! p = fs w0 !! p).
Proof.
  intros Hspare H1 H2 H3 H4 H5 H6 H7 Htmp.
  pose proof (create_tmpdir_path env _ _ _ H3) as ->.
  set (tmpdir := ROOT_PATH env ++ ["tmp-jar-dir"]) in *.
  set (w8 := (print "Unable to compile java classes! Check for javac command available at the command line." w7).1).
  exists (set_fs (filter (fun kv => is_prefix tmpdir kv.1 = false) (fs w8)) w8).
  assert (Hl : lookup_node (fs w7) tmpdir = Some Dir).
  { unfold lookup_node, tmpdir in *.
    by destruct (ROOT_PATH env ++ ["tmp-jar-dir"]) eqn:Hnil;
      [destruct (ROOT_PATH env)|]. }
  split; [|split].
  - unfold jar. unfold bind at 1. rewrite H1.
    unfold bind at 1. unfold print at 1.
    unfold bind at 1. unfold print in H2. simpl in H2. rewrite H2.
    unfold bind at 1. rewrite H3.
    unfold bind at 1. unfold try_except at 1.
    unfold bind at 1. fold tmpdir. rewrite H4.
    unfold bind at 1. rewrite H5.
    unfold bind at 1. rewrite H6.
    unfold bind at 1. rewrite H7.
    unfold on_CalledProcessError at 1.
    unfold print at 1. unfold shutil_rmtree. cbn [fs].
    rewrite Hl. done.
  - intros p Hp. simpl. apply map_lookup_filter_None. right.
    intros nd _. simpl. congruence.
  - intros p Hp.
    assert (Hout : is_prefix tmpdir p = false)
      by (by apply (apart env "dist" "tmp-jar-dir" [] p)).
    simpl. rewrite map_lookup_filter.
    assert (Hchain : fs w7 !! p = fs w0 !! p).
    { apply compile_all_py_files_failure in H7 as (f' & Hs & _ & ->). simpl.
      pose proof (fun H => Hspare _ _ _ _ _ _ H Hs p Hp) as Hc.
      rewrite Hc by (by right). clear Hc.
      rewrite (frame_copy_robot_files env "dist" ltac:(done) _ _ _ H6 p Hp).
      rewrite (frame_unzip_jython_jar env "dist" jython_jar ltac:(done) _ _ _ H5 p Hp).
      rewrite (frame_compile_java_classes env _ _ _ Hspare _ _ _ H4 p Hp).
      rewrite (frame_create_tmpdir env "dist" ltac:(done) _ _ _ H3 p Hp).
      rewrite (frame_version_star env "dist" info ltac:(done) _ _ _ H2 p Hp).
      simpl.
      apply (get_jython_jar_touches_cache_only env _ _ _ H1).
      by apply (apart env "dist" "ext-lib" [] p). }
    rewrite Hchain. destruct (fs w0 !! p) as [nd|]; [|done].
    simpl. by rewrite option_guard_True.
Qed.

End JarFailureFacts.

(** A run is its final world paired with its result. *)
Lemma run_eq {A} (run : Py.World * Py.result A) (x : Py.result A) :
  run.2 = x -> run = (run.1, x).
Proof. destruct run as [w r]. simpl. by intros ->. Qed.

(** Closes an equation between closed terms by evaluating its left side. *)
Ltac vm_refl :=
  match goal with |- _ = ?r => vm_cast_no_check (@eq_refl _ r) end.

(** The same for a run whose final world is the one the run gives. *)
Ltac vm_run :=
  match goal with
  | |- ?run = (_, ?x) => refine (run_eq run x _); vm_refl
  end.

(** The compilers of the sample do not write into [dist]. *)
Lemma sample_compilers_spare (javac_rc java_rc jar_rc : option Z) :
  Confinement.compilers_spare (Sample.env javac_rc java_rc jar_rc)
    ["proj"; "dist"].
Proof.
  intros argv cwd shell f rc f' Hargv Hs p Hp.
  apply is_prefix_spec in Hp as [c ->].
  destruct argv as [|prog args]; [by destruct Hargv|].
  destruct Hargv as [[= ->]|[= ->]]; simpl in Hs.
  - destruct javac_rc; [|done]. injection Hs as <- <-.
    rewrite lookup_insert_ne by done.
    by apply make_dirs_lookup.
  - destruct java_rc; [|done]. injection Hs as <- <-.
    unfold Sample.compileall.
    apply (fold_insert_lookup fst snd). intros [k nd] Hin.
    apply list_elem_of_omap in Hin as ([k0 n0] & _ & Hpick).
    cbn [fst snd] in *.
    destruct n0; [|done].
    destruct (Lib.split_last k0) as [[d name]|]; [|done].
    destruct (Lib.is_prefix Sample.tmp d) eqn:Hd; [|done].
    destruct (PyStr.endswith name ".py"); [|done].
    cbn [andb] in Hpick. injection Hpick as <- <-.
    apply is_prefix_spec in Hd as [x ->]. simpl. discriminate.
Qed.

Lemma recompile_failure_cleans_up_witness :
  let env := Sample.env (Some 0%Z) (Some 3%Z) (Some 0%Z) in
  exists w',
    Package.jar env ["2.8"; "final"] Sample.world = (w', Py.Ok tt)
    /\ (forall p, Lib.is_prefix Sample.tmp p = true -> Py.fs w' !! p = None)
    /\ (forall p, Lib.is_prefix (Package.DIST_PATH env) p = true ->
                  Py.fs w' !! p = Py.fs Sample.world !! p).
Proof.
  intros env.
  set (w1 := (Package._get_jython_jar env Sample.world).1).
  set (w2 := (Package.version_star env ["2.8"; "final"]
                (Py.print ("Using Jython "
                           +:+ Lib.path_str env Sample.jython_jar) w1).1).1).
  set (w3 := (Package._create_tmpdir env w2).1).
  set (w4 := (Package._compile_java_classes env Sample.tmp Sample.jython_jar w3).1).
  set (w5 := (Package._unzip_jython_jar env Sample.tmp Sample.jython_jar w4).1).
  set (w6 := (Package._copy_robot_files env Sample.tmp w5).1).
  set (w7 := (Package._compile_all_py_files env Sample.tmp Sample.jython_jar w6).1).
  apply (recompile_failure_cleans_up env ["2.8"; "final"] Sample.world
           w1 w2 w3 w4 w5 w6 w7 Sample.jython_jar Sample.tmp "2.8" 3%Z
           (sample_compilers_spare _ _ _));
    [vm_run | vm_run | vm_run | vm_run | vm_run | vm_run | vm_run | vm_refl].
Defined.

(** C3, at failing inputs.  [package.py jar 2.8 final] on the sample tree:
    when [javac], the byte-code compiler or [jar] exits with a code other
    than 0, a message is printed and the script ends normally, so with exit
    status 0 (and the message after a failure of the byte-code compiler
    names [javac]); when [javac] is not installed, [OSError] leaves the
    script uncaught, no message is printed and the staging directory
    stays. *)
Theorem jar_tool_failure_exit_status :
  let argv := ["package.py"; "jar"; "2.8"; "final"] in
  let javac_fails :=
    Package.main (Sample.env (Some 1%Z) (Some 0%Z) (Some 0%Z)) argv Sample.world in
  let compileall_fails :=
    Package.main (Sample.env (Some 0%Z) (Some 3%Z) (Some 0%Z)) argv Sample.world in
  let jar_fails :=
    Package.main (Sample.env (Some 0%Z) (Some 0%Z) (Some 1%Z)) argv Sample.world in
  let javac_missing :=
    Package.main (Sample.env None (Some 0%Z) (Some 0%Z)) argv Sample.world in
  (Package.exit_status javac_fails.2 = 0%Z
   /\ last (Py.stdout javac_fails.1)
      = Some "Unable to compile java classes! Check for javac command available at the command line.")
  /\ (Package.exit_status compileall_fails.2 = 0%Z
      /\ last (Py.stdout compileall_fails.1)
         = Some "Unable to compile java classes! Check for javac command available at the command line.")
  /\ (Package.exit_status jar_fails.2 = 0%Z
      /\ last (Py.stdout jar_fails.1)
         = Some "Unable to create jar! Check for jar command available at the command line.")
  /\ (javac_missing.2 = Py.Raise Py.OSError
      /\ last (Py.stdout javac_missing.1) = Some "Compiling 1 source files"
      /\ Py.fs javac_missing.1 !! Sample.tmp = Some Py.Dir).
Proof. vm_compute. repeat split; reflexivity. Qed.

(** ** Formatting numbers *)

Section FormatFacts.
Import Py DateForm.

Lemma range_all (P : Z -> bool) (from count : Z) :
  forallb P (range from count) = true ->
  forall z, (from <= z < from + count)%Z -> P z = true.
Proof.
  intros H z Hz. rewrite forallb_forall in H. apply H.
  unfold range. apply in_map_iff. exists (Z.to_nat (z - from)).
  split; [lia|]. apply in_seq. lia.
Qed.

Ltac each_digit k :=
  let H := fresh in
  assert (H : (k = 0 \/ k = 1 \/ k = 2 \/ k = 3 \/ k = 4 \/ k = 5 \/ k = 6
               \/ k = 7 \/ k = 8 \/ k = 9)%Z) by lia;
  repeat (destruct H as [->|H]); try subst k; try reflexivity; try lia.

Lemma digit_uint_hd (k : Z) (l : Decimal.uint) :
  (0 <= k <= 9)%Z -> DecimalPos.Unsigned.hd (digit_uint k l) = Z.to_N k.
Proof. intros Hk. each_digit k. Qed.

Lemma digit_uint_tl (k : Z) (l : Decimal.uint) :
  (0 <= k <= 9)%Z -> DecimalPos.Unsigned.tl (digit_uint k l) = l.
Proof. intros Hk. each_digit k. Qed.

Lemma digit_uint_revapp (k : Z) (l acc : Decimal.uint) :
  (0 <= k <= 9)%Z ->
  Decimal.revapp (digit_uint k l) acc = Decimal.revapp l (digit_uint k acc).
Proof. intros Hk. each_digit k. Qed.

Lemma digit_uint_string (k : Z) (l : Decimal.uint) :
  (0 <= k <= 9)%Z ->
  NilEmpty.string_of_uint (digit_uint k l)
  = String (digit_char k) (NilEmpty.string_of_uint l).
Proof. intros Hk. each_digit k. Qed.

Lemma digit_uint_nilzero (k : Z) (l : Decimal.uint) :
  (0 <= k <= 9)%Z ->
  NilZero.string_of_uint (digit_uint k l)
  = NilEmpty.string_of_uint (digit_uint k l).
Proof. intros Hk. each_digit k. Qed.

Lemma digit_uint_unorm (k : Z) (l : Decimal.uint) :
  (1 <= k <= 9)%Z -> Decimal.unorm (digit_uint k l) = digit_uint k l.
Proof. intros Hk. each_digit k. Qed.

(** The value of a number given by its digits, the last digit first. *)
Lemma of_lu_digit (k : Z) (l : Decimal.uint) :
  (0 <= k <= 9)%Z ->
  DecimalPos.Unsigned.of_lu (digit_uint k l)
  = (Z.to_N k + 10 * DecimalPos.Unsigned.of_lu l)%N.
Proof.
  intros Hk. rewrite DecimalPos.Unsigned.of_lu_eqn.
  by rewrite digit_uint_hd, digit_uint_tl.
Qed.

Lemma format_d_year (y : Z) :
  (1000 <= y <= 9999)%Z ->
  PyStr.format_d y
  = String (digit_char (y / 1000))
      (String (digit_char (y / 100 mod 10))
        (String (digit_char (y / 10 mod 10))
          (String (digit_char (y mod 10)) EmptyString))).
Proof.
  intros Hy.
  set (a := (y / 1000)%Z). set (b := (y / 100 mod 10)%Z).
  set (c := (y / 10 mod 10)%Z). set (e := (y mod 10)%Z).
  assert (Ha : (1 <= a <= 9)%Z)
    by (unfold a; Z.to_euclidean_division_equations; lia).
  assert (Hb : (0 <= b <= 9)%Z)
    by (unfold b; Z.to_euclidean_division_equations; lia).
  assert (Hc : (0 <= c <= 9)%Z)
    by (unfold c; Z.to_euclidean_division_equations; lia).
  assert (He : (0 <= e <= 9)%Z)
    by (unfold e; Z.to_euclidean_division_equations; lia).
  assert (Hval : y = (1000 * a + 100 * b + 10 * c + e)%Z)
    by (unfold a, b, c, e; Z.to_euclidean_division_equations; lia).
  set (d := digit_uint a (digit_uint b (digit_uint c (digit_uint e Decimal.Nil)))).
  assert (Hd : Z.to_int y = Decimal.Pos d).
  { assert (Hof : Z.of_int (Decimal.Pos d) = y).
    { unfold Z.of_int, Z.of_uint. rewrite DecimalPos.Unsigned.of_uint_alt.
      unfold Decimal.rev, d. rewrite !digit_uint_revapp by lia.
      cbn [Decimal.revapp]. rewrite !of_lu_digit by lia.
      cbn [DecimalPos.Unsigned.of_lu]. lia. }
    rewrite <- Hof, DecimalZ.to_of. unfold Decimal.norm, d.
    rewrite digit_uint_unorm by lia. done. }
  unfold PyStr.format_d. rewrite Hd. unfold NilZero.string_of_int, d.
  rewrite digit_uint_nilzero, !digit_uint_string by lia. done.
Qed.

Lemma format_02d_two_digits (n : Z) :
  (0 <= n <= 99)%Z ->
  PyStr.format_02d n
  = String (digit_char (n / 10)) (String (digit_char (n mod 10)) EmptyString).
Proof.
  intros Hn.
  apply String.eqb_eq.
  apply (range_all
           (fun n => String.eqb (PyStr.format_02d n)
                       (String (digit_char (n / 10))
                          (String (digit_char (n mod 10)) EmptyString)))
           0 100); [vm_compute; reflexivity | lia].
Qed.

Lemma format_date (t : struct_time) :
  (1000 <= tm_year t <= 9999)%Z -> (0 <= tm_mon t <= 99)%Z ->
  (0 <= tm_mday t <= 99)%Z ->
  PyStr.format_d (tm_year t) +:+ PyStr.format_02d (tm_mon t)
  +:+ PyStr.format_02d (tm_mday t)
  = yyyymmdd t.
Proof.
  intros Hy Hm Hd.
  rewrite format_d_year, !format_02d_two_digits by done. reflexivity.
Qed.

End FormatFacts.

(** ** Strings, and reading back the generated module *)

Section StringFacts.

Lemma append_cons (x : ascii) (a b : string) :
  String x a +:+ b = String x (a +:+ b).
Proof. reflexivity. Qed.

Lemma append_nil (b : string) : EmptyString +:+ b = b.
Proof. reflexivity. Qed.

Lemma append_assoc (a b c : string) : (a +:+ b) +:+ c = a +:+ (b +:+ c).
Proof.
  induction a as [|x a IH]; [done|]. by rewrite !append_cons, IH.
Qed.

Lemma length_append (a b : string) :
  String.length (a +:+ b) = String.length a + String.length b.
Proof.
  induction a as [|x a IH]; [done|]. rewrite append_cons. simpl. by rewrite IH.
Qed.

Lemma prefix_append (a b : string) : String.prefix a (a +:+ b) = true.
Proof.
  induction a as [|x a IH]; [by destruct b|]. rewrite append_cons. simpl.
  destruct (ascii_dec x x); [done|congruence].
Qed.

Lemma substring_all (b : string) : substring 0 (String.length b) b = b.
Proof. induction b as [|x b IH]; simpl; [done|]. by rewrite IH. Qed.

Lemma substring_take (b c : string) :
  substring 0 (String.length b) (b +:+ c) = b.
Proof.
  induction b as [|x b IH]; [by destruct c|]. rewrite append_cons. simpl.
  by rewrite IH.
Qed.

Lemma substring_skip (a b : string) (m : nat) :
  substring (String.length a) m (a +:+ b) = substring 0 m b.
Proof.
  induction a as [|x a IH]; [done|]. rewrite append_cons. simpl. done.
Qed.

Lemma endswith_append (a p : string) : PyStr.endswith (a +:+ p) p = true.
Proof.
  unfold PyStr.endswith. rewrite length_append.
  apply andb_true_iff. split; [apply Nat.leb_le; lia|].
  replace (String.length a + String.length p - String.length p)
    with (String.length a) by lia.
  rewrite substring_skip, substring_all. apply String.eqb_refl.
Qed.

Lemma all_chars_append (P : ascii -> bool) (a b : string) :
  PyStr.all_chars P (a +:+ b) = PyStr.all_chars P a && PyStr.all_chars P b.
Proof.
  induction a as [|x a IH]; [done|]. rewrite append_cons. simpl.
  rewrite IH. by rewrite andb_assoc.
Qed.

Lemma all_chars_weaken (P Q : ascii -> bool) (s : string) :
  (forall c, P c = true -> Q c = true) ->
  PyStr.all_chars P s = true -> PyStr.all_chars Q s = true.
Proof.
  intros HPQ. induction s as [|x s IH]; simpl; [done|].
  rewrite !andb_true_iff. intros [Hx Hs]. split; [by apply HPQ | by apply IH].
Qed.

(** Splitting at a separator that the first piece does not contain. *)
Lemma split_append (c : ascii) (l rest : string) :
  PyStr.all_chars (fun x => negb (Ascii.eqb x c)) l = true ->
  PyStr.split c (l +:+ String c rest) = l :: PyStr.split c rest.
Proof.
  induction l as [|x l IH].
  - intros _. rewrite append_nil. simpl. by rewrite Ascii.eqb_refl.
  - simpl. rewrite andb_true_iff. intros [Hx Hl]. apply negb_true_iff in Hx.
    rewrite ?append_cons. simpl. rewrite Hx, IH by done. done.
Qed.

Lemma unlines_cons (l : string) (ls : list string) :
  PyStr.unlines (l :: ls) = l +:+ String (ascii_of_nat 10) (PyStr.unlines ls).
Proof.
  unfold PyStr.unlines. simpl.
  destruct (map _ ls) eqn:Hmap.
  - simpl. unfold PyStr.nl. done.
  - unfold PyStr.nl. rewrite append_assoc. done.
Qed.

Lemma split_unlines (ls : list string) :
  Forall (fun l => PyStr.all_chars
                     (fun x => negb (Ascii.eqb x (ascii_of_nat 10))) l = true) ls ->
  PyStr.split (ascii_of_nat 10) (PyStr.unlines ls) = ls ++ [EmptyString].
Proof.
  induction 1 as [|l ls Hl Hls IH]; [done|].
  rewrite unlines_cons, split_append by done. by rewrite IH.
Qed.

End StringFacts.

Section RoundTripFacts.
Import Py Package.

Lemma plain_char_no_newline (c : ascii) :
  plain_char c = true -> negb (Ascii.eqb c (ascii_of_nat 10)) = true.
Proof.
  unfold plain_char. intros H. apply negb_true_iff, Ascii.eqb_neq. intros ->.
  vm_compute in H. discriminate.
Qed.

Lemma quoted_value_render (name v : string) :
  PyStr.all_chars plain_char v = true ->
  quoted_value name ((name +:+ " = '") +:+ v +:+ "'") = Some v.
Proof.
  intros Hv. unfold quoted_value. set (pre := name +:+ " = '").
  unfold PyStr.startswith. rewrite prefix_append.
  rewrite <- (append_assoc pre v "'"), endswith_append.
  rewrite !length_append.
  replace (String.length pre + 1 <=? String.length pre + String.length v
                                      + String.length "'")%nat
    with true by (symmetry; apply Nat.leb_le; simpl; lia).
  cbn [andb].
  replace (String.length pre + String.length v + String.length "'"
           - String.length pre - 1)%nat with (String.length v) by (simpl; lia).
  rewrite append_assoc, substring_skip, substring_take, Hv. done.
Qed.

(** Reading back what [_update_version] writes gives the values written,
    when they are made of plain characters. *)
Lemma parse_rendered (v r t : string) :
  PyStr.all_chars plain_char v = true ->
  PyStr.all_chars plain_char r = true ->
  PyStr.all_chars plain_char t = true ->
  parse_version_module (VERSION_CONTENT v r t)
  = Some {| VERSION := v; RELEASE := r; TIMESTAMP := t |}.
Proof.
  intros Hv Hr Ht. unfold parse_version_module, VERSION_CONTENT.
  rewrite split_unlines.
  - cbn [app VERSION_CONTENT_head].
    rewrite bool_decide_eq_true_2 by done.
    rewrite bool_decide_eq_true_2 by done. cbn [andb].
    pose proof (quoted_value_render "VERSION" v Hv) as H1.
    pose proof (quoted_value_render "RELEASE" r Hr) as H2.
    pose proof (quoted_value_render "TIMESTAMP" t Ht) as H3.
    change ("VERSION" +:+ " = '") with "VERSION = '" in H1.
    change ("RELEASE" +:+ " = '") with "RELEASE = '" in H2.
    change ("TIMESTAMP" +:+ " = '") with "TIMESTAMP = '" in H3.
    rewrite H1, H2, H3. done.
  - assert (Hq : forall pre x,
              PyStr.all_chars (fun c => negb (Ascii.eqb c (ascii_of_nat 10)))
                pre = true ->
              PyStr.all_chars plain_char x = true ->
              PyStr.all_chars (fun c => negb (Ascii.eqb c (ascii_of_nat 10)))
                (pre +:+ x +:+ "'") = true).
    { intros pre x Hpre Hx. rewrite !all_chars_append, Hpre.
      rewrite (all_chars_weaken _ _ x plain_char_no_newline Hx). done. }
    apply Forall_app. split; [|apply Forall_app; split].
    + repeat constructor.
    + repeat constructor; by apply Hq.
    + repeat constructor.
Qed.

End RoundTripFacts.

Section PlainFacts.
Import Py Package DateForm.

Lemma plain_string_of_uint (u : Decimal.uint) :
  PyStr.all_chars plain_char (NilEmpty.string_of_uint u) = true.
Proof. induction u; simpl; done. Qed.

Lemma plain_format_d (z : Z) : PyStr.all_chars plain_char (PyStr.format_d z) = true.
Proof.
  unfold PyStr.format_d, NilZero.string_of_int.
  destruct (Z.to_int z) as [u|u]; unfold NilZero.string_of_uint.
  - destruct u; try apply (plain_string_of_uint (_ u)); done.
  - simpl. destruct u; try apply (plain_string_of_uint (_ u)); done.
Qed.

Lemma plain_format_02d (z : Z) :
  PyStr.all_chars plain_char (PyStr.format_02d z) = true.
Proof.
  unfold PyStr.format_02d. case_match; [|apply plain_format_d].
  rewrite all_chars_append, plain_format_d. done.
Qed.

Lemma plain_digit_char (d : Z) :
  (0 <= d <= 9)%Z -> plain_char (digit_char d) = true.
Proof.
  intros Hd.
  apply (range_all (fun d => plain_char (digit_char d)) 0 10);
    [vm_compute; reflexivity | lia].
Qed.

Lemma plain_yyyymmdd (t : struct_time) :
  (1000 <= tm_year t <= 9999)%Z -> (0 <= tm_mon t <= 99)%Z ->
  (0 <= tm_mday t <= 99)%Z ->
  PyStr.all_chars plain_char (yyyymmdd t) = true.
Proof.
  intros Hy Hm Hd. unfold yyyymmdd. cbn [PyStr.all_chars].
  rewrite !plain_digit_char; [done | ..];
    Z.to_euclidean_division_equations; lia.
Qed.

End PlainFacts.

Section TrunkFacts.
Import Py Lib Package DateForm.
Context (env : Env).

Lemma lookup_node_version_path (f : FS) :
  lookup_node f (VERSION_PATH env) = f !! VERSION_PATH env.
Proof.
  unfold lookup_node, VERSION_PATH, ROBOT_PATH.
  destruct (_ ++ ["version.py"]) eqn:Hnil; [|done].
  by destruct (ROOT_PATH env).
Qed.

(** When [version.py] can be written, [_update_version] writes it, prints
    its line and returns. *)
Lemma update_version_run (vn : string) (tag : option string) (w : World) :
  parent_is_dir (fs w) (VERSION_PATH env) = true ->
  fs w !! VERSION_PATH env <> Some Dir ->
  exists timestamp,
    PyStr.all_chars plain_char timestamp = true
    /\ _update_version env vn tag w
       = ({| fs := <[VERSION_PATH env :=
                       File (VERSION_CONTENT vn (str_of tag) timestamp)]> (fs w);
             stdout := stdout w ++ ["Updated version to " +:+ vn +:+ " "
                                    +:+ str_of tag];
             ticks := S (ticks w);
             sys_modules := sys_modules w |}, Ok tt).
Proof.
  intros Hparent Hfile. eexists. split; cycle 1.
  - unfold _update_version, bind, time_localtime, write_file, print, set_fs.
    cbn [fs stdout ticks sys_modules].
    rewrite lookup_node_version_path, Hparent.
    destruct (fs w !! VERSION_PATH env) as [[data|]|]; done.
  - rewrite !all_chars_append, plain_format_d, !plain_format_02d. done.
Qed.

Lemma version_trunk_unfold (tag : option string) (w : World) :
  version env "trunk" tag w
  = bind (bind (time_localtime env)
               (fun t => _update_version env "trunk"
                           (Some (PyStr.format_d (tm_year t)
                                  +:+ PyStr.format_02d (tm_mon t)
                                  +:+ PyStr.format_02d (tm_mday t)))))
         (fun _ => bind (import_version env)
                        (fun m => ret (get_version m ""))) w.
Proof. reflexivity. Qed.

Lemma version_trunk_run (tag : option string) (w : World) :
  let today := localtime env (ticks w) in
  (1000 <= tm_year today <= 9999)%Z ->
  (0 <= tm_mon today <= 99)%Z ->
  (0 <= tm_mday today <= 99)%Z ->
  parent_is_dir (fs w) (VERSION_PATH env) = true ->
  fs w !! VERSION_PATH env <> Some Dir ->
  exists timestamp v r,
    PyStr.all_chars plain_char timestamp = true
    /\ version env "trunk" tag w = (v, r)
    /\ fs v = <[VERSION_PATH env :=
                  File (VERSION_CONTENT "trunk" (yyyymmdd today) timestamp)]>
                (fs w)
    /\ stdout v = stdout w ++ ["Updated version to trunk " +:+ yyyymmdd today].
Proof.
  intros today Hy Hm Hd Hparent Hfile.
  rewrite version_trunk_unfold.
  unfold bind at 1 2. unfold time_localtime at 1. fold today.
  rewrite format_date by (fold today; lia).
  destruct (update_version_run "trunk" (Some (yyyymmdd today))
              {| fs := fs w; stdout := stdout w; ticks := S (ticks w);
                 sys_modules := sys_modules w |} Hparent Hfile)
    as (timestamp & Hplain & Hrun).
  exists timestamp. rewrite Hrun. unfold bind.
  match goal with
  | |- context [import_version env ?v] =>
      destruct (import_version env v) as [v' [e|m]] eqn:Himp;
      apply import_version_fs in Himp as (Hfs & Hout & _)
  end; eexists _, _; (split; [done|]); (split; [reflexivity|]);
    by rewrite Hfs, Hout.
Qed.

(** C8. With [trunk], whatever release tag is given: when the clock shows
    a date with a four-digit year and [version.py] can be written, [version]
    writes a module text whose [RELEASE] is that date in the form
    [YYYYMMDD] (and whose [VERSION] is [trunk]), and says so; read back, the
    text gives that release tag. *)
Theorem trunk_release_is_date (tag : option string) (w : World) :
  let today := localtime env (ticks w) in
  (1000 <= tm_year today <= 9999)%Z ->
  (1 <= tm_mon today <= 12)%Z ->
  (1 <= tm_mday today <= 31)%Z ->
  parent_is_dir (fs w) (VERSION_PATH env) = true ->
  fs w !! VERSION_PATH env <> Some Dir ->
  exists timestamp,
    fs (version env "trunk" tag w).1 !! VERSION_PATH env
    = Some (File (VERSION_CONTENT "trunk" (yyyymmdd today) timestamp))
    /\ parse_version_module
         (VERSION_CONTENT "trunk" (yyyymmdd today) timestamp)
       = Some {| VERSION := "trunk"; RELEASE := yyyymmdd today;
                 TIMESTAMP := timestamp |}
    /\ last (stdout (version env "trunk" tag w).1)
       = Some ("Updated version to trunk " +:+ yyyymmdd today).
Proof.
  intros today Hy Hm Hd Hparent Hfile.
  destruct (version_trunk_run tag w)
    as (timestamp & v & r & Hplain & Hrun & Hfs & Hout);
    [fold today; lia .. | done | done |].
  exists timestamp. rewrite Hrun. cbn [fst]. rewrite Hfs, Hout.
  split; [apply lookup_insert_eq|]. split; [|apply last_snoc].
  apply parse_rendered; [done | | done].
  apply plain_yyyymmdd; fold today; lia.
Qed.

End TrunkFacts.

Lemma trunk_release_is_date_witness :
  let env := Sample.env None None None in
  exists timestamp,
    Py.fs (Package.version env "trunk" (Some "final") Sample.world).1
      !! Package.VERSION_PATH env
    = Some (Py.File (Package.VERSION_CONTENT "trunk" "20130704" timestamp))
    /\ Package.parse_version_module
         (Package.VERSION_CONTENT "trunk" "20130704" timestamp)
       = Some {| Py.VERSION := "trunk"; Py.RELEASE := "20130704";
                 Py.TIMESTAMP := timestamp |}
    /\ last (Py.stdout (Package.version env "trunk" (Some "final") Sample.world).1)
       = Some "Updated version to trunk 20130704".
Proof.
  intros env.
  apply (trunk_release_is_date env (Some "final") Sample.world);
    [simpl; lia | simpl; lia | simpl; lia | vm_refl | vm_compute; discriminate].
Defined.

Section JarNameFacts.
Import Py Lib Package.
Context (env : Env).

(** What [version] returns is [get_version(sep='')] of the module that is
    loaded then. *)
Lemma version_returns_get_version (vn : string) (tag : option string)
    (w w' : World) (s : string) :
  version env vn tag w = (w', Ok s) ->
  exists m, sys_modules w' = Some m /\ s = get_version m "".
Proof.
  unfold version, bind, ret. intros H.
  repeat (case_match; simplify_eq);
    match goal with
    | Himp : import_version env _ = (_, Ok ?m) |- _ =>
        exists m; split; [by apply (import_version_loaded env _ _ _ Himp) | done]
    end.
Qed.

Lemma version_star_returns_get_version (info : list string)
    (w w' : World) (s : string) :
  version_star env info w = (w', Ok s) ->
  exists m, sys_modules w' = Some m /\ s = get_version m "".
Proof.
  unfold version_star. intros H.
  repeat case_match; try done; by apply version_returns_get_version in H.
Qed.

Lemma create_jar_file_run (source : path) (ver : string) (w w' : World)
    (p : path) :
  _create_jar_file env source ver w = (w', Ok p) ->
  p = DIST_PATH env ++ ["robotframework-" +:+ ver +:+ ".jar"]
  /\ exists f,
       spawn env ["jar"; "cvfM"; path_str env p; "."] (Some source)
             (String.eqb (os_name env) "nt") f
       = Exited 0 (fs w').
Proof.
  unfold _create_jar_file, _fill_jar, bind, ret, subprocess_check_call.
  intros H.
  repeat (case_match; simplify_eq); (split; [done|]); eexists;
    match goal with
    | Hs : spawn env _ _ _ _ = Exited ?rc _, Hrc : (?rc =? 0)%Z = true |- _ =>
        apply Z.eqb_eq in Hrc; subst rc; apply Hs
    end.
Qed.

Lemma overwrite_manifest_run (tmpdir : path) (ver : string) (w w' : World) :
  _overwrite_manifest tmpdir ver w = (w', Ok tt) ->
  fs w' !! (tmpdir ++ ["META-INF"; "MANIFEST.MF"]) = Some (File (MANIFEST ver)).
Proof.
  unfold _overwrite_manifest, write_file. intros H.
  repeat (case_match; simplify_eq); simpl; apply lookup_insert_eq.
Qed.

(** C10. Let [jar] get as far as packaging: the Jython archive is found,
    [version] returns [ver], the staging directory is made, the stages up to
    the recompilation succeed, the manifest is written and the archiver
    exits with 0.  Then [ver] is [VERSION] of the loaded module when its
    [RELEASE] is [final] and [VERSION] directly followed by [RELEASE]
    otherwise; the manifest in the staging tree ends with the line
    [Implementation-Version: ver]; the archiver was run on
    [dist/robotframework-ver.jar]; and [jar] reports that path and removes
    the staging tree. *)
Theorem version_string_names_jar (info : list string)
    (w0 w1 w2 w3 w7 w8 w9 : World) (jython_jar tmpdir jar_path : path)
    (ver : string) :
  _get_jython_jar env w0 = (w1, Ok jython_jar) ->
  version_star env info
    (print ("Using Jython " +:+ path_str env jython_jar) w1).1 = (w2, Ok ver) ->
  _create_tmpdir env w2 = (w3, Ok tmpdir) ->
  bind (_compile_java_classes env tmpdir jython_jar) (fun _ =>
  bind (_unzip_jython_jar env tmpdir jython_jar) (fun _ =>
  bind (_copy_robot_files env tmpdir) (fun _ =>
  _compile_all_py_files env tmpdir jython_jar))) w3 = (w7, Ok tt) ->
  _overwrite_manifest tmpdir ver w7 = (w8, Ok tt) ->
  _create_jar_file env tmpdir ver w8 = (w9, Ok jar_path) ->
  (exists m, sys_modules w2 = Some m
             /\ ver = if String.eqb (RELEASE m) "final" then VERSION m
                      else VERSION m +:+ RELEASE m)
  /\ fs w8 !! (tmpdir ++ ["META-INF"; "MANIFEST.MF"])
     = Some (File (PyStr.unlines
                     [ "Manifest-Version: 1.0";
                       "Main-Class: org.robotframework.RobotFramework";
                       "Specification-Version: 2";
                       "Implementation-Version: " +:+ ver ]))
  /\ jar_path = DIST_PATH env ++ ["robotframework-" +:+ ver +:+ ".jar"]
  /\ (exists f,
        spawn env ["jar"; "cvfM"; path_str env jar_path; "."] (Some tmpdir)
              (String.eqb (os_name env) "nt") f
        = Exited 0 (fs w9))
  /\ jar env info w0
     = shutil_rmtree tmpdir
         (print ("Created " +:+ path_str env jar_path +:+ " based on "
                 +:+ path_str env jython_jar) w9).1.
Proof.
  intros H1 H2 H3 Hmid H7 H8.
  split; [|split; [|split; [|split]]].
  - apply version_star_returns_get_version in H2 as (m & Hm & ->).
    exists m. split; [done|]. unfold get_version.
    by destruct (String.eqb (RELEASE m) "final").
  - by apply overwrite_manifest_run in H7.
  - by apply create_jar_file_run in H8 as [-> _].
  - by apply create_jar_file_run in H8 as [_ Hf].
  - unfold jar. unfold bind at 1. rewrite H1.
    unfold bind at 1. unfold print at 1.
    unfold bind at 1. unfold print in H2. cbn [fst] in H2. rewrite H2.
    unfold bind at 1. rewrite H3.
    unfold bind at 1. unfold try_except at 1.
    revert Hmid. unfold bind at 1 2 3.
    unfold bind at 1.
    destruct (_compile_java_classes env tmpdir jython_jar w3)
      as [v4 [e4|[]]]; [done|].
    unfold bind at 1.
    destruct (_unzip_jython_jar env tmpdir jython_jar v4)
      as [v5 [e5|[]]]; [done|].
    unfold bind at 1.
    destruct (_copy_robot_files env tmpdir v5) as [v6 [e6|[]]]; [done|].
    unfold bind at 1. intros ->.
    unfold bind at 1. rewrite H7.
    unfold try_except, bind. rewrite H8. unfold print. done.
Qed.

End JarNameFacts.

Lemma version_string_names_jar_witness :
  let env := Sample.env (Some 0%Z) (Some 0%Z) (Some 0%Z) in
  let jar_path := ["proj"; "dist"; "robotframework-2.8a1.jar"] in
  exists w8 w9,
    (exists m, Py.sys_modules
                 (Package.version_star env ["2.8"; "a1"]
                    (Py.print ("Using Jython "
                               +:+ Lib.path_str env Sample.jython_jar)
                       (Package._get_jython_jar env Sample.world).1).1).1
               = Some m
               /\ "2.8a1" = if String.eqb (Py.RELEASE m) "final"
                            then Py.VERSION m
                            else Py.VERSION m +:+ Py.RELEASE m)
    /\ Py.fs w8 !! (Sample.tmp ++ ["META-INF"; "MANIFEST.MF"])
       = Some (Py.File (PyStr.unlines
                          [ "Manifest-Version: 1.0";
                            "Main-Class: org.robotframework.RobotFramework";
                            "Specification-Version: 2";
                            "Implementation-Version: " +:+ "2.8a1" ]))
    /\ jar_path = Package.DIST_PATH env ++ ["robotframework-" +:+ "2.8a1" +:+ ".jar"]
    /\ (exists f,
          Py.spawn env ["jar"; "cvfM"; Lib.path_str env jar_path; "."]
            (Some Sample.tmp) (String.eqb (Py.os_name env) "nt") f
          = Py.Exited 0 (Py.fs w9))
    /\ Package.jar env ["2.8"; "a1"] Sample.world
       = Lib.shutil_rmtree Sample.tmp
           (Py.print ("Created " +:+ Lib.path_str env jar_path +:+ " based on "
                      +:+ Lib.path_str env Sample.jython_jar) w9).1.
Proof.
  intros env jar_path.
  set (w1 := (Package._get_jython_jar env Sample.world).1).
  set (w2 := (Package.version_star env ["2.8"; "a1"]
                (Py.print ("Using Jython "
                           +:+ Lib.path_str env Sample.jython_jar) w1).1).1).
  set (w3 := (Package._create_tmpdir env w2).1).
  set (w7 := (Py.bind (Package._compile_java_classes env Sample.tmp Sample.jython_jar) (fun _ =>
              Py.bind (Package._unzip_jython_jar env Sample.tmp Sample.jython_jar) (fun _ =>
              Py.bind (Package._copy_robot_files env Sample.tmp) (fun _ =>
              Package._compile_all_py_files env Sample.tmp Sample.jython_jar))) w3).1).
  set (w8 := (Package._overwrite_manifest Sample.tmp "2.8a1" w7).1).
  set (w9 := (Package._create_jar_file env Sample.tmp "2.8a1" w8).1).
  exists w8, w9.
  apply (version_string_names_jar env ["2.8"; "a1"] Sample.world
           w1 w2 w3 w7 w8 w9 Sample.jython_jar Sample.tmp jar_path "2.8a1");
    vm_run.
Defined.

(** ** What the patterns accept *)

Section RegexFacts.
Import Re ReLang.

Lemma append_empty (a b : string) :
  a +:+ b = EmptyString -> a = EmptyString /\ b = EmptyString.
Proof. destruct a; [done|]. rewrite append_cons. done. Qed.

Lemma append_nil_r (a : string) : a +:+ EmptyString = a.
Proof. induction a as [|x a IH]; [done|]. by rewrite append_cons, IH. Qed.

Lemma nullable_spec (r : re) : nullable r = true <-> lang r EmptyString.
Proof.
  induction r as [| |c| |a IHa b IHb|a IHa b IHb|a IHa]; simpl.
  - split; [discriminate | done].
  - done.
  - split; discriminate.
  - split; [discriminate | intros (c & _ & H); discriminate].
  - rewrite andb_true_iff, IHa, IHb. split.
    + intros [Ha Hb]. by exists EmptyString, EmptyString.
    + intros (s1 & s2 & Heq & Ha & Hb). symmetry in Heq.
      apply append_empty in Heq as [-> ->]. done.
  - rewrite orb_true_iff, IHa, IHb. done.
  - split; [intros _; constructor | done].
Qed.

Lemma star_cons_inv (L : string -> Prop) (c : ascii) (s : string) :
  star L (String c s) ->
  exists s1 s2, s = s1 +:+ s2 /\ L (String c s1) /\ star L s2.
Proof.
  intros H. remember (String c s) as t eqn:Ht. revert c s Ht.
  induction H as [|s1 s2 H1 H2 IH]; intros c s Ht; [discriminate|].
  destruct s1 as [|x s1].
  - rewrite append_nil in Ht. by apply IH.
  - rewrite append_cons in Ht. injection Ht as -> <-. by exists s1, s2.
Qed.

Lemma deriv_spec (r : re) (c : ascii) (s : string) :
  lang (deriv c r) s <-> lang r (String c s).
Proof.
  revert s. induction r as [| |d| |a IHa b IHb|a IHa b IHb|a IHa]; intros s; simpl.
  - done.
  - split; [done | discriminate].
  - destruct (Ascii.eqb_spec c d) as [->|Hcd]; simpl.
    + split; [by intros -> | by intros [= ->]].
    + split; [done | intros [= -> _]; done].
  - destruct (PyStr.is_digit c) eqn:Hc; simpl.
    + split; [intros ->; by exists c | by intros (x & _ & [= _ ->])].
    + split; [done | intros (x & Hx & [= -> _]); congruence].
  - assert (Hcat : (exists s1 s2, s = s1 +:+ s2 /\ lang (deriv c a) s1 /\ lang b s2)
                   \/ (lang a EmptyString /\ lang b (String c s))
                   <-> exists s1 s2, String c s = s1 +:+ s2 /\ lang a s1 /\ lang b s2).
    { split.
      - intros [(s1 & s2 & -> & Ha & Hb)|[Ha Hb]].
        + exists (String c s1), s2. rewrite append_cons. by rewrite <- IHa.
        + by exists EmptyString, (String c s).
      - intros (s1 & s2 & Heq & Ha & Hb). destruct s1 as [|x s1].
        + rewrite append_nil in Heq. subst s2. by right.
        + rewrite append_cons in Heq. injection Heq as <- ->. left.
          exists s1, s2. by rewrite IHa. }
    destruct (nullable a) eqn:Hn; simpl.
    + rewrite <- Hcat, IHb. apply nullable_spec in Hn. tauto.
    + rewrite <- Hcat. split; [by left|].
      intros [H|[Ha _]]; [done|]. apply nullable_spec in Ha. congruence.
  - by rewrite IHa, IHb.
  - split.
    + intros (s1 & s2 & -> & Ha & Hs). rewrite <- append_cons.
      apply star_app; [by apply IHa | done].
    + intros H. apply star_cons_inv in H as (s1 & s2 & -> & Ha & Hs).
      exists s1, s2. by rewrite IHa.
Qed.

(** The matcher accepts exactly the strings its pattern stands for. *)
Lemma fullmatch_spec (r : re) (s : string) : fullmatch r s = true <-> lang r s.
Proof.
  revert r. induction s as [|c s IH]; intros r; simpl.
  - apply nullable_spec.
  - by rewrite IH, deriv_spec.
Qed.

Lemma lang_Str (t s : string) : lang (Str t) s <-> s = t.
Proof.
  revert s. induction t as [|c t IH]; intros s; simpl; [done|]. split.
  - intros (s1 & s2 & -> & -> & H). apply IH in H as ->. done.
  - intros ->. exists (String c EmptyString), t. by rewrite IH.
Qed.

Lemma lang_Star_Digit (s : string) :
  lang (Star Digit) s <-> PyStr.all_chars PyStr.is_digit s = true.
Proof.
  simpl. split.
  - induction 1 as [|s1 s2 (c & Hc & ->) _ IH]; [done|].
    rewrite append_cons, append_nil. simpl. by rewrite Hc, IH.
  - induction s as [|c s IH]; simpl; [constructor|].
    rewrite andb_true_iff. intros [Hc Hs].
    change (String c s) with (String c EmptyString +:+ s).
    apply star_app; [by exists c | by apply IH].
Qed.

Lemma lang_Plus_Digit (s : string) : lang (Plus Digit) s <-> digits s.
Proof.
  unfold Plus, digits. split.
  - intros (s1 & s2 & -> & (c & Hc & ->) & Hs). apply lang_Star_Digit in Hs.
    rewrite append_cons, append_nil. simpl. by rewrite Hc, Hs.
  - intros [Hne Hs]. destruct s as [|c s]; [done|]. simpl in Hs.
    apply andb_true_iff in Hs as [Hc Hs].
    exists (String c EmptyString), s. split; [done|]. split; [by exists c|].
    by apply lang_Star_Digit.
Qed.

Lemma lang_version_pattern (s : string) :
  lang Package.version_pattern s <-> dotted_numeric s.
Proof.
  unfold Package.version_pattern, dotted_numeric, Opt.
  change (lang (Cat ?a ?b) s)
    with (exists s1 s2, s = s1 +:+ s2 /\ lang a s1 /\ lang b s2).
  split.
  - intros (s1 & s2 & -> & H1 & (x & t & -> & Hx & Ht)).
    apply lang_Str in H1 as ->. apply lang_Plus_Digit in Hx.
    exists x. split; [done|]. destruct Ht as [(d & y & -> & Hd & Hy)|Ht].
    + right. exists y. apply lang_Plus_Digit in Hy. simpl in Hd. by subst d.
    + left. simpl in Ht. subst t. by rewrite append_nil_r.
  - intros (x & Hx & [->|(y & Hy & ->)]); exists "2."; eexists;
      (split; [reflexivity|]); (split; [by apply lang_Str|]).
    + exists x, EmptyString. rewrite append_nil_r. split; [done|].
      split; [by apply lang_Plus_Digit | by right].
    + exists x, ("." +:+ y). split; [done|].
      split; [by apply lang_Plus_Digit|]. left.
      exists ".", y. split; [done|]. split; [done | by apply lang_Plus_Digit].
Qed.

(** [search] with a pattern [^body$] accepts what [body] stands for, also
    when one newline follows. *)
Lemma search_anchored_spec (body : re) (s : string) :
  search_anchored body s = true
  <-> lang body s \/ exists s0, s = s0 +:+ PyStr.nl /\ lang body s0.
Proof.
  unfold search_anchored. rewrite fullmatch_spec. simpl. split.
  - intros (s1 & s2 & -> & H1 & [->| ->]).
    + right. by exists s1.
    + left. by rewrite append_nil_r.
  - intros [H|(s0 & -> & H)].
    + exists s, EmptyString. rewrite append_nil_r. tauto.
    + exists s0, PyStr.nl. split; [done|]. split; [done|]. by left.
Qed.

(** What [VERSIONS] takes for a number: [2.x] or [2.x.y], also with one
    newline after it. *)
Lemma version_pattern_accepts (s : string) :
  search_anchored Package.version_pattern s = true
  <-> dotted_numeric s \/ exists s0, s = s0 +:+ PyStr.nl /\ dotted_numeric s0.
Proof.
  rewrite search_anchored_spec, lang_version_pattern.
  by setoid_rewrite lang_version_pattern.
Qed.

End RegexFacts.

(** ** The attribute formatter *)

Section PrettyFacts.
Import ListenImports.

Lemma split_no_sep (c : ascii) (t : string) :
  PyStr.all_chars (fun x => negb (Ascii.eqb x c)) t = true ->
  PyStr.split c t = [t].
Proof.
  induction t as [|x t IH]; simpl; [done|].
  rewrite andb_true_iff. intros [Hx Ht]. apply negb_true_iff in Hx.
  by rewrite Hx, IH.
Qed.

Lemma join_cons (sep t t' : string) (ts : list string) :
  PyStr.join sep (t :: t' :: ts) = t +:+ sep +:+ PyStr.join sep (t' :: ts).
Proof. reflexivity. Qed.

Lemma split_join (c : ascii) (toks : list string) :
  toks <> [] ->
  Forall (fun t => PyStr.all_chars (fun x => negb (Ascii.eqb x c)) t = true) toks ->
  PyStr.split c (PyStr.join (String c EmptyString) toks) = toks.
Proof.
  intros Hne H. induction H as [|t toks Ht Htoks IH]; [done|].
  destruct toks as [|t' toks].
  - simpl. by apply split_no_sep.
  - rewrite join_cons, append_cons, append_nil, split_append by done.
    by rewrite IH.
Qed.

Lemma last_items_snoc {A} (l : list A) (x : A) :
  PyStr.last_items 1 (l ++ [x]) = [x].
Proof.
  unfold PyStr.last_items. rewrite length_app. simpl.
  replace (length l + 1 - 1) with (length l) by lia.
  by rewrite drop_app_length.
Qed.

(** An absolute path without names of compiled modules in it: after the
    two slashes comes the last component, and before it the one above when
    the last component is [__init__.py]. *)
Lemma pretty_of_plain_path (dirs : list string) (name : string) :
  Forall (fun t => PyStr.all_chars (fun x => negb (Ascii.eqb x os_sep)) t = true)
         (dirs ++ [name]) ->
  PyStr.replace
    (PyStr.replace ("/" +:+ PyStr.join "/" (dirs ++ [name])) "$py.class" ".py")
    ".pyc" ".py"
  = "/" +:+ PyStr.join "/" (dirs ++ [name]) ->
  _pretty (AStr ("/" +:+ PyStr.join "/" (dirs ++ [name])))
  = AStr ("//" +:+ if bool_decide (name = "__init__.py")
                   then PyStr.join "/"
                          (PyStr.last_items 2 (EmptyString :: dirs ++ [name]))
                   else name).
Proof.
  intros Htoks Hplain. unfold _pretty, os_path_isabs, PyStr.startswith.
  rewrite prefix_append, Hplain.
  assert (Hsplit : PyStr.split os_sep ("/" +:+ PyStr.join "/" (dirs ++ [name]))
                   = EmptyString :: dirs ++ [name]).
  { rewrite <- (split_join os_sep (EmptyString :: dirs ++ [name])).
    - destruct (dirs ++ [name]) eqn:Hd; [by destruct dirs|]. done.
    - done.
    - by constructor. }
  rewrite Hsplit.
  change (EmptyString :: dirs ++ [name]) with ((EmptyString :: dirs) ++ [name]).
  rewrite last_snoc.
  destruct (decide (name = "__init__.py")) as [->|Hname].
  - rewrite !bool_decide_eq_true_2 by done. done.
  - rewrite !bool_decide_eq_false_2 by congruence. cbn [negb].
    by rewrite last_items_snoc.
Qed.

End PrettyFacts.

(** ** What the checks of [version] let through *)

Section ValidationFacts.
Import Py Re ReLang TagForm Package.

Lemma lang_letter_digits (pre s : string) :
  lang (Cat (Str pre) (Star Digit)) s
  <-> exists ds, PyStr.all_chars PyStr.is_digit ds = true /\ s = pre +:+ ds.
Proof.
  change (lang (Cat (Str pre) (Star Digit)) s)
    with (exists s1 s2, s = s1 +:+ s2 /\ lang (Str pre) s1 /\ lang (Star Digit) s2).
  split.
  - intros (s1 & s2 & -> & H1 & H2). apply lang_Str in H1 as ->.
    apply lang_Star_Digit in H2. by exists s2.
  - intros (ds & Hds & ->). exists pre, ds. split; [done|].
    split; [by apply lang_Str | by apply lang_Star_Digit].
Qed.

(** The strings one of the three patterns of [RELEASES] stands for. *)
Lemma lang_releases (s : string) :
  lang (Cat (Chr "a") (Star Digit)) s \/ lang (Cat (Chr "b") (Star Digit)) s
  \/ lang (Cat (Str "rc") (Star Digit)) s
  <-> prerelease s.
Proof.
  assert (Hone : forall c r t,
            lang (Cat (Chr c) r) t <-> lang (Cat (Str (String c EmptyString)) r) t).
  { intros c r t.
    change (lang (Cat (Chr c) r) t)
      with (exists s1 s2, t = s1 +:+ s2 /\ lang (Chr c) s1 /\ lang r s2).
    change (lang (Cat (Str (String c EmptyString)) r) t)
      with (exists s1 s2, t = s1 +:+ s2
                          /\ lang (Str (String c EmptyString)) s1 /\ lang r s2).
    by setoid_rewrite lang_Str. }
  rewrite !Hone, !lang_letter_digits. unfold prerelease. split.
  - intros [(ds & H & ->)|[(ds & H & ->)|(ds & H & ->)]]; exists ds; tauto.
  - intros (ds & H & [->|[->| ->]]); [left | right; left | right; right];
      by exists ds.
Qed.

(** [_verify_version] on a release tag: [final], or a pre-release tag,
    also with one newline after it; everything else is a [ValueError]. *)
Theorem release_tag_accepted (t : string) :
  (_verify_version (Some t) RELEASES = Ok (Some t)
   <-> t = "final" \/ prerelease t
       \/ exists t0, t = t0 +:+ PyStr.nl /\ prerelease t0)
  /\ (_verify_version (Some t) RELEASES = Ok (Some t)
      \/ _verify_version (Some t) RELEASES = Raise ValueError).
Proof.
  unfold RELEASES. cbn [_verify_version].
  pose proof (search_anchored_spec (Cat (Chr "a") (Star Digit)) t) as Ha.
  pose proof (search_anchored_spec (Cat (Chr "b") (Star Digit)) t) as Hb.
  pose proof (search_anchored_spec (Cat (Str "rc") (Star Digit)) t) as Hc.
  pose proof (lang_releases t) as Ht.
  assert (Hnl : (exists t0, t = t0 +:+ PyStr.nl /\ prerelease t0)
                <-> (exists t0, t = t0 +:+ PyStr.nl
                                /\ lang (Cat (Chr "a") (Star Digit)) t0)
                    \/ (exists t0, t = t0 +:+ PyStr.nl
                                   /\ lang (Cat (Chr "b") (Star Digit)) t0)
                    \/ (exists t0, t = t0 +:+ PyStr.nl
                                   /\ lang (Cat (Str "rc") (Star Digit)) t0)).
  { setoid_rewrite <- lang_releases. split.
    - intros (t0 & -> & [H|[H|H]]); [left | right; left | right; right];
        by exists t0.
    - intros [(t0 & -> & H)|[(t0 & -> & H)|(t0 & -> & H)]]; exists t0; tauto. }
  destruct (search_anchored (Cat (Chr "a") (Star Digit)) t);
    [split; [|by left]; split; [intros _; tauto | done]|].
  destruct (search_anchored (Cat (Chr "b") (Star Digit)) t);
    [split; [|by left]; split; [intros _; tauto | done]|].
  destruct (search_anchored (Cat (Str "rc") (Star Digit)) t);
    [split; [|by left]; split; [intros _; tauto | done]|].
  case_bool_decide as Hfin.
  - split; [|by left]. split; [intros _; left; congruence | done].
  - split; [|by right]. split; [done|].
    intros [->|H]; [done|].
    assert (true = false) as Habs; [|done].
    destruct Ha as [_ Ha], Hb as [_ Hb], Hc as [_ Hc].
    rewrite Hnl, <- Ht in H.
    destruct H as [[H|[H|H]]|[H|[H|H]]]; symmetry;
      first [apply Ha; tauto | apply Hb; tauto | apply Hc; tauto].
Qed.

End ValidationFacts.

Section AcceptedFacts.
Import Py Lib Re ReLang TagForm Package.
Context (env : Env).

(** [_verify_version] on a version number: [trunk], [keep], or a number
    [2.x] or [2.x.y], also with one newline after it; everything else is a
    [ValueError]. *)
Theorem version_number_accepted (vn : string) :
  (_verify_version (Some vn) VERSIONS = Ok (Some vn)
   <-> vn = "trunk" \/ vn = "keep" \/ dotted_numeric vn
       \/ exists v0, vn = v0 +:+ PyStr.nl /\ dotted_numeric v0)
  /\ (_verify_version (Some vn) VERSIONS = Ok (Some vn)
      \/ _verify_version (Some vn) VERSIONS = Raise ValueError).
Proof.
  unfold VERSIONS. cbn [_verify_version].
  pose proof (version_pattern_accepts vn) as Hv.
  destruct (search_anchored version_pattern vn).
  { split; [|by left]. split; [intros _|done].
    destruct Hv as [Hv _]. destruct (Hv eq_refl); tauto. }
  repeat case_bool_decide; simplify_eq.
  - split; [|by left]. split; [tauto | done].
  - split; [|by left]. split; [tauto | done].
  - split; [|by right]. split; [done|].
    intros [->|[->|Hd]]; [done | done |].
    destruct Hv as [_ Hv]. by specialize (Hv Hd).
Qed.






(** A numeric version number without a release tag: [version] raises
    [TypeError] (the pattern's [search] is given [None]) and leaves the
    world as it was. *)
Theorem numeric_version_needs_tag (vn : string) (w : World) :
  search_anchored version_pattern vn = true ->
  version env vn None w = (w, Raise TypeError).
Proof.
  intros Hvn. unfold version, bind, lift, VERSIONS. cbn [_verify_version].
  rewrite Hvn.
  destruct (String.eqb_spec vn "keep") as [->|_]; [by vm_compute in Hvn|].
  destruct (String.eqb_spec vn "trunk") as [->|_]; [by vm_compute in Hvn|].
  reflexivity.
Qed.


End AcceptedFacts.

Lemma numeric_version_needs_tag_witness :
  Package.version (Sample.env None None None) "2.8" None Sample.world
  = (Sample.world, Py.Raise Py.TypeError).
Proof. apply numeric_version_needs_tag. reflexivity. Defined.


(** ** What the resolver and the cleaner touch *)

Section TouchFacts.
Import Py Lib Package Notions.
Context (env : Env).




End TouchFacts.


Section CleanFacts.
Import Py Lib Package Notions.
Context (env : Env).

Lemma bind_ok {A B} (m : M A) (k : A -> M B) (w w' : World) (a : A) :
  m w = (w', Ok a) -> bind m k w = k a w'.
Proof. unfold bind. by intros ->. Qed.

Lemma bind_raise {A B} (m : M A) (k : A -> M B) (w w' : World) (e : exn) :
  m w = (w', Raise e) -> bind m k w = (w', Raise e).
Proof. unfold bind. by intros ->. Qed.

Lemma lookup_node_snoc (f : FS) (d : path) (name : string) :
  lookup_node f (d ++ [name]) = f !! (d ++ [name]).
Proof. unfold lookup_node. by destruct d. Qed.

(** One round of the loop of [_clean] on a path that is a directory or
    absent. *)
Lemma clean_step (d : path) (name : string) (w : World) :
  (forall data, fs w !! (d ++ [name]) <> Some (File data)) ->
  exists w',
    bind (os_path_exists (d ++ [name]))
         (fun e => if e then shutil_rmtree (d ++ [name]) else ret tt) w
    = (w', Ok tt)
    /\ stdout w' = stdout w
    /\ fs w' !! (d ++ [name]) = None
    /\ (forall q, fs w !! (d ++ [name]) = Some Dir ->
                  is_prefix (d ++ [name]) q = true -> fs w' !! q = None)
    /\ (forall q, is_prefix (d ++ [name]) q = false -> fs w' !! q = fs w !! q)
    /\ (forall q, fs w' !! q = None \/ fs w' !! q = fs w !! q).
Proof.
  intros Hfile. unfold bind, os_path_exists, shutil_rmtree, ret.
  rewrite lookup_node_snoc.
  destruct (fs w !! (d ++ [name])) as [[data|]|] eqn:Hp.
  - by destruct (Hfile data).
  - rewrite bool_decide_eq_true_2 by eauto. cbv beta iota.
    rewrite lookup_node_snoc, Hp. eexists. split; [reflexivity|].
    cbn [set_fs fs stdout]. split; [done|].
    assert (Hgone : forall q, is_prefix (d ++ [name]) q = true ->
              filter (fun kv : path * node => is_prefix (d ++ [name]) kv.1 = false)
                     (fs w) !! q = None).
    { intros q Hq. apply map_lookup_filter_None. right. intros nd _.
      simpl. congruence. }
    assert (Hkept : forall q, is_prefix (d ++ [name]) q = false ->
              filter (fun kv : path * node => is_prefix (d ++ [name]) kv.1 = false)
                     (fs w) !! q = fs w !! q).
    { intros q Hq. rewrite map_lookup_filter.
      destruct (fs w !! q) as [nd|]; [|done]. simpl.
      by rewrite option_guard_True. }
    split; [apply Hgone, is_prefix_refl|]. split; [intros q _; apply Hgone|].
    split; [done|]. intros q.
    destruct (is_prefix (d ++ [name]) q) eqn:Hq; [left; by apply Hgone|].
    right. by apply Hkept.
  - rewrite bool_decide_eq_false_2 by (intros [x Hx]; done).
    exists w. repeat split; try done. by right.
Qed.

(** When [dist] and [build] are directories or absent, [_clean] ends
    normally; afterwards neither exists, what was below an existing one is
    gone, and every path outside the two is as before. *)
Theorem clean_removes_outputs (w : World) :
  (forall data, fs w !! DIST_PATH env <> Some (File data)) ->
  (forall data, fs w !! BUILD_PATH env <> Some (File data)) ->
  exists w',
    _clean env w = (w', Ok tt)
    /\ stdout w' = stdout w ++ ["Cleaning up..."]
    /\ fs w' !! DIST_PATH env = None
    /\ fs w' !! BUILD_PATH env = None
    /\ (forall q, fs w !! DIST_PATH env = Some Dir ->
                  is_prefix (DIST_PATH env) q = true -> fs w' !! q = None)
    /\ (forall q, fs w !! BUILD_PATH env = Some Dir ->
                  is_prefix (BUILD_PATH env) q = true -> fs w' !! q = None)
    /\ (forall q, is_prefix (DIST_PATH env) q = false ->
                  is_prefix (BUILD_PATH env) q = false ->
                  fs w' !! q = fs w !! q).
Proof.
  intros Hdist Hbuild. unfold _clean, DIST_PATH, BUILD_PATH in *.
  set (w0 := (print "Cleaning up..." w).1).
  assert (Hdb : is_prefix (ROOT_PATH env ++ ["dist"]) (ROOT_PATH env ++ ["build"])
                = false) by (by apply is_prefix_sibling).
  destruct (clean_step (ROOT_PATH env) "dist" w0 Hdist)
    as (w1 & Hrun1 & Hout1 & Hd1 & Hbelow1 & Hkept1 & Hmono1).
  destruct (clean_step (ROOT_PATH env) "build" w1)
    as (w2 & Hrun2 & Hout2 & Hd2 & Hbelow2 & Hkept2 & Hmono2).
  { intros data. rewrite Hkept1 by done. apply Hbuild. }
  exists w2. split; [|split; [|split; [|split; [|split; [|split]]]]].
  - rewrite (bind_ok _ _ w w0 tt) by done. cbn [for_each].
    rewrite (bind_ok _ _ w0 w1 tt) by done. cbv beta.
    rewrite (bind_ok _ _ w1 w2 tt) by done. done.
  - by rewrite Hout2, Hout1.
  - destruct (Hmono2 (ROOT_PATH env ++ ["dist"])) as [H|H]; [done|].
    by rewrite H.
  - done.
  - intros q Hd Hq. destruct (Hmono2 q) as [H|H]; [done|].
    rewrite H. by apply Hbelow1.
  - intros q Hb Hq. apply Hbelow2; [|done]. by rewrite Hkept1.
  - intros q Hqd Hqb. rewrite Hkept2, Hkept1 by done. done.
Qed.

End CleanFacts.

Lemma clean_removes_outputs_witness :
  let env := Sample.env None None None in
  let w := Py.set_fs (<[["proj"; "dist"; "old.zip"] := Py.File "zip"]>
                        (<[["proj"; "dist"] := Py.Dir]> Sample.tree))
                     Sample.world in
  exists w',
    Package._clean env w = (w', Py.Ok tt)
    /\ Py.stdout w' = Py.stdout w ++ ["Cleaning up..."]
    /\ Py.fs w' !! Package.DIST_PATH env = None
    /\ Py.fs w' !! Package.BUILD_PATH env = None
    /\ (forall q, Py.fs w !! Package.DIST_PATH env = Some Py.Dir ->
                  Lib.is_prefix (Package.DIST_PATH env) q = true ->
                  Py.fs w' !! q = None)
    /\ (forall q, Py.fs w !! Package.BUILD_PATH env = Some Py.Dir ->
                  Lib.is_prefix (Package.BUILD_PATH env) q = true ->
                  Py.fs w' !! q = None)
    /\ (forall q, Lib.is_prefix (Package.DIST_PATH env) q = false ->
                  Lib.is_prefix (Package.BUILD_PATH env) q = false ->
                  Py.fs w' !! q = Py.fs w !! q).
Proof.
  intros env w.
  apply (clean_removes_outputs env w); intros data; vm_compute; discriminate.
Defined.

Section StagingFacts.
Import Py Lib Package Notions.
Context (env : Env).

Lemma is_prefix_longer (d : path) (name : string) :
  is_prefix (d ++ [name]) d = false.
Proof. induction d as [|x d IH]; [done|]. simpl. by rewrite String.eqb_refl. Qed.

Lemma lookup_node_kept (f g : FS) (d : path) (name : string) :
  (forall q, is_prefix (d ++ [name]) q = false -> g !! q = f !! q) ->
  lookup_node g d = lookup_node f d.
Proof.
  intros H. unfold lookup_node. destruct d as [|x d]; [done|].
  apply H, is_prefix_longer.
Qed.

(** When the project root is a directory and the staging path is a
    directory or nothing is there, [_create_tmpdir] ends normally with a
    staging directory that is empty; every path outside it is as before. *)
Theorem create_tmpdir_fresh (w : World) :
  let tmpdir := ROOT_PATH env ++ ["tmp-jar-dir"] in
  lookup_node (fs w) (ROOT_PATH env) = Some Dir ->
  fs w !! tmpdir = Some Dir
  \/ (forall q, is_prefix tmpdir q = true -> fs w !! q = None) ->
  exists w',
    _create_tmpdir env w = (w', Ok tmpdir)
    /\ fs w' !! tmpdir = Some Dir
    /\ (forall q, is_prefix tmpdir q = true -> q <> tmpdir -> fs w' !! q = None)
    /\ (forall q, is_prefix tmpdir q = false -> fs w' !! q = fs w !! q).
Proof.
  intros tmpdir Hroot Htmp.
  destruct (clean_step (ROOT_PATH env) "tmp-jar-dir" w)
    as (w1 & Hrun1 & _ & Hnone & Hbelow & Hkept & Hmono).
  { intros data. fold tmpdir. destruct Htmp as [->|Hfree]; [done|].
    by rewrite Hfree by apply is_prefix_refl. }
  fold tmpdir in Hrun1, Hnone, Hbelow, Hkept.
  assert (Hgone : forall q, is_prefix tmpdir q = true -> fs w1 !! q = None).
  { intros q Hq. destruct Htmp as [Hdir|Hfree]; [by apply Hbelow|].
    destruct (Hmono q) as [H|H]; [done|]. rewrite H. by apply Hfree. }
  assert (Hmk : os_mkdir tmpdir w1
                = (set_fs (<[tmpdir := Dir]> (fs w1)) w1, Ok tt)).
  { unfold os_mkdir. unfold tmpdir at 1. rewrite lookup_node_snoc.
    fold tmpdir. rewrite Hnone. unfold parent_is_dir, tmpdir.
    rewrite split_last_snoc.
    rewrite (lookup_node_kept (fs w) (fs w1) _ "tmp-jar-dir") by done.
    by rewrite Hroot, bool_decide_eq_true_2. }
  eexists. split; [|split; [|split]].
  - unfold _create_tmpdir. fold tmpdir.
    change (bind (os_path_exists tmpdir) ?k w)
      with (bind (bind (os_path_exists tmpdir)
                       (fun e => if e then shutil_rmtree tmpdir else ret tt))
                 (fun _ => bind (os_mkdir tmpdir) (fun _ => ret tmpdir)) w).
    rewrite (bind_ok _ _ w w1 tt) by done.
    rewrite (bind_ok _ _ w1 _ tt Hmk). reflexivity.
  - simpl. apply lookup_insert_eq.
  - intros q Hq Hne. simpl. rewrite lookup_insert_ne by done. by apply Hgone.
  - intros q Hq. simpl. rewrite lookup_insert_ne.
    + by apply Hkept.
    + intros <-. by rewrite is_prefix_refl in Hq.
Qed.

(** Once [_get_jython_jar] has returned the archive's path, the archive is
    there, and asking again returns the same path and changes nothing: no
    second download. *)
Theorem get_jython_jar_reuses_archive (w w' : World) (jar_path : path) :
  _get_jython_jar env w = (w', Ok jar_path) ->
  jar_path = ROOT_PATH env ++ ["ext-lib"; "jython-standalone-2.5.3.jar"]
  /\ is_Some (fs w' !! jar_path)
  /\ _get_jython_jar env w' = (w', Ok jar_path).
Proof.
  intros Hrun.
  assert (Hlook : forall f : FS,
            lookup_node f ((ROOT_PATH env ++ ["ext-lib"])
                           ++ ["jython-standalone-" +:+ JYTHON_VERSION +:+ ".jar"])
            = f !! (ROOT_PATH env ++ ["ext-lib"; "jython-standalone-2.5.3.jar"])).
  { intros f. rewrite lookup_node_snoc, <- app_assoc. done. }
  assert (Hagain : forall v,
            is_Some (fs v !! (ROOT_PATH env
                              ++ ["ext-lib"; "jython-standalone-2.5.3.jar"])) ->
            _get_jython_jar env v
            = (v, Ok (ROOT_PATH env
                      ++ ["ext-lib"; "jython-standalone-2.5.3.jar"]))).
  { intros v Hv. unfold _get_jython_jar, bind, os_path_exists, ret.
    rewrite Hlook, bool_decide_eq_true_2 by done.
    by rewrite <- app_assoc. }
  assert (Hfacts : jar_path = ROOT_PATH env
                              ++ ["ext-lib"; "jython-standalone-2.5.3.jar"]
                   /\ is_Some (fs w' !! (ROOT_PATH env
                                 ++ ["ext-lib"; "jython-standalone-2.5.3.jar"]))).
  { revert Hrun.
    unfold _get_jython_jar, bind, os_path_exists, os_mkdir, urllib_urlretrieve,
      write_file, print, ret, raise, set_fs.
    rewrite !Hlook.
    repeat (case_match; simplify_eq; cbn [fs] in * ); intros; simplify_eq;
      rewrite <- app_assoc; cbn [app]; (split; [done|]).
    all: try (apply bool_decide_eq_true in H; exact H).
    all: cbn [fs];
      change ("jython-standalone-" +:+ JYTHON_VERSION +:+ ".jar")
        with "jython-standalone-2.5.3.jar".
    all: rewrite lookup_insert_eq; eauto. }
  destruct Hfacts as [-> Hthere]. split; [done|]. split; [done|].
  by apply Hagain.
Qed.

End StagingFacts.

Lemma create_tmpdir_fresh_witness :
  let env := Sample.env None None None in
  let w := Py.set_fs (<[Sample.tmp ++ ["stale.class"] := Py.File "class"]>
                        (<[Sample.tmp := Py.Dir]> Sample.tree))
                     Sample.world in
  exists w',
    Package._create_tmpdir env w = (w', Py.Ok Sample.tmp)
    /\ Py.fs w' !! Sample.tmp = Some Py.Dir
    /\ (forall q, Lib.is_prefix Sample.tmp q = true -> q <> Sample.tmp ->
                  Py.fs w' !! q = None)
    /\ (forall q, Lib.is_prefix Sample.tmp q = false ->
                  Py.fs w' !! q = Py.fs w !! q).
Proof.
  intros env w.
  apply (create_tmpdir_fresh env w); [vm_refl | left; vm_refl].
Defined.

Lemma get_jython_jar_reuses_archive_witness :
  let env := Sample.env None None None in
  let w' := (Package._get_jython_jar env Sample.world).1 in
  Sample.jython_jar
  = Py.ROOT_PATH env ++ ["ext-lib"; "jython-standalone-2.5.3.jar"]
  /\ is_Some (Py.fs w' !! Sample.jython_jar)
  /\ Package._get_jython_jar env w' = (w', Py.Ok Sample.jython_jar).
Proof.
  intros env w'.
  apply (get_jython_jar_reuses_archive env Sample.world w' Sample.jython_jar).
  vm_run.
Defined.

(** ** The commands and the usage text *)

Section UsageFacts.
Import Py Lib Package Notions.
Context (env : Env).

Lemma verify_version_raises (given : option string) (valid : list item)
    (e : exn) :
  _verify_version given valid = Raise e -> e = ValueError \/ e = TypeError.
Proof.
  induction valid as [|[body|s] valid IH]; simpl.
  - intros [= <-]. by left.
  - destruct given as [g|]; [|intros [= <-]; by right].
    by destruct (Re.search_anchored body g).
  - by case_bool_decide.
Qed.

Lemma validation_error_kind (vn : string) (tag : option string) (e : exn) :
  validation_error vn tag = Some e -> e = ValueError \/ e = TypeError.
Proof.
  unfold validation_error.
  destruct (_verify_version (Some vn) VERSIONS) as [e1|r1] eqn:H1.
  - intros [= <-]. by apply verify_version_raises in H1.
  - destruct (_ || _); [done|].
    destruct (_verify_version tag RELEASES) as [e2|r2] eqn:H2; [|done].
    intros [= <-]. by apply verify_version_raises in H2.
Qed.

(** The wrong number of arguments, or arguments that fail a check: the
    resolver raises [TypeError] or [ValueError] at once. *)
Lemma version_star_bad_arguments (info : list string) (w : World) :
  unpack info = None
  \/ (exists vn tag e, unpack info = Some (vn, tag)
                       /\ validation_error vn tag = Some e) ->
  exists e, (e = ValueError \/ e = TypeError)
            /\ version_star env info w = (w, Raise e).
Proof.
  intros [Hnone|(vn & tag & e & Hi & He)].
  - exists TypeError. split; [by right|]. unfold version_star.
    by destruct info as [|a [|b [|c l]]].
  - exists e. split; [by apply validation_error_kind in He|].
    by apply (version_star_validation_error env info vn tag).
Qed.

(** [sdist], [wininst], [all] and [version] called with the wrong number of
    arguments or with arguments that fail a check: the script prints its
    usage text and nothing else, changes nothing in the file system, and
    ends normally, so with exit status 0. *)
Theorem main_usage_on_bad_arguments (prog name : string) (info : list string)
    (w : World) :
  name = "sdist" \/ name = "wininst" \/ name = "all" \/ name = "version" ->
  unpack info = None
  \/ (exists vn tag e, unpack info = Some (vn, tag)
                       /\ validation_error vn tag = Some e) ->
  main env (prog :: name :: info) w
  = ({| fs := fs w; stdout := stdout w ++ [__doc__]; ticks := ticks w;
        sys_modules := sys_modules w |}, Ok tt)
  /\ exit_status (main env (prog :: name :: info) w).2 = 0%Z.
Proof.
  intros Hname Hbad.
  destruct (version_star_bad_arguments info w Hbad) as (e & He & Hv).
  assert (Hmain : main env (prog :: name :: info) w
                  = ({| fs := fs w; stdout := stdout w ++ [__doc__];
                        ticks := ticks w; sys_modules := sys_modules w |},
                     Ok tt)).
  { unfold main, try_except.
    assert (Hcmd : match globals env name with
                   | Some command => command info
                   | None => raise KeyError
                   end w = (w, Raise e)).
    { destruct Hname as [->|[->|[->| ->]]]; cbn [globals String.eqb];
        vm_compute (String.eqb _ _); cbv iota.
      - by apply bind_raise.
      - by apply bind_raise.
      - by apply bind_raise.
      - by apply bind_raise. }
    rewrite Hcmd. by destruct He as [-> | ->]. }
  split; [done|]. by rewrite Hmain.
Qed.

End UsageFacts.

Lemma main_usage_on_bad_arguments_witness :
  let env := Sample.env None None None in
  Package.main env ["package.py"; "all"; "2.1.13"; "alpha"] Sample.world
  = ({| Py.fs := Py.fs Sample.world;
        Py.stdout := Py.stdout Sample.world ++ [Package.__doc__];
        Py.ticks := Py.ticks Sample.world;
        Py.sys_modules := Py.sys_modules Sample.world |}, Py.Ok tt)
  /\ Package.exit_status
       (Package.main env ["package.py"; "all"; "2.1.13"; "alpha"] Sample.world).2
     = 0%Z.
Proof.
  intros env.
  apply (main_usage_on_bad_arguments env "package.py" "all" ["2.1.13"; "alpha"]
           Sample.world).
  - tauto.
  - right. exists "2.1.13", (Some "alpha"), Py.ValueError. split; reflexivity.
Defined.

(** ** Building the archives *)

Section BuildFacts.
Import Py Lib Package Notions.
Context (env : Env).

Lemma for_each_print {A} (line : A -> string) (items : list A) (w : World) :
  for_each items (fun x => print (line x)) w
  = ({| fs := fs w; stdout := stdout w ++ map line items; ticks := ticks w;
        sys_modules := sys_modules w |}, Ok tt).
Proof.
  revert w. induction items as [|x items IH]; intros w.
  - simpl. unfold ret. rewrite app_nil_r. by destruct w.
  - cbn [for_each map]. unfold bind, print at 1. rewrite IH.
    cbn [fs stdout ticks sys_modules]. by rewrite <- app_assoc.
Qed.

(** [_create] with a tool that exits with 0, and with one that does not. *)
Lemma create_run (command name : string) (w : World) (rc : Z) (f' : FS) :
  os_system env (sys_executable env +:+ " " +:+ path_str env (SETUP_PATH env)
                 +:+ " " +:+ command) (fs w) = (rc, f') ->
  _create env command name w
  = if (rc =? 0)%Z
    then ({| fs := f';
             stdout := stdout w ++ ["Creating " +:+ name +:+ "...";
                                    capitalize name +:+ " created successfully."];
             ticks := ticks w; sys_modules := sys_modules w |}, Ok tt)
    else ({| fs := f';
             stdout := stdout w ++ ["Creating " +:+ name +:+ "...";
                                    "Creating " +:+ name +:+ " failed."];
             ticks := ticks w; sys_modules := sys_modules w |},
          Raise (SystemExit rc)).
Proof.
  intros Hsys. unfold _create, bind, print, os_system_call, raise, set_fs.
  cbn [fs stdout ticks sys_modules]. rewrite Hsys.
  destruct (rc =? 0)%Z; unfold ret; cbn [negb fs stdout ticks sys_modules];
    by rewrite <- app_assoc.
Qed.

(** When [setup.py sdist] exits with a code other than 0 (after the version
    is resolved and the old output is cleaned away), the script says that
    creating the source distribution failed and exits through
    [sys.exit(rc)]; nothing is announced. *)
Theorem sdist_tool_failure (prog : string) (info : list string)
    (w w1 w2 : World) (ver : string) (rc : Z) (f' : FS) :
  version_star env info w = (w1, Ok ver) ->
  _clean env w1 = (w2, Ok tt) ->
  os_system env (sys_executable env +:+ " " +:+ path_str env (SETUP_PATH env)
                 +:+ " sdist --force-manifest") (fs w2) = (rc, f') ->
  rc <> 0%Z ->
  main env (prog :: "sdist" :: info) w
  = ({| fs := f';
        stdout := stdout w2 ++ ["Creating source distribution...";
                                "Creating source distribution failed."];
        ticks := ticks w2; sys_modules := sys_modules w2 |},
     Raise (SystemExit rc)).
Proof.
  intros Hv Hc Hsys Hrc.
  assert (Hrun : sdist env info w
                 = ({| fs := f';
                       stdout := stdout w2 ++ ["Creating source distribution...";
                                               "Creating source distribution failed."];
                       ticks := ticks w2; sys_modules := sys_modules w2 |},
                    Raise (SystemExit rc))).
  { unfold sdist.
    rewrite (bind_ok _ _ w w1 ver Hv). cbv beta.
    rewrite (bind_ok _ _ w1 w2 tt Hc). cbv beta.
    unfold _create_sdist.
    erewrite bind_raise; [reflexivity|].
    rewrite (create_run _ _ w2 rc f' Hsys).
    by rewrite (proj2 (Z.eqb_neq rc 0) Hrc). }
  unfold main, try_except.
  change (globals env "sdist") with (Some (sdist env)). cbv beta iota.
  by rewrite Hrun.
Qed.

(** When [setup.py sdist] exits with 0: if it left a directory [dist], the
    script announces every entry of it by its path and ends normally; if
    there is no directory [dist], listing it raises [OSError]. *)
Theorem sdist_announces_dist (info : list string) (w w1 w2 : World)
    (ver : string) (f' : FS) :
  version_star env info w = (w1, Ok ver) ->
  _clean env w1 = (w2, Ok tt) ->
  os_system env (sys_executable env +:+ " " +:+ path_str env (SETUP_PATH env)
                 +:+ " sdist --force-manifest") (fs w2) = (0%Z, f') ->
  (f' !! DIST_PATH env = Some Dir ->
   exists w',
     sdist env info w = (w', Ok tt)
     /\ fs w' = f'
     /\ stdout w'
        = stdout w2
          ++ ["Creating source distribution...";
              "Source distribution created successfully."; "Created:"]
          ++ map (fun name => path_str env (DIST_PATH env ++ [name]))
                 (map fst (entries f' (DIST_PATH env)))
     /\ forall name nd,
          f' !! (DIST_PATH env ++ [name]) = Some nd ->
          In (path_str env (DIST_PATH env ++ [name])) (stdout w'))
  /\ (f' !! DIST_PATH env <> Some Dir ->
      exists w', sdist env info w = (w', Raise OSError) /\ fs w' = f').
Proof.
  intros Hv Hc Hsys.
  assert (Hcreate := create_run "sdist --force-manifest" "source distribution"
                       w2 0 f' Hsys).
  cbn [Z.eqb] in Hcreate.
  change (capitalize "source distribution") with "Source distribution" in Hcreate.
  assert (Hlook : lookup_node f' (DIST_PATH env) = f' !! DIST_PATH env)
    by apply lookup_node_snoc.
  split.
  - intros Hdist. eexists. split; [|split; [|split]].
    + unfold sdist.
      rewrite (bind_ok _ _ w w1 ver Hv). cbv beta.
      rewrite (bind_ok _ _ w1 w2 tt Hc). cbv beta.
      unfold _create_sdist.
      rewrite (bind_ok _ _ w2 _ tt Hcreate). cbv beta.
      unfold _announce, bind, print at 1, os_listdir. cbn [fs].
      rewrite Hlook, Hdist. rewrite for_each_print. reflexivity.
    + done.
    + cbn [stdout]. rewrite <- !app_assoc. reflexivity.
    + intros name nd Hnd. cbn [stdout]. apply in_or_app. right.
      apply in_map_iff. exists name. split; [done|].
      apply in_map_iff. exists (name, nd). split; [done|].
      apply list_elem_of_In. by apply elem_of_entries.
  - intros Hdist. eexists. split; [|shelve].
    unfold sdist.
    rewrite (bind_ok _ _ w w1 ver Hv). cbv beta.
    rewrite (bind_ok _ _ w1 w2 tt Hc). cbv beta.
    unfold _create_sdist.
    rewrite (bind_ok _ _ w2 _ tt Hcreate). cbv beta.
    unfold _announce, bind, print at 1, os_listdir. cbn [fs].
    rewrite Hlook. destruct (f' !! DIST_PATH env) as [[data|]|]; done.
    Unshelve. done.
Qed.

(** A final Windows installer asked for where [os.sep] is not a backslash:
    after the version is resolved and the old output is cleaned away, the
    script says that no installer was created and ends normally; [setup.py]
    is not run, the file system is as the cleaning left it. *)
Theorem wininst_final_skipped (vn : string) (w w1 w2 : World) (ver : string) :
  os_sep env <> backslash ->
  version_star env [vn; "final"] w = (w1, Ok ver) ->
  _clean env w1 = (w2, Ok tt) ->
  wininst env [vn; "final"] w
  = ({| fs := fs w2;
        stdout := stdout w2
                  ++ ["Final Windows installers can only be created in Windows.";
                      "Windows installer was not created."];
        ticks := ticks w2; sys_modules := sys_modules w2 |}, Ok tt).
Proof.
  intros Hsep Hv Hc. unfold wininst.
  rewrite (bind_ok _ _ w w1 ver Hv). cbv beta.
  rewrite (bind_ok _ _ w1 w2 tt Hc). cbv beta.
  unfold _verify_platform_star, _verify_platform.
  rewrite bool_decide_eq_true_2 by done.
  rewrite (proj2 (String.eqb_neq _ _) Hsep). cbn [negb andb].
  unfold bind, print, ret. cbn [fs stdout ticks sys_modules].
  by rewrite <- app_assoc.
Qed.

End BuildFacts.

Lemma sdist_tool_failure_witness :
  let env := SampleBuild.env 256%Z in
  let w1 := (Package.version_star env ["2.8"; "final"] Sample.world).1 in
  let w2 := (Package._clean env w1).1 in
  Package.main env ["package.py"; "sdist"; "2.8"; "final"] Sample.world
  = ({| Py.fs := Py.fs w2;
        Py.stdout := Py.stdout w2 ++ ["Creating source distribution...";
                                      "Creating source distribution failed."];
        Py.ticks := Py.ticks w2; Py.sys_modules := Py.sys_modules w2 |},
     Py.Raise (Py.SystemExit 256)).
Proof.
  intros env w1 w2.
  apply (sdist_tool_failure env "package.py" ["2.8"; "final"] Sample.world
           w1 w2 "2.8" 256%Z (Py.fs w2)); [vm_run | vm_run | reflexivity | done].
Defined.

Lemma sdist_announces_dist_witness :
  let env := SampleBuild.env 0%Z in
  let w1 := (Package.version_star env ["2.8"; "final"] Sample.world).1 in
  let w2 := (Package._clean env w1).1 in
  let f' := <[["proj"; "dist"; "robotframework-2.8.tar.gz"] := Py.File "tar"]>
              (<[["proj"; "dist"] := Py.Dir]> (Py.fs w2)) in
  (f' !! Package.DIST_PATH env = Some Py.Dir ->
   exists w',
     Package.sdist env ["2.8"; "final"] Sample.world = (w', Py.Ok tt)
     /\ Py.fs w' = f'
     /\ Py.stdout w'
        = Py.stdout w2
          ++ ["Creating source distribution...";
              "Source distribution created successfully."; "Created:"]
          ++ map (fun name => Lib.path_str env (Package.DIST_PATH env ++ [name]))
                 (map fst (Lib.entries f' (Package.DIST_PATH env)))
     /\ forall name nd,
          f' !! (Package.DIST_PATH env ++ [name]) = Some nd ->
          In (Lib.path_str env (Package.DIST_PATH env ++ [name])) (Py.stdout w'))
  /\ (f' !! Package.DIST_PATH env <> Some Py.Dir ->
      exists w', Package.sdist env ["2.8"; "final"] Sample.world
                 = (w', Py.Raise Py.OSError) /\ Py.fs w' = f').
Proof.
  intros env w1 w2 f'.
  apply (sdist_announces_dist env ["2.8"; "final"] Sample.world w1 w2 "2.8" f');
    [vm_run | vm_run | reflexivity].
Defined.

Lemma wininst_final_skipped_witness :
  let env := SampleBuild.env 0%Z in
  let w1 := (Package.version_star env ["2.8"; "final"] Sample.world).1 in
  let w2 := (Package._clean env w1).1 in
  Package.wininst env ["2.8"; "final"] Sample.world
  = ({| Py.fs := Py.fs w2;
        Py.stdout := Py.stdout w2
                     ++ ["Final Windows installers can only be created in Windows.";
                         "Windows installer was not created."];
        Py.ticks := Py.ticks w2; Py.sys_modules := Py.sys_modules w2 |},
     Py.Ok tt).
Proof.
  intros env w1 w2.
  apply (wininst_final_skipped env "2.8" Sample.world w1 w2 "2.8");
    [discriminate | vm_run | vm_run].
Defined.

(** ** Both distributions at once, and a compiler that is not installed *)

Section MoreBuildFacts.
Import Py Lib Package Notions.
Context (env : Env).

Lemma announce_run (w : World) :
  fs w !! DIST_PATH env = Some Dir ->
  _announce env w
  = ({| fs := fs w;
        stdout := stdout w
                  ++ "Created:"
                     :: map (fun name => path_str env (DIST_PATH env ++ [name]))
                            (map fst (entries (fs w) (DIST_PATH env)));
        ticks := ticks w; sys_modules := sys_modules w |}, Ok tt).
Proof.
  intros Hdist.
  assert (Hlook : lookup_node (fs w) (DIST_PATH env) = fs w !! DIST_PATH env)
    by apply lookup_node_snoc.
  unfold _announce, bind, print at 1, os_listdir. cbn [fs].
  rewrite Hlook, Hdist. rewrite for_each_print.
  cbn [fs stdout ticks sys_modules]. by rewrite <- app_assoc.
Qed.

(** [all] for a final release where [os.sep] is not a backslash: when
    [setup.py sdist] exits with 0 and leaves a directory [dist], the script
    builds the source distribution only, says that no Windows installer was
    created, announces the entries of [dist] and ends normally; [setup.py]
    has run once. *)
Theorem all_final_builds_sdist_only (vn : string) (w w1 w2 : World)
    (ver : string) (f' : FS) :
  os_sep env <> backslash ->
  version_star env [vn; "final"] w = (w1, Ok ver) ->
  _clean env w1 = (w2, Ok tt) ->
  os_system env (sys_executable env +:+ " " +:+ path_str env (SETUP_PATH env)
                 +:+ " sdist --force-manifest") (fs w2) = (0%Z, f') ->
  f' !! DIST_PATH env = Some Dir ->
  all env [vn; "final"] w
  = ({| fs := f';
        stdout := stdout w2
                  ++ ["Creating source distribution...";
                      "Source distribution created successfully.";
                      "Final Windows installers can only be created in Windows.";
                      "Windows installer was not created.";
                      "Created:"]
                  ++ map (fun name => path_str env (DIST_PATH env ++ [name]))
                         (map fst (entries f' (DIST_PATH env)));
        ticks := ticks w2; sys_modules := sys_modules w2 |}, Ok tt).
Proof.
  intros Hsep Hv Hc Hsys Hdist.
  assert (Hcreate := create_run env "sdist --force-manifest" "source distribution"
                       w2 0 f' Hsys).
  cbn [Z.eqb] in Hcreate.
  change (capitalize "source distribution") with "Source distribution" in Hcreate.
  unfold all.
  rewrite (bind_ok _ _ w w1 ver Hv). cbv beta.
  rewrite (bind_ok _ _ w1 w2 tt Hc). cbv beta.
  unfold _create_sdist.
  rewrite (bind_ok _ _ w2 _ tt Hcreate). cbv beta.
  unfold _verify_platform_star, _verify_platform.
  rewrite bool_decide_eq_true_2 by done.
  rewrite (proj2 (String.eqb_neq _ _) Hsep). cbn [negb andb].
  unfold bind, print, ret. cbn [fs stdout ticks sys_modules].
  rewrite announce_run by done.
  cbn [fs stdout ticks sys_modules]. by rewrite <- !app_assoc.
Qed.

(** When no program [javac] can be started, [jar] ends with the [OSError]
    of the failed start: the handler for failed tools does not take it, the
    advice about [javac] is not printed, and the staging directory that was
    just made stays. *)
Theorem jar_missing_compiler_leaves_staging (info : list string)
    (w w1 w2 w3 : World) (jython_jar tmpdir : path) (ver : string) :
  (forall argv cwd shell f,
      head argv = Some "javac" -> spawn env argv cwd shell f = NotFound) ->
  _get_jython_jar env w = (w1, Ok jython_jar) ->
  version_star env info
    (print ("Using Jython " +:+ path_str env jython_jar) w1).1 = (w2, Ok ver) ->
  _create_tmpdir env w2 = (w3, Ok tmpdir) ->
  lookup_node (fs w3) (JAVA_SRC env) = Some Dir ->
  exists n,
    jar env info w
    = ({| fs := fs w3;
          stdout := stdout w3 ++ ["Compiling " +:+ PyStr.format_d n
                                  +:+ " source files"];
          ticks := ticks w3; sys_modules := sys_modules w3 |}, Raise OSError)
    /\ fs w3 !! tmpdir = Some Dir.
Proof.
  intros Hjavac H1 H2 H3 Hsrc.
  set (sources := map (fun f => path_str env (JAVA_SRC env ++ [f]))
                      (filter (fun f => PyStr.endswith f ".java" = true)
                              (map fst (entries (fs w3) (JAVA_SRC env))))).
  exists (Z.of_nat (length sources)).
  set (wc := {| fs := fs w3;
                stdout := stdout w3
                          ++ ["Compiling "
                              +:+ PyStr.format_d (Z.of_nat (length sources))
                              +:+ " source files"];
                ticks := ticks w3; sys_modules := sys_modules w3 |}).
  assert (Hc : _compile_java_classes env tmpdir jython_jar w3
               = (wc, Raise OSError)).
  { unfold _compile_java_classes, bind, os_listdir, print,
      subprocess_check_call.
    rewrite Hsrc. cbn [fs]. by rewrite Hjavac. }
  split.
  - unfold jar. rewrite (bind_ok _ _ w w1 jython_jar H1). cbv beta.
    unfold bind at 1. unfold print at 1.
    unfold print in H2. cbn [fst] in H2.
    rewrite (bind_ok _ _ _ w2 ver H2). cbv beta.
    rewrite (bind_ok _ _ w2 w3 tmpdir H3). cbv beta.
    apply bind_raise. unfold try_except.
    by rewrite (bind_raise _ _ w3 wc OSError Hc).
  - revert H3. unfold _create_tmpdir, bind, ret, os_mkdir, set_fs.
    intros H3. repeat (case_match; simplify_eq); cbn [fs];
      apply lookup_insert_eq.
Qed.

End MoreBuildFacts.

Lemma all_final_builds_sdist_only_witness :
  let env := SampleBuild.env 0%Z in
  let w1 := (Package.version_star env ["2.8"; "final"] Sample.world).1 in
  let w2 := (Package._clean env w1).1 in
  let f' := <[["proj"; "dist"; "robotframework-2.8.tar.gz"] := Py.File "tar"]>
              (<[["proj"; "dist"] := Py.Dir]> (Py.fs w2)) in
  Package.all env ["2.8"; "final"] Sample.world
  = ({| Py.fs := f';
        Py.stdout := Py.stdout w2
                  ++ ["Creating source distribution...";
                      "Source distribution created successfully.";
                      "Final Windows installers can only be created in Windows.";
                      "Windows installer was not created.";
                      "Created:"]
                  ++ map (fun name => Lib.path_str env (Package.DIST_PATH env ++ [name]))
                         (map fst (Lib.entries f' (Package.DIST_PATH env)));
        Py.ticks := Py.ticks w2; Py.sys_modules := Py.sys_modules w2 |},
     Py.Ok tt).
Proof.
  intros env w1 w2 f'.
  apply (all_final_builds_sdist_only env "2.8" Sample.world w1 w2 "2.8" f');
    [discriminate | vm_run | vm_run | reflexivity | vm_refl].
Defined.

Lemma jar_missing_compiler_leaves_staging_witness :
  let env := Sample.env None (Some 0%Z) (Some 0%Z) in
  let w1 := (Package._get_jython_jar env Sample.world).1 in
  let w2 := (Package.version_star env ["2.8"; "final"]
               (Py.print ("Using Jython " +:+ Lib.path_str env Sample.jython_jar)
                  w1).1).1 in
  let w3 := (Package._create_tmpdir env w2).1 in
  exists n,
    Package.jar env ["2.8"; "final"] Sample.world
    = ({| Py.fs := Py.fs w3;
          Py.stdout := Py.stdout w3 ++ ["Compiling " +:+ PyStr.format_d n
                                        +:+ " source files"];
          Py.ticks := Py.ticks w3; Py.sys_modules := Py.sys_modules w3 |},
       Py.Raise Py.OSError)
    /\ Py.fs w3 !! Sample.tmp = Some Py.Dir.
Proof.
  intros env w1 w2 w3.
  apply (jar_missing_compiler_leaves_staging env ["2.8"; "final"] Sample.world
           w1 w2 w3 Sample.jython_jar Sample.tmp "2.8").
  - intros [|a argv] cwd shell f Hhd; [done|].
    injection Hhd as ->. reflexivity.
  - vm_run.
  - vm_run.
  - vm_run.
  - vm_refl.
Defined.

Lemma pretty_of_plain_path_witness :
  ListenImports._pretty
    (ListenImports.AStr ("/" +:+ PyStr.join "/" (["lib"; "pkg"] ++ ["__init__.py"])))
  = ListenImports.AStr
      ("//" +:+ if bool_decide ("__init__.py" = "__init__.py")
                then PyStr.join "/"
                       (PyStr.last_items 2
                          (EmptyString :: ["lib"; "pkg"] ++ ["__init__.py"]))
                else "__init__.py").
Proof.
  apply (pretty_of_plain_path ["lib"; "pkg"] "__init__.py");
    [repeat constructor | reflexivity].
Defined.

(** ** The listener's report *)

Section ListenerFacts.
Import Py ListenImports Listener.

Lemma compare_le_trans (a b c : string) :
  String.compare a b <> Gt -> String.compare b c <> Gt ->
  String.compare a c <> Gt.
Proof.
  revert b c. induction a as [|x a IH]; intros [|y b] [|z c]; simpl; try done.
  unfold Ascii.compare.
  destruct (N.compare_spec (N_of_ascii x) (N_of_ascii y)) as [Hxy|Hxy|Hxy];
    destruct (N.compare_spec (N_of_ascii y) (N_of_ascii z)) as [Hyz|Hyz|Hyz];
    destruct (N.compare_spec (N_of_ascii x) (N_of_ascii z)) as [Hxz|Hxz|Hxz];
    try done; try lia.
  apply IH.
Qed.

#[local] Instance str_le_trans : Transitive str_le.
Proof.
  intros a b c. unfold str_le, String.leb. intros Hab Hbc.
  assert (H := compare_le_trans a b c).
  destruct (String.compare a b), (String.compare b c),
    (String.compare a c); try done; by exfalso; apply H.
Qed.

#[local] Instance str_le_antisym : AntiSymm (=) str_le.
Proof. intros a b. apply String.leb_antisym. Qed.

#[local] Instance str_le_total : Total str_le.
Proof. intros a b. apply String.leb_total. Qed.

Lemma sorted_perm (l l' : list string) : l ≡ₚ l' -> sorted l = sorted l'.
Proof.
  intros H. unfold sorted. apply (Sorted_unique str_le).
  - apply Sorted_merge_sort, _.
  - apply Sorted_merge_sort, _.
  - by rewrite !merge_sort_Permutation.
Qed.

Lemma getitem_elem (attrs : list (string * attr)) (name : string) (v : attr) :
  NoDup (map fst attrs) -> (name, v) ∈ attrs -> getitem attrs name = Ok v.
Proof.
  unfold getitem. induction attrs as [|[k u] attrs IH]; intros Hnd Hin.
  - by apply elem_of_nil in Hin.
  - apply NoDup_cons in Hnd as [Hk Hnd]. cbn [find fst].
    apply elem_of_cons in Hin as [Heq|Hin].
    + injection Heq as <- <-. by rewrite String.eqb_refl.
    + destruct (String.eqb k name) eqn:Hkn.
      * apply String.eqb_eq in Hkn as ->. exfalso. apply Hk.
        apply list_elem_of_fmap. by exists (name, v).
      * by apply IH.
Qed.

Lemma getitem_Ok (attrs : list (string * attr)) (name : string) (v : attr) :
  getitem attrs name = Ok v -> (name, v) ∈ attrs.
Proof.
  unfold getitem. induction attrs as [|[k u] attrs IH]; [done|].
  cbn [find fst]. destruct (String.eqb k name) eqn:Hk.
  - apply String.eqb_eq in Hk as ->. intros [= ->]. by left.
  - intros H. right. by apply IH.
Qed.

(** Whatever the order in which the dict [attrs] is iterated, the listener
    writes the same text: what was written before, the two header lines,
    and then one line for every attribute, in ascending order of the
    names; no lookup fails. *)
Theorem imported_order_independent (import_type name : string)
    (attrs attrs' : list (string * attr)) (imports : string) :
  NoDup (map fst attrs) ->
  attrs ≡ₚ attrs' ->
  let header := "Imported " +:+ import_type +:+ PyStr.nl
                +:+ tab +:+ "name: " +:+ name +:+ PyStr.nl in
  let line := fun kv : string * attr =>
                tab +:+ kv.1 +:+ ": " +:+ percent_s (_pretty kv.2)
                    +:+ PyStr.nl in
  _imported import_type name attrs' imports
  = _imported import_type name attrs imports
  /\ exists items,
       items ≡ₚ attrs
       /\ Sorted str_le (map fst items)
       /\ _imported import_type name attrs imports
          = Ok (imports +:+ header +:+ String.concat "" (map line items)).
Proof.
  intros Hnd Hperm header line.
  assert (Hget : forall k v, (k, v) ∈ attrs ->
                   getitem attrs k = Ok v /\ getitem attrs' k = Ok v).
  { intros k v Hin. split; [by apply getitem_elem|].
    apply getitem_elem; [by rewrite <- Hperm | by rewrite <- Hperm]. }
  assert (Hkeys : forall k, k ∈ sorted (map fst attrs) ->
                    exists v, (k, v) ∈ attrs).
  { intros k Hk. unfold sorted in Hk. rewrite merge_sort_Permutation in Hk.
    apply list_elem_of_fmap in Hk as ([k' v] & -> & Hin). by exists v. }
  set (step := fun (d : list (string * attr))
                    (written : result string) (name : string) =>
         match written with
         | Ok imports =>
             match getitem d name with
             | Ok v => Ok (imports +:+ tab +:+ name +:+ ": "
                                   +:+ percent_s (_pretty v) +:+ PyStr.nl)
             | Raise e => Raise e
             end
         | Raise e => Raise e
         end).
  assert (Hstep : forall d text k v,
            getitem d k = Ok v ->
            step d (Ok text) k
            = Ok (text +:+ tab +:+ k +:+ ": " +:+ percent_s (_pretty v)
                       +:+ PyStr.nl)).
  { intros d text k v Hd. unfold step. by rewrite Hd. }
  assert (Hrun : forall ks text,
            (forall k, k ∈ ks -> exists v, (k, v) ∈ attrs) ->
            fold_left (step attrs') ks (Ok text)
            = fold_left (step attrs) ks (Ok text)
            /\ exists items,
                 map fst items = ks
                 /\ (forall kv, kv ∈ items -> kv ∈ attrs)
                 /\ fold_left (step attrs) ks (Ok text)
                    = Ok (text +:+ String.concat "" (map line items))).
  { clearbody step.
    induction ks as [|k ks IH]; intros text Hks.
    - split; [done|]. exists []. split; [done|]. split.
      + intros kv Hkv. by apply elem_of_nil in Hkv.
      + simpl. by rewrite append_nil_r.
    - destruct (Hks k) as [v Hv]; [by left|].
      destruct (Hget k v Hv) as [H1 H2]. cbn [fold_left].
      rewrite (Hstep attrs' text k v H2), (Hstep attrs text k v H1).
      destruct (IH (text +:+ tab +:+ k +:+ ": " +:+ percent_s (_pretty v)
                         +:+ PyStr.nl))
        as (IH1 & items & Hfst & Hall & IH2).
      { intros k' Hk'. apply Hks. by right. }
      split; [done|]. exists ((k, v) :: items).
      split; [by rewrite <- Hfst|]. split.
      + intros kv Hkv. apply elem_of_cons in Hkv as [->|Hkv]; [done|].
        by apply Hall.
      + rewrite IH2. f_equal. cbn [map]. unfold line at 2. cbn [fst snd].
        destruct (map line items) as [|l ls]; cbn [String.concat].
        * by rewrite !append_assoc, append_nil_r.
        * by rewrite !append_assoc, append_nil. }
  unfold _imported. fold header.
  rewrite <- (sorted_perm (map fst attrs) (map fst attrs'))
    by (by apply fmap_Permutation).
  destruct (Hrun (sorted (map fst attrs)) (imports +:+ header) Hkeys)
    as (Hsame & items & Hfst & Hall & Hout).
  split; [exact Hsame|]. exists items.
  assert (Hks : NoDup (sorted (map fst attrs))).
  { unfold sorted. by rewrite merge_sort_Permutation. }
  split; [|split].
  - apply NoDup_Permutation.
    + apply (NoDup_fmap_1 fst). change (NoDup (map fst items)).
      by rewrite Hfst.
    + by apply (NoDup_fmap_1 fst).
    + intros [k v]. split; [apply Hall|]. intros Hin.
      assert (Hk : k ∈ map fst items).
      { rewrite Hfst. unfold sorted. rewrite merge_sort_Permutation.
        apply list_elem_of_fmap. by exists (k, v). }
      apply list_elem_of_fmap in Hk as ([k' v'] & Hk' & Hin').
      cbn [fst] in Hk'. subst k'.
      assert (Hv := Hall _ Hin').
      destruct (Hget k v Hin) as [Hg _]. destruct (Hget k v' Hv) as [Hg' _].
      rewrite Hg in Hg'. by injection Hg' as ->.
  - rewrite Hfst. apply Sorted_merge_sort, _.
  - etrans; [exact Hout|]. by rewrite append_assoc.
Qed.

End ListenerFacts.

Lemma imported_order_independent_witness :
  let attrs := [("source", ListenImports.AStr "/lib/pkg/__init__.pyc");
                ("args", ListenImports.AList ["x"; "y"])] in
  let attrs' := [("args", ListenImports.AList ["x"; "y"]);
                 ("source", ListenImports.AStr "/lib/pkg/__init__.pyc")] in
  let header := "Imported " +:+ "Library" +:+ PyStr.nl
                +:+ Listener.tab +:+ "name: " +:+ "OperatingSystem" +:+ PyStr.nl in
  let line := fun kv : string * ListenImports.attr =>
                Listener.tab +:+ kv.1 +:+ ": "
                  +:+ Listener.percent_s (ListenImports._pretty kv.2)
                  +:+ PyStr.nl in
  Listener._imported "Library" "OperatingSystem" attrs' ""
  = Listener._imported "Library" "OperatingSystem" attrs ""
  /\ exists items,
       items ≡ₚ attrs
       /\ Sorted Listener.str_le (map fst items)
       /\ Listener._imported "Library" "OperatingSystem" attrs ""
          = Py.Ok ("" +:+ header +:+ String.concat "" (map line items)).
Proof.
  intros attrs attrs'.
  apply (imported_order_independent "Library" "OperatingSystem" attrs attrs' "").
  - by apply (bool_decide_unpack _).
  - apply perm_swap.
Defined.

(** ** The copy of [src/robot] in the staging tree *)

Section CopyFacts.
Import Py Lib Package Notions.
Context (env : Env).

Lemma fold_insert_lookup_some {X} (key : X -> path) (val : X -> node)
    (l : list X) (f : FS) (p : path) (v : node) :
  f !! p = Some v \/ (exists x, x ∈ l /\ key x = p) ->
  (forall x, x ∈ l -> key x = p -> val x = v) ->
  fold_left (fun (g : FS) x => <[key x := val x]> g) l f !! p = Some v.
Proof.
  revert f. induction l as [|x l IH]; intros f Hsome Hall.
  - destruct Hsome as [H|(x & Hx & _)]; [done|]. by apply elem_of_nil in Hx.
  - simpl. apply IH.
    + destruct (decide (key x = p)) as [Hk|Hk].
      * left. rewrite Hk, lookup_insert_eq. f_equal. apply Hall; [by left|done].
      * destruct Hsome as [H|(y & Hy & Hky)].
        -- left. by rewrite lookup_insert_ne.
        -- apply elem_of_cons in Hy as [->|Hy]; [done|]. right. eauto.
    + intros y Hy. apply Hall. by right.
Qed.

Lemma is_prefix_app_both (d a b : path) :
  is_prefix (d ++ a) (d ++ b) = is_prefix a b.
Proof. induction d as [|x d IH]; [done|]. simpl. by rewrite String.eqb_refl. Qed.

Lemma is_prefix_below (d rel : path) :
  rel <> [] -> is_prefix (d ++ rel) d = false.
Proof.
  intros Hrel. rewrite <- (app_nil_r d) at 2. rewrite is_prefix_app_both.
  by destruct rel.
Qed.

Lemma lookup_node_app (f : FS) (d rel : path) :
  rel <> [] -> lookup_node f (d ++ rel) = f !! (d ++ rel).
Proof. intros Hrel. unfold lookup_node. by destruct d, rel. Qed.

(** Nothing at or below [top], checked on the entries of the tree. *)
Lemma nothing_below (f : FS) (top : path) :
  forallb (fun kv : path * node => negb (is_prefix top kv.1)) (map_to_list f)
  = true ->
  forall q, is_prefix top q = true -> f !! q = None.
Proof.
  intros Hall q Hq. destruct (f !! q) as [n|] eqn:Hn; [|done].
  rewrite forallb_forall in Hall.
  apply elem_of_map_to_list, list_elem_of_In, Hall in Hn.
  simpl in Hn. by rewrite Hq in Hn.
Qed.

(** What [shutil.copytree] with the pattern [*.pyc] leaves below a
    target that had nothing below it. *)
Lemma copytree_lookup (src dst : path) (w w1 : World) :
  shutil_copytree_no_pyc src dst w = (w1, Ok tt) ->
  (forall q, is_prefix dst q = true -> fs w !! q = None) ->
  forall rel, rel <> [] ->
    fs w1 !! (dst ++ rel)
    = if existsb is_pyc rel then None else fs w !! (src ++ rel).
Proof.
  unfold shutil_copytree_no_pyc. intros Hrun Hfree rel Hrel.
  destruct (lookup_node (fs w) src) as [[data|]|]; try done.
  destruct (lookup_node (fs w) dst); try done.
  injection Hrun as <-. cbn [fs set_fs].
  match goal with
  | |- fold_left _ (omap ?pk _) _ !! _ = _ => set (pick := pk)
  end.
  assert (Hin : forall k v,
            (k, v) ∈ omap pick (map_to_list (fs w))
            <-> exists r, r <> [] /\ existsb is_pyc r = false
                          /\ k = dst ++ r /\ fs w !! (src ++ r) = Some v).
  { intros k v. rewrite list_elem_of_omap. split.
    - intros ([k0 v0] & Hel & Hp). apply elem_of_map_to_list in Hel.
      unfold pick in Hp. cbn [fst snd] in Hp.
      destruct (is_prefix src k0) eqn:Hpre; [|done].
      apply is_prefix_spec in Hpre as [r ->].
      rewrite drop_app_length in Hp. destruct r as [|a r]; [done|].
      destruct (existsb is_pyc (a :: r)) eqn:Hpyc; [done|].
      injection Hp as <- <-. exists (a :: r). done.
    - intros (r & Hr & Hpyc & -> & Hv). exists (src ++ r, v).
      split; [by apply elem_of_map_to_list|].
      unfold pick. cbn [fst snd]. rewrite is_prefix_app, drop_app_length.
      destruct r as [|a r]; [done|]. by rewrite Hpyc. }
  assert (Hold : make_dirs (fs w) dst !! (dst ++ rel) = None).
  { rewrite make_dirs_lookup by (by apply is_prefix_below).
    apply Hfree, is_prefix_app. }
  destruct (existsb is_pyc rel) eqn:Hpyc.
  - rewrite (fold_insert_lookup fst snd); [done|].
    intros [k v] Hel Heq. cbn [fst] in Heq. subst k.
    apply Hin in Hel as (r & _ & Hr & Heq & _).
    apply app_inv_head in Heq as ->. congruence.
  - destruct (fs w !! (src ++ rel)) as [v|] eqn:Hv.
    + apply (fold_insert_lookup_some fst snd).
      * right. exists (dst ++ rel, v). split; [|done]. apply Hin. eauto.
      * intros [k v'] Hel Heq. cbn [fst snd] in *. subst k.
        apply Hin in Hel as (r & _ & _ & Heq & Hv').
        apply app_inv_head in Heq as ->. congruence.
    + rewrite (fold_insert_lookup fst snd); [done|].
      intros [k v] Hel Heq. cbn [fst] in Heq. subst k.
      apply Hin in Hel as (r & _ & _ & Heq & Hv').
      apply app_inv_head in Heq as ->. congruence.
Qed.


(** A source tree without a directory [htmldata/testdata] cannot be
    staged: with nothing yet at [Lib/robot], [_copy_robot_files] ends with
    [OSError], whatever else [src/robot] holds. *)
Theorem copy_robot_files_needs_testdata (tmpdir : path) (w : World) :
  let todir := tmpdir ++ ["Lib"; "robot"] in
  fs w !! (ROBOT_PATH env ++ ["htmldata"; "testdata"]) <> Some Dir ->
  (forall q, is_prefix todir q = true -> fs w !! q = None) ->
  exists w', _copy_robot_files env tmpdir w = (w', Raise OSError).
Proof.
  intros todir Htest Hfree.
  destruct (shutil_copytree_no_pyc (ROBOT_PATH env) todir w)
    as [w1 [e|[]]] eqn:Hcopy.
  - exists w1. unfold _copy_robot_files. fold todir.
    apply bind_raise. rewrite Hcopy. f_equal. f_equal.
    revert Hcopy. unfold shutil_copytree_no_pyc.
    repeat case_match; by intros [= <- <-].
  - assert (Hw1 := copytree_lookup _ _ _ _ Hcopy Hfree).
    eexists. unfold _copy_robot_files. fold todir.
    rewrite (bind_ok _ _ w w1 tt Hcopy). unfold shutil_rmtree.
    rewrite lookup_node_app by done. rewrite Hw1 by done. cbn [existsb orb].
    change (is_pyc "htmldata" || (is_pyc "testdata" || false)) with false.
    cbv iota.
    destruct (fs w !! (ROBOT_PATH env ++ ["htmldata"; "testdata"]))
      as [[data|]|]; done.
Qed.

End CopyFacts.


Lemma copy_robot_files_needs_testdata_witness :
  let env := Sample.env None None None in
  let w := Py.set_fs
             (delete ["proj"; "src"; "robot"; "htmldata"; "testdata"]
                (<[Sample.tmp := Py.Dir]> Sample.tree))
             Sample.world in
  exists w', Package._copy_robot_files env Sample.tmp w = (w', Py.Raise Py.OSError).
Proof.
  intros env w.
  apply (copy_robot_files_needs_testdata env Sample.tmp w);
    [vm_compute; discriminate | apply nothing_below; vm_refl].
Defined.

(** ** A Windows installer made elsewhere *)

Section InstallerFacts.
Import Py Lib Package Notions.
Context (env : Env).

(** A Windows installer of a release that is not final, where [os.sep] is
    not a backslash: when [setup.py bdist_wininst] (with the bitmap and the
    install script) exits with 0 and leaves a directory [dist], the script
    warns that the installer may differ from one made in Windows, announces
    the entries of [dist] and ends normally. *)
Theorem wininst_elsewhere_warns (vn t : string) (w w1 w2 : World)
    (ver : string) (f' : FS) :
  os_sep env <> backslash ->
  t <> "final" ->
  version_star env [vn; t] w = (w1, Ok ver) ->
  _clean env w1 = (w2, Ok tt) ->
  os_system env (sys_executable env +:+ " " +:+ path_str env (SETUP_PATH env)
                 +:+ " bdist_wininst --bitmap "
                 +:+ path_str env (ROOT_PATH env ++ ["robot.bmp"])
                 +:+ " --install-script robot_postinstall.py") (fs w2)
  = (0%Z, f') ->
  f' !! DIST_PATH env = Some Dir ->
  wininst env [vn; t] w
  = ({| fs := f';
        stdout := stdout w2
                  ++ ["Creating Windows installer...";
                      "Windows installer created successfully.";
                      "Warning: Windows installers created on other platforms may not";
                      "be exactly identical to ones created in Windows.";
                      "Created:"]
                  ++ map (fun name => path_str env (DIST_PATH env ++ [name]))
                         (map fst (entries f' (DIST_PATH env)));
        ticks := ticks w2; sys_modules := sys_modules w2 |}, Ok tt).
Proof.
  intros Hsep Ht Hv Hc Hsys Hdist.
  assert (Hcreate := create_run env
                       ("bdist_wininst --bitmap " +:+ path_str env (BITMAP env)
                        +:+ " --install-script " +:+ INSTALL_SCRIPT)
                       "Windows installer" w2 0 f').
  cbn [Z.eqb] in Hcreate.
  change (capitalize "Windows installer") with "Windows installer" in Hcreate.
  unfold wininst.
  rewrite (bind_ok _ _ w w1 ver Hv). cbv beta.
  rewrite (bind_ok _ _ w1 w2 tt Hc). cbv beta.
  unfold _verify_platform_star, _verify_platform.
  rewrite bool_decide_eq_false_2 by congruence. cbn [andb].
  unfold bind at 1. unfold ret at 1. cbv beta iota. unfold _create_wininst.
  unfold bind at 1.
  rewrite (bind_ok _ _ w2 _ tt (Hcreate Hsys)).
  rewrite (proj2 (String.eqb_neq _ _) Hsep). cbn [negb].
  unfold bind, print. cbn [fs stdout ticks sys_modules].
  rewrite announce_run by done.
  cbn [fs stdout ticks sys_modules]. by rewrite <- !app_assoc.
Qed.

End InstallerFacts.

Lemma wininst_elsewhere_warns_witness :
  let env := SampleBuild.env 0%Z in
  let w1 := (Package.version_star env ["2.8"; "rc1"] Sample.world).1 in
  let w2 := (Package._clean env w1).1 in
  let f' := <[["proj"; "dist"; "robotframework-2.8.tar.gz"] := Py.File "tar"]>
              (<[["proj"; "dist"] := Py.Dir]> (Py.fs w2)) in
  Package.wininst env ["2.8"; "rc1"] Sample.world
  = ({| Py.fs := f';
        Py.stdout := Py.stdout w2
                  ++ ["Creating Windows installer...";
                      "Windows installer created successfully.";
                      "Warning: Windows installers created on other platforms may not";
                      "be exactly identical to ones created in Windows.";
                      "Created:"]
                  ++ map (fun name => Lib.path_str env (Package.DIST_PATH env ++ [name]))
                         (map fst (Lib.entries f' (Package.DIST_PATH env)));
        Py.ticks := Py.ticks w2; Py.sys_modules := Py.sys_modules w2 |},
     Py.Ok tt).
Proof.
  intros env w1 w2 f'.
  apply (wininst_elsewhere_warns env "2.8" "rc1" Sample.world w1 w2 "2.8rc1" f');
    [discriminate | discriminate | vm_run | vm_run | reflexivity | vm_refl].
Defined.
